(** * eas-sdk: the request orchestrator of test/test/helpers/eas.ts

    The four helpers [expectAttestation], [expectMultiAttestations],
    [expectRevocation] and [expectMultiRevocations] drive the EAS
    collaborators (the ledger binding, the EIP-712 signers, the transaction
    wrapper).  Every [await]ed collaborator call is an [event]; a helper is a
    finite tree of such calls ([prog]); [run] plays a tree against an
    arbitrary collaborator implementation and records the calls it made. *)

From Stdlib Require Import ZArith List String Bool Lia DecimalString.
Import ListNotations.
Open Scope string_scope.
Open Scope Z_scope.

(** ** Data model (dist/eas.d.ts and the imports of the helper) *)

(** [export declare const NO_EXPIRATION = 0;] *)
Definition NO_EXPIRATION : Z := 0.

(** Modelled from the spec: test/utils/Constants is not part of the sources;
    the zero reference UID is "a defined all-zero identifier of fixed width"
    (32 bytes, as a hex string). *)
Definition ZERO_BYTES32 : string :=
  "0x0000000000000000000000000000000000000000000000000000000000000000".

(** Modelled from the spec: test/utils/Constants is not part of the sources;
    the zero payload is the "empty byte sequence". *)
Definition ZERO_BYTES : string := "0x".

Inductive SignatureType : Type :=
| Direct
| Delegated
| DelegatedProxy
| Offchain.

(** [from: BaseWallet]; only [address] is read by the helpers, the key is what
    the signers use. *)
Record BaseWallet : Type := {
  address : string;
  privateKey : string
}.

(** [bigint | Promise<bigint>]: a promise is an object, so it is truthy
    whatever it resolves to, and its [toString()] is the object tag. *)
Inductive fee : Type :=
| FeeBigint (z : Z)
| FeePromise (z : Z).

Record AttestationOptions : Type := {
  signatureType : option SignatureType;
  deadline : option Z;
  from : BaseWallet;
  opt_value : option Z;
  maxPriorityFeePerGas : option fee;
  maxFeePerGas : option fee;
  bump : option Z
}.

(** [RevocationOptions] is [RequestOptions] with nothing added. *)
Record RevocationOptions : Type := {
  r_signatureType : option SignatureType;
  r_deadline : option Z;
  r_from : BaseWallet;
  r_opt_value : option Z;
  r_maxPriorityFeePerGas : option fee;
  r_maxFeePerGas : option fee
}.

(** The caller's request: optional members may be left out. *)
Record AttestationRequestData : Type := {
  rd_recipient : string;
  rd_data : string;
  rd_expirationTime : option Z;
  rd_revocable : option bool;
  rd_refUID : option string;
  rd_value : option Z
}.

(** The object literal [{ recipient, expirationTime, revocable, refUID, data,
    value }] the single-request paths hand to the ledger binding: every member
    is set. *)
Record ResolvedAttestationData : Type := {
  recipient : string;
  expirationTime : Z;
  revocable : bool;
  refUID : string;
  data : string;
  value : Z
}.

Record AttestationRequest : Type := {
  ar_schema : string;
  ar_data : ResolvedAttestationData
}.

Record Signature : Type := {
  sig_r : string;
  sig_s : string;
  sig_v : Z
}.

Record DelegatedAttestationRequest : Type := {
  dar_schema : string;
  dar_data : ResolvedAttestationData;
  dar_signature : Signature;
  dar_attester : string
}.

Record DelegatedProxyAttestationRequest : Type := {
  dpar_schema : string;
  dpar_data : ResolvedAttestationData;
  dpar_signature : Signature;
  dpar_attester : string;
  dpar_deadline : Z
}.

Record MultiAttestationRequest : Type := {
  mar_schema : string;
  mar_data : list AttestationRequestData
}.

Record MultiDelegatedAttestationRequest : Type := {
  mdar_schema : string;
  mdar_data : list AttestationRequestData;
  mdar_signatures : list Signature;
  mdar_attester : string
}.

Record MultiDelegatedProxyAttestationRequest : Type := {
  mdpar_schema : string;
  mdpar_data : list AttestationRequestData;
  mdpar_signatures : list Signature;
  mdpar_attester : string;
  mdpar_deadline : Z
}.

Record RevocationRequestData : Type := {
  rv_uid : string;
  rv_value : option Z
}.

(** [{ uid, value }] after the destructuring default of [value]. *)
Record ResolvedRevocationData : Type := {
  uid : string;
  rvalue : Z
}.

Record RevocationRequest : Type := {
  rr_schema : string;
  rr_data : ResolvedRevocationData
}.

Record DelegatedRevocationRequest : Type := {
  drr_schema : string;
  drr_data : ResolvedRevocationData;
  drr_signature : Signature;
  drr_revoker : string
}.

Record DelegatedProxyRevocationRequest : Type := {
  dprr_schema : string;
  dprr_data : ResolvedRevocationData;
  dprr_signature : Signature;
  dprr_revoker : string;
  dprr_deadline : Z
}.

Record MultiRevocationRequest : Type := {
  mrr_schema : string;
  mrr_data : list RevocationRequestData
}.

Record MultiDelegatedRevocationRequest : Type := {
  mdrr_schema : string;
  mdrr_data : list RevocationRequestData;
  mdrr_signatures : list Signature;
  mdrr_revoker : string
}.

Record MultiDelegatedProxyRevocationRequest : Type := {
  mdprr_schema : string;
  mdprr_data : list RevocationRequestData;
  mdprr_signatures : list Signature;
  mdprr_revoker : string;
  mdprr_deadline : Z
}.

(** ** Typed-data parameters handed to the signers *)

Record EIP712AttestationParams : Type := {
  ap_schema : string;
  ap_recipient : string;
  ap_expirationTime : Z;
  ap_revocable : bool;
  ap_refUID : string;
  ap_data : string;
  ap_nonce : Z
}.

Record EIP712AttestationProxyParams : Type := {
  app_schema : string;
  app_recipient : string;
  app_expirationTime : Z;
  app_revocable : bool;
  app_refUID : string;
  app_data : string;
  app_deadline : Z
}.

Record EIP712RevocationParams : Type := {
  rp_schema : string;
  rp_uid : string;
  rp_nonce : Z
}.

Record EIP712RevocationProxyParams : Type := {
  rpp_schema : string;
  rpp_uid : string;
  rpp_deadline : Z
}.

Record OffchainAttestationParams : Type := {
  oa_version : Z;
  oa_schema : string;
  oa_recipient : string;
  oa_time : Z;
  oa_expirationTime : Z;
  oa_revocable : bool;
  oa_refUID : string;
  oa_data : string
}.

Record TypedDataDomain : Type := {
  dom_name : string;
  dom_version : string;
  dom_chainId : Z;
  dom_verifyingContract : string
}.

(** [EIP712Response<T, P>]: the helpers read [.signature] only. *)
Record EIP712Response (P : Type) : Type := {
  resp_domain : TypedDataDomain;
  resp_message : P;
  resp_signature : Signature
}.
Arguments resp_domain {P} _.
Arguments resp_message {P} _.
Arguments resp_signature {P} _.

(** [SignedOffchainAttestation]: an EIP-712 response that also carries the
    UID. *)
Record SignedOffchainAttestation : Type := {
  so_domain : TypedDataDomain;
  so_message : OffchainAttestationParams;
  so_signature : Signature;
  so_uid : string
}.

(** ** Collaborator objects *)

(** The objects returned by [getDelegated()], [getEIP712Proxy()] and
    [getOffchain()], known to the helpers by the domain they sign for. *)
Record DelegatedH : Type := { delegated_domain : TypedDataDomain }.
Record EIP712ProxyH : Type := { proxy_domain : TypedDataDomain }.
Record DelegatedProxyH : Type := { delegated_proxy_domain : TypedDataDomain }.
Record OffchainH : Type := { offchain_domain : TypedDataDomain }.

(** [{ maxPriorityFeePerGas: string, maxFeePerGas: string }] *)
Record Overrides : Type := {
  ov_maxPriorityFeePerGas : string;
  ov_maxFeePerGas : string
}.

(** [Transaction<T>]: [tx.tx] is the underlying transaction, whose fee members
    are [bigint | null]. *)
Record Transaction : Type := {
  tx_hash : string;
  tx_maxPriorityFeePerGas : option Z;
  tx_maxFeePerGas : option Z
}.

(** ** Collaborator calls

    One constructor per call the helpers [await]; the index is the type of
    the value the call resolves to.  [eas.connect(txSender).m(...)] is the
    call [m] with the connected wallet as first argument; a submission that
    is called without the [overrides] argument has it [None] ([undefined]). *)

Inductive event : Type -> Type :=
(* eas *)
| EAS_getNonce (a : string) : event Z
| EAS_getDelegated : event DelegatedH
| EAS_getEIP712Proxy : event (option EIP712ProxyH)
| EAS_getOffchain : event OffchainH
| EAS_isAttestationValid (u : string) : event bool
| EAS_isAttestationRevoked (u : string) : event bool
| EAS_attest (w : BaseWallet) (r : AttestationRequest)
    (ov : option Overrides) : event Transaction
| EAS_attestByDelegation (w : BaseWallet) (r : DelegatedAttestationRequest)
    (ov : option Overrides) : event Transaction
| EAS_attestByDelegationProxy (w : BaseWallet)
    (r : DelegatedProxyAttestationRequest)
    (ov : option Overrides) : event Transaction
| EAS_multiAttest (w : BaseWallet) (rs : list MultiAttestationRequest)
    (ov : option Overrides) : event Transaction
| EAS_multiAttestByDelegation (w : BaseWallet)
    (rs : list MultiDelegatedAttestationRequest)
    (ov : option Overrides) : event Transaction
| EAS_multiAttestByDelegationProxy (w : BaseWallet)
    (rs : list MultiDelegatedProxyAttestationRequest)
    (ov : option Overrides) : event Transaction
| EAS_revoke (w : BaseWallet) (r : RevocationRequest)
    (ov : option Overrides) : event Transaction
| EAS_revokeByDelegation (w : BaseWallet) (r : DelegatedRevocationRequest)
    (ov : option Overrides) : event Transaction
| EAS_revokeByDelegationProxy (w : BaseWallet)
    (r : DelegatedProxyRevocationRequest)
    (ov : option Overrides) : event Transaction
| EAS_multiRevoke (w : BaseWallet) (rs : list MultiRevocationRequest)
    (ov : option Overrides) : event Transaction
| EAS_multiRevokeByDelegation (w : BaseWallet)
    (rs : list MultiDelegatedRevocationRequest)
    (ov : option Overrides) : event Transaction
| EAS_multiRevokeByDelegationProxy (w : BaseWallet)
    (rs : list MultiDelegatedProxyRevocationRequest)
    (ov : option Overrides) : event Transaction
(* transaction wrapper *)
| Tx_wait (t : Transaction) : event string
| Tx_wait_all (t : Transaction) : event (list string)
(* delegated signer *)
| signDelegatedAttestation (d : DelegatedH) (p : EIP712AttestationParams)
    (signer : BaseWallet) : event (EIP712Response EIP712AttestationParams)
| verifyDelegatedAttestationSignature (d : DelegatedH) (a : string)
    (r : EIP712Response EIP712AttestationParams) : event bool
| signDelegatedRevocation (d : DelegatedH) (p : EIP712RevocationParams)
    (signer : BaseWallet) : event (EIP712Response EIP712RevocationParams)
| verifyDelegatedRevocationSignature (d : DelegatedH) (a : string)
    (r : EIP712Response EIP712RevocationParams) : event bool
(* proxy and its signer *)
| Proxy_getDelegated (p : EIP712ProxyH) : event DelegatedProxyH
| Proxy_getAttester (p : EIP712ProxyH) (u : string) : event string
| signDelegatedProxyAttestation (d : DelegatedProxyH)
    (p : EIP712AttestationProxyParams) (signer : BaseWallet)
    : event (EIP712Response EIP712AttestationProxyParams)
| verifyDelegatedProxyAttestationSignature (d : DelegatedProxyH) (a : string)
    (r : EIP712Response EIP712AttestationProxyParams) : event bool
| signDelegatedProxyRevocation (d : DelegatedProxyH)
    (p : EIP712RevocationProxyParams) (signer : BaseWallet)
    : event (EIP712Response EIP712RevocationProxyParams)
| verifyDelegatedProxyRevocationSignature (d : DelegatedProxyH) (a : string)
    (r : EIP712Response EIP712RevocationProxyParams) : event bool
(* offchain signer *)
| signOffchainAttestation (o : OffchainH) (p : OffchainAttestationParams)
    (signer : BaseWallet) : event SignedOffchainAttestation
| verifyOffchainAttestationSignature (o : OffchainH) (a : string)
    (r : SignedOffchainAttestation) : event bool
(* ./time *)
| latest : event Z.

(** What a helper can be rejected with. *)
Inductive error : Type :=
| JsError (msg : string)          (* [throw new Error(msg)] in the helper *)
| AssertionError (what : string)  (* a chai [expect] that does not hold *)
| Rejected (why : string).        (* a collaborator call that rejected *)

Inductive outcome (A : Type) : Type :=
| Ok (a : A)
| Err (e : error).
Arguments Ok {A} a.
Arguments Err {A} e.

(** ** Programs over collaborator calls *)

Inductive prog (A : Type) : Type :=
| Ret (a : A)
| Throw (e : error)
| Call {R : Type} (ev : event R) (k : R -> prog A).
Arguments Ret {A} a.
Arguments Throw {A} e.
Arguments Call {A R} ev k.

Fixpoint bind {A B : Type} (p : prog A) (f : A -> prog B) : prog B :=
  match p with
  | Ret a => f a
  | Throw e => Throw e
  | Call ev k => Call ev (fun r => bind (k r) f)
  end.

(** [await c] *)
Definition await {R : Type} (ev : event R) : prog R := Call ev Ret.

Declare Scope prog_scope.
Delimit Scope prog_scope with prog.
Notation "x <- p ;; q" := (bind p (fun x => q))
  (at level 61, p at next level, right associativity) : prog_scope.
Notation "p ;; q" := (bind p (fun _ => q))
  (at level 61, right associativity) : prog_scope.
Notation "' pat <- p ;; q" := (bind p (fun x => match x with pat => q end))
  (at level 61, pat pattern, p at next level, right associativity)
  : prog_scope.
Open Scope prog_scope.

(** [expect(b).to.be.true] *)
Definition expect_true (what : string) (b : bool) : prog unit :=
  if b then Ret tt else Throw (AssertionError what).

(** [for (const x of xs) { s = body(s, x) }]: the variables the loop body
    updates are threaded as [s]. *)
Fixpoint for_of {S X : Type} (xs : list X) (body : S -> X -> prog S) (s : S)
  : prog S :=
  match xs with
  | [] => Ret s
  | x :: xs' => s' <- body s x ;; for_of xs' body s'
  end.

(** ** Running a program against collaborators

    A collaborator implementation answers each call from its state of the
    world: the promise resolves to a value or rejects.  [run] returns the
    outcome, the calls made in order with their answers, and the world left
    behind; a rejection ends the helper with [Rejected], so that [JsError]
    and [AssertionError] only ever come from the helper's own text. *)

Inductive answer (R : Type) : Type :=
| Resolved (r : R)
| Rejects (why : string).
Arguments Resolved {R} r.
Arguments Rejects {R} why.

Definition handler (W : Type) : Type :=
  forall R : Type, event R -> W -> answer R * W.

Inductive entry : Type :=
| Called {R : Type} (ev : event R) (o : answer R).

Definition trace : Type := list entry.

Fixpoint run {W A : Type} (h : handler W) (p : prog A) (w : W)
  : outcome A * trace * W :=
  match p with
  | Ret a => (Ok a, [], w)
  | Throw e => (Err e, [], w)
  | Call ev k =>
      match h _ ev w with
      | (Resolved r, w') =>
          match run h (k r) w' with
          | (res, tr, w'') => (res, Called ev (Resolved r) :: tr, w'')
          end
      | (Rejects why, w') =>
          (Err (Rejected why), [Called ev (Rejects why)], w')
      end
  end.

Definition result_of {W A : Type} (x : outcome A * trace * W) : outcome A :=
  fst (fst x).
Definition trace_of {W A : Type} (x : outcome A * trace * W) : trace :=
  snd (fst x).
Definition world_of {W A : Type} (x : outcome A * trace * W) : W := snd x.

(** ** JavaScript values the helpers test and convert *)

(** [x = d] in a destructuring pattern, and [x ?? d]: an omitted member takes
    the default. *)
Definition or_default {A : Type} (d : A) (o : option A) : A :=
  match o with
  | Some a => a
  | None => d
  end.

(** Truthiness of a fee: [0n] is falsy, any other bigint and any promise are
    truthy. *)
Definition fee_truthy (f : fee) : bool :=
  match f with
  | FeeBigint z => negb (z =? 0)
  | FeePromise _ => true
  end.

(** [f.toString()] *)
Definition fee_toString (f : fee) : string :=
  match f with
  | FeeBigint z => NilZero.string_of_int (Z.to_int z)
  | FeePromise _ => "[object Promise]"
  end.

(** [maxPriorityFeePerGas && maxFeePerGas
      ? { maxPriorityFeePerGas: maxPriorityFeePerGas?.toString(),
          maxFeePerGas: maxFeePerGas?.toString() }
      : undefined] *)
Definition make_overrides (mp mf : option fee) : option Overrides :=
  match mp, mf with
  | Some a, Some b =>
      if fee_truthy a && fee_truthy b
      then Some {| ov_maxPriorityFeePerGas := fee_toString a;
                   ov_maxFeePerGas := fee_toString b |}
      else None
  | _, _ => None
  end.

(** [expect(x).to.equal(f)] for [x : bigint | null]: strict equality, which a
    promise never meets. *)
Definition fee_equal (x : option Z) (f : fee) : bool :=
  match x, f with
  | Some y, FeeBigint z => y =? z
  | _, _ => false
  end.

(** [if (maxPriorityFeePerGas && maxFeePerGas && tx) { expect(...); expect(...) }] *)
Definition expect_fees (mp mf : option fee) (tx : option Transaction)
  : prog unit :=
  match mp, mf, tx with
  | Some a, Some b, Some t =>
      if fee_truthy a && fee_truthy b
      then expect_true "tx.tx.maxPriorityFeePerGas"
             (fee_equal (tx_maxPriorityFeePerGas t) a) ;;
           expect_true "tx.tx.maxFeePerGas"
             (fee_equal (tx_maxFeePerGas t) b)
      else Ret tt
  | _, _, _ => Ret tt
  end.

(** How a [switch] case ends: [break] goes on after the switch, [return]
    leaves the helper. *)
Inductive completion (A B : Type) : Type :=
| Break (b : B)
| Return (a : A).
Arguments Break {A B} b.
Arguments Return {A B} a.

(** [const { recipient, expirationTime = NO_EXPIRATION, revocable = true,
    refUID = ZERO_BYTES32, data = ZERO_BYTES, value = 0n } = request;]
    ([data] is a required member of [AttestationRequestData], so its default
    is never taken.) *)
Definition resolve_attestation (request : AttestationRequestData)
  : ResolvedAttestationData :=
  {| recipient := rd_recipient request;
     expirationTime := or_default NO_EXPIRATION (rd_expirationTime request);
     revocable := or_default true (rd_revocable request);
     refUID := or_default ZERO_BYTES32 (rd_refUID request);
     data := rd_data request;
     value := or_default 0 (rd_value request) |}.

(** [const { uid, value = 0n } = request;] *)
Definition resolve_revocation (request : RevocationRequestData)
  : ResolvedRevocationData :=
  {| uid := rv_uid request;
     rvalue := or_default 0 (rv_value request) |}.

(** [expect(await eas.getEIP712Proxy()?.getAttester(uid)).to.equal(a)]: with
    no proxy the optional chain yields [undefined], which equals no address. *)
Definition expect_proxy_attester (u a : string) : prog unit :=
  proxy <- await EAS_getEIP712Proxy ;;
  match proxy with
  | Some p =>
      attester <- await (Proxy_getAttester p u) ;;
      expect_true "getAttester(uid)" (String.eqb attester a)
  | None => Throw (AssertionError "getAttester(uid)")
  end.

Section Helpers.

(** [getOffchainUID] of src/utils and [OFFCHAIN_ATTESTATION_VERSION] of
    src/offchain, which the helper imports. *)
Variable getOffchainUID :
  Z -> string -> string -> Z -> Z -> bool -> string -> string -> string.
Variable OFFCHAIN_ATTESTATION_VERSION : Z.

(** *** expectAttestation *)

Definition attestation_switch (schema : string)
    (request : AttestationRequestData) (options : AttestationOptions)
  : prog (completion string (string * option Transaction)) :=
  let d := resolve_attestation request in
  let txSender := from options in
  let deadline := or_default NO_EXPIRATION (deadline options) in
  let overrides :=
    make_overrides (maxPriorityFeePerGas options) (maxFeePerGas options) in
  match or_default Direct (signatureType options) with
  | Direct =>
      t <- await (EAS_attest txSender
                    {| ar_schema := schema; ar_data := d |} overrides) ;;
      uid <- await (Tx_wait t) ;;
      Ret (Break (uid, None))
  | Delegated =>
      delegated <- await EAS_getDelegated ;;
      nonce <- await (EAS_getNonce (address txSender)) ;;
      response <- await (signDelegatedAttestation delegated
                    {| ap_schema := schema;
                       ap_recipient := recipient d;
                       ap_expirationTime := expirationTime d;
                       ap_revocable := revocable d;
                       ap_refUID := refUID d;
                       ap_data := data d;
                       ap_nonce := nonce |} txSender) ;;
      ok <- await (verifyDelegatedAttestationSignature delegated
                     (address txSender) response) ;;
      expect_true "verifyDelegatedAttestationSignature" ok ;;
      tx <- await (EAS_attestByDelegation txSender
                     {| dar_schema := schema;
                        dar_data := d;
                        dar_signature := resp_signature response;
                        dar_attester := address txSender |} overrides) ;;
      uid <- await (Tx_wait tx) ;;
      Ret (Break (uid, Some tx))
  | DelegatedProxy =>
      proxy <- await EAS_getEIP712Proxy ;;
      match proxy with
      | None => Throw (JsError "Invalid proxy")
      | Some p =>
          delegated <- await (Proxy_getDelegated p) ;;
          response <- await (signDelegatedProxyAttestation delegated
                        {| app_schema := schema;
                           app_recipient := recipient d;
                           app_expirationTime := expirationTime d;
                           app_revocable := revocable d;
                           app_refUID := refUID d;
                           app_data := data d;
                           app_deadline := deadline |} txSender) ;;
          ok <- await (verifyDelegatedProxyAttestationSignature delegated
                         (address txSender) response) ;;
          expect_true "verifyDelegatedProxyAttestationSignature" ok ;;
          tx <- await (EAS_attestByDelegationProxy txSender
                         {| dpar_schema := schema;
                            dpar_data := d;
                            dpar_signature := resp_signature response;
                            dpar_attester := address txSender;
                            dpar_deadline := deadline |} overrides) ;;
          uid <- await (Tx_wait tx) ;;
          expect_proxy_attester uid (address txSender) ;;
          Ret (Break (uid, Some tx))
      end
  | Offchain =>
      offchain <- await EAS_getOffchain ;;
      now <- await latest ;;
      let uid :=
        getOffchainUID OFFCHAIN_ATTESTATION_VERSION schema (recipient d) now
          (expirationTime d) (revocable d) (refUID d) (data d) in
      response <- await (signOffchainAttestation offchain
                    {| oa_version := OFFCHAIN_ATTESTATION_VERSION;
                       oa_schema := schema;
                       oa_recipient := recipient d;
                       oa_time := now;
                       oa_expirationTime := expirationTime d;
                       oa_revocable := revocable d;
                       oa_refUID := refUID d;
                       oa_data := data d |} txSender) ;;
      expect_true "response.uid" (String.eqb (so_uid response) uid) ;;
      ok <- await (verifyOffchainAttestationSignature offchain
                     (address txSender) response) ;;
      expect_true "verifyOffchainAttestationSignature" ok ;;
      Ret (Return uid)
  end.

Definition expectAttestation (schema : string)
    (request : AttestationRequestData) (options : AttestationOptions)
  : prog string :=
  c <- attestation_switch schema request options ;;
  match c with
  | Return uid => Ret uid
  | Break (uid, tx) =>
      valid <- await (EAS_isAttestationValid uid) ;;
      expect_true "isAttestationValid" valid ;;
      expect_fees (maxPriorityFeePerGas options) (maxFeePerGas options) tx ;;
      Ret uid
  end.

End Helpers.

(** *** expectMultiAttestations *)

(** The typed data signed for one item of a batch:
    [expirationTime: request.expirationTime ?? NO_EXPIRATION] and so on. *)
Definition attestation_params (schema : string)
    (request : AttestationRequestData) (nonce : Z) : EIP712AttestationParams :=
  {| ap_schema := schema;
     ap_recipient := rd_recipient request;
     ap_expirationTime := or_default NO_EXPIRATION (rd_expirationTime request);
     ap_revocable := or_default true (rd_revocable request);
     ap_refUID := or_default ZERO_BYTES32 (rd_refUID request);
     ap_data := rd_data request;
     ap_nonce := nonce |}.

Definition attestation_proxy_params (schema : string)
    (request : AttestationRequestData) (deadline : Z)
  : EIP712AttestationProxyParams :=
  {| app_schema := schema;
     app_recipient := rd_recipient request;
     app_expirationTime := or_default NO_EXPIRATION (rd_expirationTime request);
     app_revocable := or_default true (rd_revocable request);
     app_refUID := or_default ZERO_BYTES32 (rd_refUID request);
     app_data := rd_data request;
     app_deadline := deadline |}.

(** Body of [for (const request of data)] in the delegated case; the loop
    updates [nonce] and [responses]. *)
Definition sign_delegated_attestation_item (txSender : BaseWallet)
    (schema : string)
    (s : Z * list (EIP712Response EIP712AttestationParams))
    (request : AttestationRequestData)
  : prog (Z * list (EIP712Response EIP712AttestationParams)) :=
  let '(nonce, responses) := s in
  delegated <- await EAS_getDelegated ;;
  response <- await (signDelegatedAttestation delegated
                (attestation_params schema request nonce) txSender) ;;
  ok <- await (verifyDelegatedAttestationSignature delegated
                 (address txSender) response) ;;
  expect_true "verifyDelegatedAttestationSignature" ok ;;
  Ret (nonce + 1, (responses ++ [response])%list).

(** Body of [for (const { schema, data } of requests)] in the delegated case;
    the loop updates [nonce] and [multiDelegatedAttestationRequests]. *)
Definition sign_delegated_attestation_group (txSender : BaseWallet)
    (s : Z * list MultiDelegatedAttestationRequest)
    (r : MultiAttestationRequest)
  : prog (Z * list MultiDelegatedAttestationRequest) :=
  let '(nonce, acc) := s in
  '(nonce', responses) <-
    for_of (mar_data r)
      (sign_delegated_attestation_item txSender (mar_schema r)) (nonce, []) ;;
  Ret (nonce',
       (acc ++ [{| mdar_schema := mar_schema r;
                   mdar_data := mar_data r;
                   mdar_signatures := map resp_signature responses;
                   mdar_attester := address txSender |}])%list).

Definition sign_proxy_attestation_item (delegated : DelegatedProxyH)
    (txSender : BaseWallet) (schema : string) (deadline : Z)
    (responses : list (EIP712Response EIP712AttestationProxyParams))
    (request : AttestationRequestData)
  : prog (list (EIP712Response EIP712AttestationProxyParams)) :=
  response <- await (signDelegatedProxyAttestation delegated
                (attestation_proxy_params schema request deadline) txSender) ;;
  ok <- await (verifyDelegatedProxyAttestationSignature delegated
                 (address txSender) response) ;;
  expect_true "verifyDelegatedProxyAttestationSignature" ok ;;
  Ret ((responses ++ [response])%list).

Definition sign_proxy_attestation_group (delegated : DelegatedProxyH)
    (txSender : BaseWallet) (deadline : Z)
    (acc : list MultiDelegatedProxyAttestationRequest)
    (r : MultiAttestationRequest)
  : prog (list MultiDelegatedProxyAttestationRequest) :=
  responses <-
    for_of (mar_data r)
      (sign_proxy_attestation_item delegated txSender (mar_schema r) deadline)
      [] ;;
  Ret ((acc ++ [{| mdpar_schema := mar_schema r;
                   mdpar_data := mar_data r;
                   mdpar_signatures := map resp_signature responses;
                   mdpar_attester := address txSender;
                   mdpar_deadline := deadline |}])%list).

(** The [switch]; it leaves the outer [tx] and [uids].  The direct case binds
    a [tx] of its own, so the outer one stays [undefined]. *)
Definition multi_attestation_switch (requests : list MultiAttestationRequest)
    (options : AttestationOptions)
  : prog (option Transaction * list string) :=
  let txSender := from options in
  let deadline := or_default NO_EXPIRATION (deadline options) in
  let overrides :=
    make_overrides (maxPriorityFeePerGas options) (maxFeePerGas options) in
  match or_default Direct (signatureType options) with
  | Direct =>
      tx <- await (EAS_multiAttest txSender requests None) ;;
      uids <- await (Tx_wait_all tx) ;;
      Ret (None, uids)
  | Delegated =>
      nonce <- await (EAS_getNonce (address txSender)) ;;
      '(_, multiDelegatedAttestationRequests) <-
        for_of requests (sign_delegated_attestation_group txSender)
          (nonce, []) ;;
      tx <- await (EAS_multiAttestByDelegation txSender
                     multiDelegatedAttestationRequests overrides) ;;
      uids <- await (Tx_wait_all tx) ;;
      Ret (Some tx, uids)
  | DelegatedProxy =>
      proxy <- await EAS_getEIP712Proxy ;;
      match proxy with
      | None => Throw (JsError "Invalid proxy")
      | Some p =>
          delegated <- await (Proxy_getDelegated p) ;;
          multiDelegatedProxyAttestationRequests <-
            for_of requests
              (sign_proxy_attestation_group delegated txSender deadline) [] ;;
          tx <- await (EAS_multiAttestByDelegationProxy txSender
                         multiDelegatedProxyAttestationRequests overrides) ;;
          uids <- await (Tx_wait_all tx) ;;
          for_of uids
            (fun _ uid => expect_proxy_attester uid (address txSender)) tt ;;
          Ret (Some tx, uids)
      end
  | Offchain =>
      Throw (JsError "Offchain batch attestations are unsupported")
  end.

Definition expect_valid (_ : unit) (uid : string) : prog unit :=
  valid <- await (EAS_isAttestationValid uid) ;;
  expect_true "isAttestationValid" valid.

Definition expectMultiAttestations (requests : list MultiAttestationRequest)
    (options : AttestationOptions) : prog unit :=
  '(tx, uids) <- multi_attestation_switch requests options ;;
  for_of uids expect_valid tt ;;
  expect_fees (maxPriorityFeePerGas options) (maxFeePerGas options) tx.

(** *** expectRevocation *)

Definition revocation_switch (schema : string)
    (request : RevocationRequestData) (options : RevocationOptions)
  : prog (option Transaction) :=
  let d := resolve_revocation request in
  let txSender := r_from options in
  let deadline := or_default NO_EXPIRATION (r_deadline options) in
  let overrides :=
    make_overrides (r_maxPriorityFeePerGas options)
      (r_maxFeePerGas options) in
  match or_default Direct (r_signatureType options) with
  | Direct =>
      tx <- await (EAS_revoke txSender
                     {| rr_schema := schema; rr_data := d |} overrides) ;;
      Ret (Some tx)
  | Delegated =>
      delegated <- await EAS_getDelegated ;;
      nonce <- await (EAS_getNonce (address txSender)) ;;
      response <- await (signDelegatedRevocation delegated
                    {| rp_schema := schema; rp_uid := uid d;
                       rp_nonce := nonce |} txSender) ;;
      ok <- await (verifyDelegatedRevocationSignature delegated
                     (address txSender) response) ;;
      expect_true "verifyDelegatedRevocationSignature" ok ;;
      tx <- await (EAS_revokeByDelegation txSender
                     {| drr_schema := schema;
                        drr_data := d;
                        drr_signature := resp_signature response;
                        drr_revoker := address txSender |} overrides) ;;
      Ret (Some tx)
  | DelegatedProxy =>
      proxy <- await EAS_getEIP712Proxy ;;
      match proxy with
      | None => Throw (JsError "Invalid proxy")
      | Some p =>
          delegated <- await (Proxy_getDelegated p) ;;
          response <- await (signDelegatedProxyRevocation delegated
                        {| rpp_schema := schema; rpp_uid := uid d;
                           rpp_deadline := deadline |} txSender) ;;
          ok <- await (verifyDelegatedProxyRevocationSignature delegated
                         (address txSender) response) ;;
          expect_true "verifyDelegatedProxyRevocationSignature" ok ;;
          tx <- await (EAS_revokeByDelegationProxy txSender
                         {| dprr_schema := schema;
                            dprr_data := d;
                            dprr_signature := resp_signature response;
                            dprr_revoker := address txSender;
                            dprr_deadline := deadline |} overrides) ;;
          Ret (Some tx)
      end
  | Offchain => Ret None
  end.

Definition expectRevocation (schema : string)
    (request : RevocationRequestData) (options : RevocationOptions)
  : prog unit :=
  tx <- revocation_switch schema request options ;;
  revoked <- await (EAS_isAttestationRevoked (rv_uid request)) ;;
  expect_true "isAttestationRevoked" revoked ;;
  expect_fees (r_maxPriorityFeePerGas options) (r_maxFeePerGas options) tx.

(** *** expectMultiRevocations *)

Definition revocation_params (schema : string)
    (request : RevocationRequestData) (nonce : Z) : EIP712RevocationParams :=
  {| rp_schema := schema; rp_uid := rv_uid request; rp_nonce := nonce |}.

Definition revocation_proxy_params (schema : string)
    (request : RevocationRequestData) (deadline : Z)
  : EIP712RevocationProxyParams :=
  {| rpp_schema := schema; rpp_uid := rv_uid request;
     rpp_deadline := deadline |}.

Definition sign_delegated_revocation_item (txSender : BaseWallet)
    (schema : string)
    (s : Z * list (EIP712Response EIP712RevocationParams))
    (request : RevocationRequestData)
  : prog (Z * list (EIP712Response EIP712RevocationParams)) :=
  let '(nonce, responses) := s in
  delegated <- await EAS_getDelegated ;;
  response <- await (signDelegatedRevocation delegated
                (revocation_params schema request nonce) txSender) ;;
  ok <- await (verifyDelegatedRevocationSignature delegated
                 (address txSender) response) ;;
  expect_true "verifyDelegatedRevocationSignature" ok ;;
  Ret (nonce + 1, (responses ++ [response])%list).

Definition sign_delegated_revocation_group (txSender : BaseWallet)
    (s : Z * list MultiDelegatedRevocationRequest)
    (r : MultiRevocationRequest)
  : prog (Z * list MultiDelegatedRevocationRequest) :=
  let '(nonce, acc) := s in
  '(nonce', responses) <-
    for_of (mrr_data r)
      (sign_delegated_revocation_item txSender (mrr_schema r)) (nonce, []) ;;
  Ret (nonce',
       (acc ++ [{| mdrr_schema := mrr_schema r;
                   mdrr_data := mrr_data r;
                   mdrr_signatures := map resp_signature responses;
                   mdrr_revoker := address txSender |}])%list).

Definition sign_proxy_revocation_item (delegated : DelegatedProxyH)
    (txSender : BaseWallet) (schema : string) (deadline : Z)
    (responses : list (EIP712Response EIP712RevocationProxyParams))
    (request : RevocationRequestData)
  : prog (list (EIP712Response EIP712RevocationProxyParams)) :=
  response <- await (signDelegatedProxyRevocation delegated
                (revocation_proxy_params schema request deadline) txSender) ;;
  ok <- await (verifyDelegatedProxyRevocationSignature delegated
                 (address txSender) response) ;;
  expect_true "verifyDelegatedProxyRevocationSignature" ok ;;
  Ret ((responses ++ [response])%list).

Definition sign_proxy_revocation_group (delegated : DelegatedProxyH)
    (txSender : BaseWallet) (deadline : Z)
    (acc : list MultiDelegatedProxyRevocationRequest)
    (r : MultiRevocationRequest)
  : prog (list MultiDelegatedProxyRevocationRequest) :=
  responses <-
    for_of (mrr_data r)
      (sign_proxy_revocation_item delegated txSender (mrr_schema r) deadline)
      [] ;;
  Ret ((acc ++ [{| mdprr_schema := mrr_schema r;
                   mdprr_data := mrr_data r;
                   mdprr_signatures := map resp_signature responses;
                   mdprr_revoker := address txSender;
                   mdprr_deadline := deadline |}])%list).

(** The [switch] of lines 452-527; it leaves [tx].  There is no case for
    [SignatureType.Offchain], and the direct case does not keep the
    transaction. *)
Definition multi_revocation_switch (requests : list MultiRevocationRequest)
    (options : RevocationOptions) : prog (option Transaction) :=
  let txSender := r_from options in
  let deadline := or_default NO_EXPIRATION (r_deadline options) in
  let overrides :=
    make_overrides (r_maxPriorityFeePerGas options)
      (r_maxFeePerGas options) in
  match or_default Direct (r_signatureType options) with
  | Direct =>
      await (EAS_multiRevoke txSender requests None) ;;
      Ret None
  | Delegated =>
      nonce <- await (EAS_getNonce (address txSender)) ;;
      '(_, multiDelegatedRevocationRequests) <-
        for_of requests (sign_delegated_revocation_group txSender)
          (nonce, []) ;;
      tx <- await (EAS_multiRevokeByDelegation txSender
                     multiDelegatedRevocationRequests overrides) ;;
      Ret (Some tx)
  | DelegatedProxy =>
      proxy <- await EAS_getEIP712Proxy ;;
      match proxy with
      | None => Throw (JsError "Invalid proxy")
      | Some p =>
          delegated <- await (Proxy_getDelegated p) ;;
          multiDelegatedProxyRevocationRequests <-
            for_of requests
              (sign_proxy_revocation_group delegated txSender deadline) [] ;;
          tx <- await (EAS_multiRevokeByDelegationProxy txSender
                         multiDelegatedProxyRevocationRequests overrides) ;;
          Ret (Some tx)
      end
  | Offchain => Ret None
  end.

(** Body of [for (const { uid } of data.data)] after the switch. *)
Definition expect_valid_and_revoked (_ : unit) (request : RevocationRequestData)
  : prog unit :=
  valid <- await (EAS_isAttestationValid (rv_uid request)) ;;
  expect_true "isAttestationValid" valid ;;
  revoked <- await (EAS_isAttestationRevoked (rv_uid request)) ;;
  expect_true "isAttestationRevoked" revoked.

(** [for (const data of requests) for (const { uid } of data.data) ...] *)
Definition expect_all_revoked (requests : list MultiRevocationRequest)
  : prog unit :=
  for_of requests
    (fun _ r => for_of (mrr_data r) expect_valid_and_revoked tt) tt.

Definition expectMultiRevocations (requests : list MultiRevocationRequest)
    (options : RevocationOptions) : prog unit :=
  tx <- multi_revocation_switch requests options ;;
  expect_all_revoked requests ;;
  expect_fees (r_maxPriorityFeePerGas options) (r_maxFeePerGas options) tx.

(** ** Reading a trace *)

(** The addresses whose nonce was asked of the ledger, in order. *)
Definition nonce_query (e : entry) : list string :=
  match e with
  | Called (EAS_getNonce a) _ => [a]
  | Called _ _ => []
  end.

Definition nonce_queries (tr : trace) : list string := flat_map nonce_query tr.

(** A delegated typed-data payload handed to a signer: schema, what is
    attested to or revoked (recipient, or UID), and the embedded nonce. *)
Definition delegated_signing (e : entry) : list (string * string * Z) :=
  match e with
  | Called (signDelegatedAttestation _ p _) _ =>
      [(ap_schema p, ap_recipient p, ap_nonce p)]
  | Called (signDelegatedRevocation _ p _) _ =>
      [(rp_schema p, rp_uid p, rp_nonce p)]
  | Called _ _ => []
  end.

Definition delegated_signings (tr : trace) : list (string * string * Z) :=
  flat_map delegated_signing tr.

(** Any call that asks a signer for a signature. *)
Definition is_signing (e : entry) : bool :=
  match e with
  | Called (signDelegatedAttestation _ _ _) _
  | Called (signDelegatedRevocation _ _ _) _
  | Called (signDelegatedProxyAttestation _ _ _) _
  | Called (signDelegatedProxyRevocation _ _ _) _
  | Called (signOffchainAttestation _ _ _) _ => true
  | Called _ _ => false
  end.

(** Any call that checks a signature. *)
Definition is_verification (e : entry) : bool :=
  match e with
  | Called (verifyDelegatedAttestationSignature _ _ _) _
  | Called (verifyDelegatedRevocationSignature _ _ _) _
  | Called (verifyDelegatedProxyAttestationSignature _ _ _) _
  | Called (verifyDelegatedProxyRevocationSignature _ _ _) _
  | Called (verifyOffchainAttestationSignature _ _ _) _ => true
  | Called _ _ => false
  end.

(** The [overrides] argument of a call that submits to the ledger. *)
Definition submission (e : entry) : list (option Overrides) :=
  match e with
  | Called (EAS_attest _ _ ov) _
  | Called (EAS_attestByDelegation _ _ ov) _
  | Called (EAS_attestByDelegationProxy _ _ ov) _
  | Called (EAS_multiAttest _ _ ov) _
  | Called (EAS_multiAttestByDelegation _ _ ov) _
  | Called (EAS_multiAttestByDelegationProxy _ _ ov) _
  | Called (EAS_revoke _ _ ov) _
  | Called (EAS_revokeByDelegation _ _ ov) _
  | Called (EAS_revokeByDelegationProxy _ _ ov) _
  | Called (EAS_multiRevoke _ _ ov) _
  | Called (EAS_multiRevokeByDelegation _ _ ov) _
  | Called (EAS_multiRevokeByDelegationProxy _ _ ov) _ => [ov]
  | Called _ _ => []
  end.

Definition submissions (tr : trace) : list (option Overrides) :=
  flat_map submission tr.

(** ** The offchain signer and the UID deriver

    src/utils.ts ([getOffchainUID]) and src/offchain.ts
    ([signOffchainAttestation], [verifyOffchainAttestationSignature]) are
    imported by the helper and are not part of the sources at hand. *)

(** The primitives below the signer: the hash, the canonical encoder, the
    typed-data digest, signing a digest with a key, recovering the signing
    address, and the address that belongs to a key. *)
Class Crypto : Type := {
  keccak256 : string -> string;
  encode : OffchainAttestationParams -> string;
  hashTypedData : TypedDataDomain -> OffchainAttestationParams -> string;
  signDigest : string -> string -> Signature;
  recoverAddress : string -> Signature -> string;
  computeAddress : string -> string
}.

Module OffchainSigner.
Section WithCrypto.
Context {crypto : Crypto}.

(** Modelled from the spec: src/utils.ts is missing.  "UID Deriver - depends
    on Canonical Encoder; computes the deterministic identifier for an
    attestation from its canonical fields"; "Deterministic, pure, total". *)
Definition getOffchainUID (version : Z) (schema recipient : string)
    (time expirationTime : Z) (revocable : bool) (refUID data : string)
  : string :=
  keccak256 (encode {| oa_version := version;
                       oa_schema := schema;
                       oa_recipient := recipient;
                       oa_time := time;
                       oa_expirationTime := expirationTime;
                       oa_revocable := revocable;
                       oa_refUID := refUID;
                       oa_data := data |}).

(** The UID of the fields a payload carries. *)
Definition uid_of (p : OffchainAttestationParams) : string :=
  getOffchainUID (oa_version p) (oa_schema p) (oa_recipient p) (oa_time p)
    (oa_expirationTime p) (oa_revocable p) (oa_refUID p) (oa_data p).

(** Modelled from the spec: src/offchain.ts is missing.
    "signOffchainAttestation(fields, signerKey) -> {uid, signature, domain}
    where uid = deriveUID(...) computed over the same canonical fields being
    signed". *)
Definition signOffchainAttestation (domain : TypedDataDomain)
    (params : OffchainAttestationParams) (signer : BaseWallet)
  : SignedOffchainAttestation :=
  {| so_domain := domain;
     so_message := params;
     so_signature := signDigest (privateKey signer)
                       (hashTypedData domain params);
     so_uid := uid_of params |}.

(** The address the raw signature of a response recovers to. *)
Definition recovered_signer (r : SignedOffchainAttestation) : string :=
  recoverAddress (hashTypedData (so_domain r) (so_message r)) (so_signature r).

(** Modelled from the spec: src/offchain.ts is missing.
    "verifyOffchainAttestationSignature(claimedAddress, response) -> bool
    recomputes the UID independently and fails closed if it disagrees with
    the response's embedded UID, even if the raw signature recovers
    correctly"; "verification recovers a signer address from {hash,
    signature} and compares to the claimed address". *)
Definition verifyOffchainAttestationSignature (claimedAddress : string)
    (r : SignedOffchainAttestation) : bool :=
  String.eqb (so_uid r) (uid_of (so_message r))
  && String.eqb (recovered_signer r) claimedAddress.

(** A response whose embedded UID was replaced after signing. *)
Definition with_uid (u : string) (r : SignedOffchainAttestation)
  : SignedOffchainAttestation :=
  {| so_domain := so_domain r;
     so_message := so_message r;
     so_signature := so_signature r;
     so_uid := u |}.

End WithCrypto.
End OffchainSigner.

(** Collaborators whose offchain signer is the one above: the signer object
    signs for its own domain, and neither call rejects. *)
Definition offchain_as_specified {crypto : Crypto} {W : Type} (h : handler W)
  : Prop :=
  (forall o p signer w,
      fst (h _ (signOffchainAttestation o p signer) w)
      = Resolved (OffchainSigner.signOffchainAttestation (offchain_domain o) p signer))
  /\ (forall o a r w,
      fst (h _ (verifyOffchainAttestationSignature o a r) w)
      = Resolved (OffchainSigner.verifyOffchainAttestationSignature a r)).

(** ** A concrete deployment, for examples

    A ledger with a fixed nonce for every signer, an optional proxy and a
    clock; submissions keep the fee overrides they were given; signatures are
    the pair of key and digest, so that recovery is a comparison. *)
Module Scenario.

#[local] Instance crypto : Crypto := {|
  keccak256 := fun s => "keccak(" ++ s ++ ")";
  encode := fun p =>
    oa_schema p ++ "|" ++ oa_recipient p ++ "|"
    ++ NilZero.string_of_int (Z.to_int (oa_time p)) ++ "|" ++ oa_data p;
  hashTypedData := fun d p => dom_verifyingContract d ++ "#" ++ oa_schema p
    ++ "|" ++ oa_recipient p ++ "|" ++ oa_data p;
  signDigest := fun key digest =>
    {| sig_r := key; sig_s := digest; sig_v := 27 |};
  recoverAddress := fun digest s =>
    if String.eqb (sig_s s) digest then "addr:" ++ sig_r s else "0x";
  computeAddress := fun key => "addr:" ++ key
|}.

Record ledger : Type := {
  current_nonce : Z;
  proxy : option EIP712ProxyH;
  clock : Z
}.

Definition eas_domain : TypedDataDomain :=
  {| dom_name := "EAS"; dom_version := "1.0.0"; dom_chainId := 1;
     dom_verifyingContract := "0xEA5" |}.

Definition proxy_domain' : TypedDataDomain :=
  {| dom_name := "EIP712Proxy"; dom_version := "1.0.0"; dom_chainId := 1;
     dom_verifyingContract := "0x9809" |}.

Definition the_proxy : EIP712ProxyH := {| proxy_domain := proxy_domain' |}.

Definition with_proxy : ledger :=
  {| current_nonce := 7; proxy := Some the_proxy; clock := 1000 |}.

Definition without_proxy : ledger :=
  {| current_nonce := 7; proxy := None; clock := 1000 |}.

Definition parse_fee (s : string) : option Z :=
  option_map Z.of_int (NilZero.int_of_string s).

Definition submitted (name : string) (ov : option Overrides) : Transaction :=
  {| tx_hash := name;
     tx_maxPriorityFeePerGas :=
       match ov with
       | Some o => parse_fee (ov_maxPriorityFeePerGas o)
       | None => None
       end;
     tx_maxFeePerGas :=
       match ov with
       | Some o => parse_fee (ov_maxFeePerGas o)
       | None => None
       end |}.

Definition signed {P : Type} (d : TypedDataDomain) (p : P) (signer : BaseWallet)
  : EIP712Response P :=
  {| resp_domain := d; resp_message := p;
     resp_signature := {| sig_r := privateKey signer; sig_s := "digest";
                          sig_v := 27 |} |}.

Definition verified {P : Type} (a : string) (r : EIP712Response P) : bool :=
  String.eqb ("addr:" ++ sig_r (resp_signature r)) a.

Definition collaborators : handler ledger :=
  fun R ev w =>
    match ev in event R return answer R * ledger with
    | EAS_getNonce _ => (Resolved (current_nonce w), w)
    | EAS_getDelegated => (Resolved {| delegated_domain := eas_domain |}, w)
    | EAS_getEIP712Proxy => (Resolved (proxy w), w)
    | EAS_getOffchain => (Resolved {| offchain_domain := eas_domain |}, w)
    | EAS_isAttestationValid _ => (Resolved true, w)
    | EAS_isAttestationRevoked _ => (Resolved true, w)
    | EAS_attest _ _ ov => (Resolved (submitted "attest" ov), w)
    | EAS_attestByDelegation _ _ ov =>
        (Resolved (submitted "attestByDelegation" ov), w)
    | EAS_attestByDelegationProxy _ _ ov =>
        (Resolved (submitted "attestByDelegationProxy" ov), w)
    | EAS_multiAttest _ _ ov => (Resolved (submitted "multiAttest" ov), w)
    | EAS_multiAttestByDelegation _ _ ov =>
        (Resolved (submitted "multiAttestByDelegation" ov), w)
    | EAS_multiAttestByDelegationProxy _ _ ov =>
        (Resolved (submitted "multiAttestByDelegationProxy" ov), w)
    | EAS_revoke _ _ ov => (Resolved (submitted "revoke" ov), w)
    | EAS_revokeByDelegation _ _ ov =>
        (Resolved (submitted "revokeByDelegation" ov), w)
    | EAS_revokeByDelegationProxy _ _ ov =>
        (Resolved (submitted "revokeByDelegationProxy" ov), w)
    | EAS_multiRevoke _ _ ov => (Resolved (submitted "multiRevoke" ov), w)
    | EAS_multiRevokeByDelegation _ _ ov =>
        (Resolved (submitted "multiRevokeByDelegation" ov), w)
    | EAS_multiRevokeByDelegationProxy _ _ ov =>
        (Resolved (submitted "multiRevokeByDelegationProxy" ov), w)
    | Tx_wait t => (Resolved ("uid:" ++ tx_hash t), w)
    | Tx_wait_all t => (Resolved ["uid:" ++ tx_hash t], w)
    | signDelegatedAttestation d p s => (Resolved (signed (delegated_domain d) p s), w)
    | verifyDelegatedAttestationSignature _ a r => (Resolved (verified a r), w)
    | signDelegatedRevocation d p s => (Resolved (signed (delegated_domain d) p s), w)
    | verifyDelegatedRevocationSignature _ a r => (Resolved (verified a r), w)
    | Proxy_getDelegated p =>
        (Resolved {| delegated_proxy_domain := proxy_domain p |}, w)
    | Proxy_getAttester _ _ => (Resolved "addr:k1", w)
    | signDelegatedProxyAttestation d p s =>
        (Resolved (signed (delegated_proxy_domain d) p s), w)
    | verifyDelegatedProxyAttestationSignature _ a r => (Resolved (verified a r), w)
    | signDelegatedProxyRevocation d p s =>
        (Resolved (signed (delegated_proxy_domain d) p s), w)
    | verifyDelegatedProxyRevocationSignature _ a r => (Resolved (verified a r), w)
    | signOffchainAttestation o p s =>
        (Resolved (OffchainSigner.signOffchainAttestation (offchain_domain o) p s), w)
    | verifyOffchainAttestationSignature _ a r =>
        (Resolved (OffchainSigner.verifyOffchainAttestationSignature a r), w)
    | latest => (Resolved (clock w), w)
    end.

(** A ledger on which nothing is revoked. *)
Definition nothing_revoked : handler ledger :=
  fun R ev w =>
    match ev in event R return answer R * ledger with
    | EAS_isAttestationRevoked _ => (Resolved false, w)
    | ev' => collaborators _ ev' w
    end.

Definition k1 : BaseWallet := {| address := "addr:k1"; privateKey := "k1" |}.

Definition attestation_options (st : option SignatureType)
    (mp mf : option fee) : AttestationOptions :=
  {| signatureType := st; deadline := None; from := k1; opt_value := None;
     maxPriorityFeePerGas := mp; maxFeePerGas := mf; bump := None |}.

Definition revocation_options (st : option SignatureType)
    (mp mf : option fee) : RevocationOptions :=
  {| r_signatureType := st; r_deadline := None; r_from := k1;
     r_opt_value := None; r_maxPriorityFeePerGas := mp;
     r_maxFeePerGas := mf |}.

(** A request that leaves every optional member out. *)
Definition bare (recipient : string) : AttestationRequestData :=
  {| rd_recipient := recipient; rd_data := "0x"; rd_expirationTime := None;
     rd_revocable := None; rd_refUID := None; rd_value := None |}.

Definition batch : list MultiAttestationRequest :=
  [ {| mar_schema := "0xAA"; mar_data := [bare "0x1111"; bare "0x2222"] |};
    {| mar_schema := "0xBB"; mar_data := [bare "0x3333"] |} ].

Definition revocation (u : string) : RevocationRequestData :=
  {| rv_uid := u; rv_value := None |}.

Definition revocation_batch : list MultiRevocationRequest :=
  [ {| mrr_schema := "0xAA"; mrr_data := [revocation "u1"; revocation "u2"] |};
    {| mrr_schema := "0xBB"; mrr_data := [revocation "u3"] |} ].

(** The fields of the offchain flow: schema 0xAA, recipient 0x1111, empty
    data, all defaults, time 1000; and their response as signed by [k1]. *)
Definition fields : OffchainAttestationParams :=
  {| oa_version := 1; oa_schema := "0xAA"; oa_recipient := "0x1111";
     oa_time := 1000; oa_expirationTime := NO_EXPIRATION;
     oa_revocable := true; oa_refUID := ZERO_BYTES32; oa_data := ZERO_BYTES |}.

Definition response : SignedOffchainAttestation :=
  OffchainSigner.signOffchainAttestation eas_domain fields k1.

(** A wallet whose address is not the one of its key: what it signs does not
    verify against the address it claims. *)
Definition impostor : BaseWallet :=
  {| address := "addr:k1"; privateKey := "k2" |}.

Definition impostor_options (st : option SignatureType) : AttestationOptions :=
  {| signatureType := st; deadline := None; from := impostor;
     opt_value := None; maxPriorityFeePerGas := None; maxFeePerGas := None;
     bump := None |}.

(** A UID derivation for runs that never reach the offchain case. *)
Definition no_uid (_ : Z) (_ _ : string) (_ _ : Z) (_ : bool) (_ _ : string)
  : string := "".

End Scenario.

(** ** What a program lets a reader of the trace see

    A reader [f] maps every call to the list of things it is looking for
    ([nonce_query], [delegated_signing], [submission], ...).  A program is
    [silent] for [f] when no run of it makes such a call; it [emits] a list
    when every run that completes has made exactly those calls, in order, and
    every run that stops early has made a first part of them. *)

Definition prefix_of {B : Type} (l1 l2 : list B) : Prop :=
  exists rest, l2 = (l1 ++ rest)%list.

Definition seen {B W A : Type} (f : entry -> list B)
    (x : outcome A * trace * W) : list B :=
  flat_map f (trace_of x).

Definition silent {B A : Type} (f : entry -> list B) (p : prog A) : Prop :=
  forall (W : Type) (h : handler W) (w : W), seen f (run h p w) = [].

Definition emits {B A : Type} (f : entry -> list B) (p : prog A)
    (full : list B) (post : A -> Prop) : Prop :=
  forall (W : Type) (h : handler W) (w : W),
    match result_of (run h p w) with
    | Ok a => seen f (run h p w) = full /\ post a
    | Err _ => prefix_of (seen f (run h p w)) full
    end.

(** The nonces [n, n+1, ..., n+N-1]. *)
Definition consecutive (n : Z) (N : nat) : list Z :=
  map (fun i => n + Z.of_nat i) (seq 0 N).






(** Every call read by [f] satisfies [P], in every run. *)
Definition all_seen {B A : Type} (f : entry -> list B) (P : B -> Prop)
    (p : prog A) : Prop :=
  forall (W : Type) (h : handler W) (w : W), Forall P (seen f (run h p w)).

(** The calls that ask for a signature, and those that check one. *)
Definition signing (e : entry) : list entry :=
  if is_signing e then [e] else [].

Definition verification (e : entry) : list entry :=
  if is_verification e then [e] else [].

Definition signings (tr : trace) : list entry := flat_map signing tr.
Definition verifications (tr : trace) : list entry := flat_map verification tr.

(** [expirationTime], [revocable] and [refUID] of an attestation as handed to
    a signer or, by the single-request paths, to the ledger. *)
Definition attestation_payload (e : entry) : list (Z * bool * string) :=
  match e with
  | Called (EAS_attest _ r _) _ =>
      [(expirationTime (ar_data r), revocable (ar_data r), refUID (ar_data r))]
  | Called (EAS_attestByDelegation _ r _) _ =>
      [(expirationTime (dar_data r), revocable (dar_data r),
        refUID (dar_data r))]
  | Called (EAS_attestByDelegationProxy _ r _) _ =>
      [(expirationTime (dpar_data r), revocable (dpar_data r),
        refUID (dpar_data r))]
  | Called (signDelegatedAttestation _ p _) _ =>
      [(ap_expirationTime p, ap_revocable p, ap_refUID p)]
  | Called (signDelegatedProxyAttestation _ p _) _ =>
      [(app_expirationTime p, app_revocable p, app_refUID p)]
  | Called (signOffchainAttestation _ p _) _ =>
      [(oa_expirationTime p, oa_revocable p, oa_refUID p)]
  | Called _ _ => []
  end.

Definition attestation_payloads (tr : trace) : list (Z * bool * string) :=
  flat_map attestation_payload tr.

(** The [value] attached to a single attestation handed to the ledger. *)
Definition attached_value (e : entry) : list Z :=
  match e with
  | Called (EAS_attest _ r _) _ => [value (ar_data r)]
  | Called (EAS_attestByDelegation _ r _) _ => [value (dar_data r)]
  | Called (EAS_attestByDelegationProxy _ r _) _ => [value (dpar_data r)]
  | Called _ _ => []
  end.

Definition attached_values (tr : trace) : list Z := flat_map attached_value tr.


(** All the items of a batch, in request order. *)
Definition all_items (requests : list MultiAttestationRequest)
  : list AttestationRequestData :=
  flat_map mar_data requests.

(** The same options with both fee members left out. *)
Definition without_fees (o : AttestationOptions) : AttestationOptions :=
  {| signatureType := signatureType o;
     deadline := deadline o;
     from := from o;
     opt_value := opt_value o;
     maxPriorityFeePerGas := None;
     maxFeePerGas := None;
     bump := bump o |}.

Definition r_without_fees (o : RevocationOptions) : RevocationOptions :=
  {| r_signatureType := r_signatureType o;
     r_deadline := r_deadline o;
     r_from := r_from o;
     r_opt_value := r_opt_value o;
     r_maxPriorityFeePerGas := None;
     r_maxFeePerGas := None |}.

(** A run that stops for lack of a proxy: it has asked for the proxy, been
    answered there is none, and thrown. *)
Definition invalid_proxy {W A : Type} (w' : W) : outcome A * trace * W :=
  (Err (JsError "Invalid proxy"),
   [Called EAS_getEIP712Proxy (Resolved None)], w').

(** The overrides that hold the two fees as given. *)
Definition fees_as_given (a b : fee) : option Overrides :=
  Some {| ov_maxPriorityFeePerGas := fee_toString a;
          ov_maxFeePerGas := fee_toString b |}.

(** "If both fee-override parameters are present, both are passed through to
    the submission call", read on a single attestation. *)
Definition fees_passed_whenever_present : Prop :=
  forall (W : Type) (h : handler W) (w : W) getOffchainUID version schema
         request options a b,
    maxPriorityFeePerGas options = Some a ->
    maxFeePerGas options = Some b ->
    Forall (eq (fees_as_given a b))
      (submissions
         (trace_of
            (run h (expectAttestation getOffchainUID version schema request
                      options) w))).



(** A run whose submissions all carry [ov], and which, when it completes, has
    submitted exactly once. *)
Definition submitted_with {W A : Type} (ov : option Overrides)
    (x : outcome A * trace * W) : Prop :=
  Forall (eq ov) (submissions (trace_of x))
  /\ (forall a, result_of x = Ok a -> submissions (trace_of x) = [ov]).

(** ** More readers of a trace *)

(** The answers of the signature checks, in order; a check that rejects
    counts as one that failed. *)
Definition verification_answer (e : entry) : list bool :=
  match e with
  | Called ev o =>
      let answered (o : answer bool) :=
        match o with
        | Resolved b => [b]
        | Rejects _ => [false]
        end in
      match ev in event R return answer R -> list bool with
      | verifyDelegatedAttestationSignature _ _ _ => answered
      | verifyDelegatedRevocationSignature _ _ _ => answered
      | verifyDelegatedProxyAttestationSignature _ _ _ => answered
      | verifyDelegatedProxyRevocationSignature _ _ _ => answered
      | verifyOffchainAttestationSignature _ _ _ => answered
      | _ => fun _ => []
      end o
  end.

Definition verification_answers (tr : trace) : list bool :=
  flat_map verification_answer tr.

(** Where signatures come from and where they go: a signer's answer returns
    one, a delegated or proxy submission forwards some, grouped as the
    requests are. *)
Inductive signature_flow : Type :=
| Returned (s : Signature)
| Forwarded (groups : list (list Signature)).

Definition returned_signature {P : Type} (o : answer (EIP712Response P))
  : list signature_flow :=
  match o with
  | Resolved r => [Returned (resp_signature r)]
  | Rejects _ => []
  end.

Definition signature_step (e : entry) : list signature_flow :=
  match e with
  | Called ev o =>
      match ev in event R return answer R -> list signature_flow with
      | signDelegatedAttestation _ _ _ => returned_signature
      | signDelegatedRevocation _ _ _ => returned_signature
      | signDelegatedProxyAttestation _ _ _ => returned_signature
      | signDelegatedProxyRevocation _ _ _ => returned_signature
      | EAS_attestByDelegation _ r _ =>
          fun _ => [Forwarded [[dar_signature r]]]
      | EAS_attestByDelegationProxy _ r _ =>
          fun _ => [Forwarded [[dpar_signature r]]]
      | EAS_revokeByDelegation _ r _ =>
          fun _ => [Forwarded [[drr_signature r]]]
      | EAS_revokeByDelegationProxy _ r _ =>
          fun _ => [Forwarded [[dprr_signature r]]]
      | EAS_multiAttestByDelegation _ rs _ =>
          fun _ => [Forwarded (map mdar_signatures rs)]
      | EAS_multiAttestByDelegationProxy _ rs _ =>
          fun _ => [Forwarded (map mdpar_signatures rs)]
      | EAS_multiRevokeByDelegation _ rs _ =>
          fun _ => [Forwarded (map mdrr_signatures rs)]
      | EAS_multiRevokeByDelegationProxy _ rs _ =>
          fun _ => [Forwarded (map mdprr_signatures rs)]
      | _ => fun _ => []
      end o
  end.

Definition signature_steps (tr : trace) : list signature_flow :=
  flat_map signature_step tr.

(** What the ledger reported back: the UIDs a transaction was mined with, and
    the answers to the validity and revocation questions. *)
Inductive report : Type :=
| Mined (uids : list string)
| Valid (u : string) (b : bool)
| Revoked (u : string) (b : bool).

Definition ledger_report (e : entry) : list report :=
  match e with
  | Called ev o =>
      match ev in event R return answer R -> list report with
      | Tx_wait _ =>
          fun o => match o with
                   | Resolved u => [Mined [u]]
                   | Rejects _ => []
                   end
      | Tx_wait_all _ =>
          fun o => match o with
                   | Resolved us => [Mined us]
                   | Rejects _ => []
                   end
      | EAS_isAttestationValid u =>
          fun o => match o with
                   | Resolved b => [Valid u b]
                   | Rejects _ => []
                   end
      | EAS_isAttestationRevoked u =>
          fun o => match o with
                   | Resolved b => [Revoked u b]
                   | Rejects _ => []
                   end
      | _ => fun _ => []
      end o
  end.

Definition ledger_reports (tr : trace) : list report :=
  flat_map ledger_report tr.

(** The transactions the submissions resolved to. *)
Definition submitted_transaction (e : entry) : list Transaction :=
  match e with
  | Called ev o =>
      let resolved (o : answer Transaction) :=
        match o with
        | Resolved t => [t]
        | Rejects _ => []
        end in
      match ev in event R return answer R -> list Transaction with
      | EAS_attest _ _ _ => resolved
      | EAS_attestByDelegation _ _ _ => resolved
      | EAS_attestByDelegationProxy _ _ _ => resolved
      | EAS_multiAttest _ _ _ => resolved
      | EAS_multiAttestByDelegation _ _ _ => resolved
      | EAS_multiAttestByDelegationProxy _ _ _ => resolved
      | EAS_revoke _ _ _ => resolved
      | EAS_revokeByDelegation _ _ _ => resolved
      | EAS_revokeByDelegationProxy _ _ _ => resolved
      | EAS_multiRevoke _ _ _ => resolved
      | EAS_multiRevokeByDelegation _ _ _ => resolved
      | EAS_multiRevokeByDelegationProxy _ _ _ => resolved
      | _ => fun _ => []
      end o
  end.

Definition submitted_transactions (tr : trace) : list Transaction :=
  flat_map submitted_transaction tr.

(** The deadlines of the proxy flows: the one signed for each item and the
    one each submitted request (or group of a batch) carries. *)
Definition proxy_deadline (e : entry) : list Z :=
  match e with
  | Called (signDelegatedProxyAttestation _ p _) _ => [app_deadline p]
  | Called (signDelegatedProxyRevocation _ p _) _ => [rpp_deadline p]
  | Called (EAS_attestByDelegationProxy _ r _) _ => [dpar_deadline r]
  | Called (EAS_revokeByDelegationProxy _ r _) _ => [dprr_deadline r]
  | Called (EAS_multiAttestByDelegationProxy _ rs _) _ => map mdpar_deadline rs
  | Called (EAS_multiRevokeByDelegationProxy _ rs _) _ => map mdprr_deadline rs
  | Called _ _ => []
  end.

Definition proxy_deadlines (tr : trace) : list Z := flat_map proxy_deadline tr.

(** The wallets a run acts with: the one each submission is connected to and
    the one each signature is asked of. *)
Definition acting_wallet (e : entry) : list BaseWallet :=
  match e with
  | Called (EAS_attest w _ _) _
  | Called (EAS_attestByDelegation w _ _) _
  | Called (EAS_attestByDelegationProxy w _ _) _
  | Called (EAS_multiAttest w _ _) _
  | Called (EAS_multiAttestByDelegation w _ _) _
  | Called (EAS_multiAttestByDelegationProxy w _ _) _
  | Called (EAS_revoke w _ _) _
  | Called (EAS_revokeByDelegation w _ _) _
  | Called (EAS_revokeByDelegationProxy w _ _) _
  | Called (EAS_multiRevoke w _ _) _
  | Called (EAS_multiRevokeByDelegation w _ _) _
  | Called (EAS_multiRevokeByDelegationProxy w _ _) _
  | Called (signDelegatedAttestation _ _ w) _
  | Called (signDelegatedRevocation _ _ w) _
  | Called (signDelegatedProxyAttestation _ _ w) _
  | Called (signDelegatedProxyRevocation _ _ w) _
  | Called (signOffchainAttestation _ _ w) _ => [w]
  | Called _ _ => []
  end.

Definition acting_wallets (tr : trace) : list BaseWallet :=
  flat_map acting_wallet tr.

(** The addresses a run names: the one whose nonce is asked, the one each
    signature is checked against, and the attester or revoker of each
    submitted request (or group of a batch). *)
Definition named_address (e : entry) : list string :=
  match e with
  | Called (EAS_getNonce a) _
  | Called (verifyDelegatedAttestationSignature _ a _) _
  | Called (verifyDelegatedRevocationSignature _ a _) _
  | Called (verifyDelegatedProxyAttestationSignature _ a _) _
  | Called (verifyDelegatedProxyRevocationSignature _ a _) _
  | Called (verifyOffchainAttestationSignature _ a _) _ => [a]
  | Called (EAS_attestByDelegation _ r _) _ => [dar_attester r]
  | Called (EAS_attestByDelegationProxy _ r _) _ => [dpar_attester r]
  | Called (EAS_revokeByDelegation _ r _) _ => [drr_revoker r]
  | Called (EAS_revokeByDelegationProxy _ r _) _ => [dprr_revoker r]
  | Called (EAS_multiAttestByDelegation _ rs _) _ => map mdar_attester rs
  | Called (EAS_multiAttestByDelegationProxy _ rs _) _ => map mdpar_attester rs
  | Called (EAS_multiRevokeByDelegation _ rs _) _ => map mdrr_revoker rs
  | Called (EAS_multiRevokeByDelegationProxy _ rs _) _ => map mdprr_revoker rs
  | Called _ _ => []
  end.

Definition named_addresses (tr : trace) : list string :=
  flat_map named_address tr.

(** The nonces the ledger answered. *)
Definition nonce_answer (e : entry) : list Z :=
  match e with
  | Called ev o =>
      match ev in event R return answer R -> list Z with
      | EAS_getNonce _ =>
          fun o => match o with
                   | Resolved n => [n]
                   | Rejects _ => []
                   end
      | _ => fun _ => []
      end o
  end.

Definition nonce_answers (tr : trace) : list Z := flat_map nonce_answer tr.

(** What the proxy says of the attestations made through it: the UIDs a
    transaction was mined with, and the attester the proxy then names for
    one of them. *)
Inductive attribution : Type :=
| Attested (uids : list string)
| Attributed (u : string) (attester : string).

Definition proxy_attribution (e : entry) : list attribution :=
  match e with
  | Called ev o =>
      match ev in event R return answer R -> list attribution with
      | Tx_wait _ =>
          fun o => match o with
                   | Resolved u => [Attested [u]]
                   | Rejects _ => []
                   end
      | Tx_wait_all _ =>
          fun o => match o with
                   | Resolved us => [Attested us]
                   | Rejects _ => []
                   end
      | Proxy_getAttester _ u =>
          fun o => match o with
                   | Resolved a => [Attributed u a]
                   | Rejects _ => []
                   end
      | _ => fun _ => []
      end o
  end.

Definition proxy_attributions (tr : trace) : list attribution :=
  flat_map proxy_attribution tr.

(** What an attestation says, as it is signed and as it is submitted alone:
    schema, recipient, expiration time, revocable flag, reference UID and
    data. *)
Definition attestation_content (e : entry)
  : list (string * string * Z * bool * string * string) :=
  let of_data (schema : string) (d : ResolvedAttestationData) :=
    [(schema, recipient d, expirationTime d, revocable d, refUID d, data d)] in
  match e with
  | Called (EAS_attest _ r _) _ => of_data (ar_schema r) (ar_data r)
  | Called (EAS_attestByDelegation _ r _) _ =>
      of_data (dar_schema r) (dar_data r)
  | Called (EAS_attestByDelegationProxy _ r _) _ =>
      of_data (dpar_schema r) (dpar_data r)
  | Called (signDelegatedAttestation _ p _) _ =>
      [(ap_schema p, ap_recipient p, ap_expirationTime p, ap_revocable p,
        ap_refUID p, ap_data p)]
  | Called (signDelegatedProxyAttestation _ p _) _ =>
      [(app_schema p, app_recipient p, app_expirationTime p, app_revocable p,
        app_refUID p, app_data p)]
  | Called (signOffchainAttestation _ p _) _ =>
      [(oa_schema p, oa_recipient p, oa_expirationTime p, oa_revocable p,
        oa_refUID p, oa_data p)]
  | Called _ _ => []
  end.

Definition attestation_contents (tr : trace)
  : list (string * string * Z * bool * string * string) :=
  flat_map attestation_content tr.

(** What a revocation says, as it is signed and as it is submitted alone:
    schema and UID. *)
Definition revocation_content (e : entry) : list (string * string) :=
  match e with
  | Called (EAS_revoke _ r _) _ => [(rr_schema r, uid (rr_data r))]
  | Called (EAS_revokeByDelegation _ r _) _ => [(drr_schema r, uid (drr_data r))]
  | Called (EAS_revokeByDelegationProxy _ r _) _ =>
      [(dprr_schema r, uid (dprr_data r))]
  | Called (signDelegatedRevocation _ p _) _ => [(rp_schema p, rp_uid p)]
  | Called (signDelegatedProxyRevocation _ p _) _ => [(rpp_schema p, rpp_uid p)]
  | Called _ _ => []
  end.

Definition revocation_contents (tr : trace) : list (string * string) :=
  flat_map revocation_content tr.

(** The batches handed to the ledger: for each, the schema and the items of
    every group. *)
Definition submitted_attestation_batch (e : entry)
  : list (list (string * list AttestationRequestData)) :=
  match e with
  | Called (EAS_multiAttest _ rs _) _ =>
      [map (fun r => (mar_schema r, mar_data r)) rs]
  | Called (EAS_multiAttestByDelegation _ rs _) _ =>
      [map (fun g => (mdar_schema g, mdar_data g)) rs]
  | Called (EAS_multiAttestByDelegationProxy _ rs _) _ =>
      [map (fun g => (mdpar_schema g, mdpar_data g)) rs]
  | Called _ _ => []
  end.

Definition submitted_revocation_batch (e : entry)
  : list (list (string * list RevocationRequestData)) :=
  match e with
  | Called (EAS_multiRevoke _ rs _) _ =>
      [map (fun r => (mrr_schema r, mrr_data r)) rs]
  | Called (EAS_multiRevokeByDelegation _ rs _) _ =>
      [map (fun g => (mdrr_schema g, mdrr_data g)) rs]
  | Called (EAS_multiRevokeByDelegationProxy _ rs _) _ =>
      [map (fun g => (mdprr_schema g, mdprr_data g)) rs]
  | Called _ _ => []
  end.

(** The number of items of a batch. *)
Definition attestation_count (requests : list MultiAttestationRequest) : nat :=
  List.length (all_items requests).

Definition all_revocations (requests : list MultiRevocationRequest)
  : list RevocationRequestData :=
  flat_map mrr_data requests.

Definition revocation_count (requests : list MultiRevocationRequest) : nat :=
  List.length (all_revocations requests).

(** The submissions resolved to one transaction, whose fee members are [a]
    and [b]. *)
Definition shows_fees (a b : Z) (l : list Transaction) : Prop :=
  exists t,
    l = [t] /\ tx_maxPriorityFeePerGas t = Some a /\ tx_maxFeePerGas t = Some b.

(** What the signatures shown so far have to be for the groups built so far. *)
Definition forwarded_so_far {X : Type} (size : X -> nat)
    (groups : list (list Signature)) (done : list X) (l : list signature_flow)
  : Prop :=
  l = map Returned (List.concat groups)
  /\ map (@List.length Signature) groups = map size done.

(** A run that has submitted shows the signatures the signer returned, in
    order, and then their being forwarded in groups of the sizes given. *)
Definition forwards_as_returned (sizes : list nat) (l : list signature_flow)
  : Prop :=
  exists groups,
    l = (map Returned (List.concat groups) ++ [Forwarded groups])%list
    /\ map (@List.length Signature) groups = sizes.

(** ** Specifications of a program by what a reader sees

    [yields]: what a completed run has returned and shown.  [gated]: what a
    run has shown of [f] once it has shown anything of [g].
    [all_seen_returning]: [all_seen], with what a completed run returns. *)

Definition yields {B A : Type} (f : entry -> list B) (p : prog A)
    (Q : A -> list B -> Prop) : Prop :=
  forall (W : Type) (h : handler W) (w : W) (a : A),
    result_of (run h p w) = Ok a -> Q a (seen f (run h p w)).

Definition gated {C B A : Type} (g : entry -> list C) (f : entry -> list B)
    (p : prog A) (Q : list B -> Prop) : Prop :=
  forall (W : Type) (h : handler W) (w : W),
    seen g (run h p w) <> [] -> Q (seen f (run h p w)).

Definition all_seen_returning {B A : Type} (f : entry -> list B)
    (P : B -> Prop) (p : prog A) (R : A -> Prop) : Prop :=
  forall (W : Type) (h : handler W) (w : W),
    Forall P (seen f (run h p w))
    /\ forall a, result_of (run h p w) = Ok a -> R a.

(** ** The program monad *)

Lemma run_bind {W A B : Type} (h : handler W) (p : prog A) (f : A -> prog B) :
  forall w,
    run h (bind p f) w =
    match run h p w with
    | (Ok a, tr, w') =>
        match run h (f a) w' with
        | (res, tr', w'') => (res, (tr ++ tr')%list, w'')
        end
    | (Err e, tr, w') => (Err e, tr, w')
    end.
Proof.
  induction p as [a | e | R ev k IH]; intros w; simpl.
  - destruct (run h (f a) w) as [[res tr] w']. reflexivity.
  - reflexivity.
  - destruct (h R ev w) as [[r | e] w']; [| reflexivity].
    rewrite IH.
    destruct (run h (k r) w') as [[[a | e] tr] w'']; [| reflexivity].
    destruct (run h (f a) w'') as [[res tr'] w''']. reflexivity.
Qed.

Lemma run_await {W R : Type} (h : handler W) (ev : event R) (w : W) :
  run h (await ev) w =
  match h _ ev w with
  | (Resolved r, w') => (Ok r, [Called ev (Resolved r)], w')
  | (Rejects why, w') => (Err (Rejected why), [Called ev (Rejects why)], w')
  end.
Proof.
  unfold await. simpl. destruct (h R ev w) as [[r | e] w']; reflexivity.
Qed.

Lemma bind_assoc {A B C : Type} (p : prog A) (f : A -> prog B)
    (g : B -> prog C) (W : Type) (h : handler W) (w : W) :
  run h (bind (bind p f) g) w = run h (bind p (fun a => bind (f a) g)) w.
Proof.
  revert w. induction p as [a | e | R ev k IH]; intros w; simpl.
  - reflexivity.
  - reflexivity.
  - destruct (h R ev w) as [[r | e] w']; [| reflexivity].
    rewrite IH. reflexivity.
Qed.

Lemma for_of_cons {S X : Type} (x : X) (xs : list X) (body : S -> X -> prog S)
    (s : S) :
  for_of (x :: xs) body s = bind (body s x) (fun s' => for_of xs body s').
Proof. reflexivity. Qed.

Lemma prefix_of_refl {B : Type} (l : list B) : prefix_of l l.
Proof. exists []. now rewrite app_nil_r. Qed.

Lemma prefix_of_nil {B : Type} (l : list B) : prefix_of [] l.
Proof. exists l. reflexivity. Qed.

Lemma prefix_of_app_r {B : Type} (l1 l2 l3 : list B) :
  prefix_of l1 l2 -> prefix_of l1 (l2 ++ l3).
Proof.
  intros [rest ->]. exists (rest ++ l3)%list. now rewrite app_assoc.
Qed.

Lemma prefix_of_app_l {B : Type} (l l1 l2 : list B) :
  prefix_of l1 l2 -> prefix_of (l ++ l1) (l ++ l2).
Proof.
  intros [rest ->]. exists rest. now rewrite app_assoc.
Qed.

Section Readers.
Context {B : Type} (f : entry -> list B).

Lemma seen_bind {W A C : Type} (h : handler W) (p : prog A) (k : A -> prog C)
    (w : W) :
  seen f (run h (bind p k) w) =
  match run h p w with
  | (Ok a, tr, w') => (flat_map f tr ++ seen f (run h (k a) w'))%list
  | (Err _, tr, _) => flat_map f tr
  end.
Proof.
  rewrite run_bind.
  destruct (run h p w) as [[[a | e] tr] w']; [| reflexivity].
  destruct (run h (k a) w') as [[res tr'] w''].
  unfold seen, trace_of. simpl. apply flat_map_app.
Qed.

Lemma silent_Ret {A : Type} (a : A) : silent f (Ret a).
Proof. intros W h w. reflexivity. Qed.

Lemma silent_Throw {A : Type} (e : error) : silent f (@Throw A e).
Proof. intros W h w. reflexivity. Qed.

Lemma silent_bind {A C : Type} (p : prog A) (k : A -> prog C) :
  silent f p -> (forall a, silent f (k a)) -> silent f (bind p k).
Proof.
  intros Hp Hk W h w. rewrite seen_bind.
  specialize (Hp W h w). unfold seen, trace_of in Hp.
  destruct (run h p w) as [[[a | e] tr] w']; simpl in Hp.
  - rewrite Hp. apply Hk.
  - exact Hp.
Qed.

Lemma silent_await {R : Type} (ev : event R) :
  (forall o, f (Called ev o) = []) -> silent f (await ev).
Proof.
  intros Hev W h w. rewrite run_await.
  destruct (h R ev w) as [[r | e] w']; unfold seen, trace_of; simpl;
    rewrite Hev; reflexivity.
Qed.

Lemma silent_expect_true (what : string) (b : bool) :
  silent f (expect_true what b).
Proof. destruct b; [apply silent_Ret | apply silent_Throw]. Qed.

Lemma silent_for_of {S X : Type} (xs : list X) (body : S -> X -> prog S) :
  (forall s x, silent f (body s x)) -> forall s, silent f (for_of xs body s).
Proof.
  intros Hbody. induction xs as [| x xs IH]; intros s; simpl.
  - apply silent_Ret.
  - apply silent_bind; [apply Hbody | exact IH].
Qed.

Lemma silent_expect_fees (mp mf : option fee) (tx : option Transaction) :
  silent f (expect_fees mp mf tx).
Proof.
  unfold expect_fees.
  destruct mp as [a |], mf as [b |], tx as [t |]; try apply silent_Ret.
  destruct (fee_truthy a && fee_truthy b); [| apply silent_Ret].
  apply silent_bind; intros; apply silent_expect_true.
Qed.

(** A silent program emits nothing, whatever it returns. *)
Lemma silent_emits {A : Type} (p : prog A) :
  silent f p -> emits f p [] (fun _ => True).
Proof.
  intros Hp W h w. rewrite (Hp W h w).
  destruct (result_of (run h p w)); [split; trivial | apply prefix_of_nil].
Qed.


Lemma emits_bind {A C : Type} (p : prog A) (k : A -> prog C)
    (l1 l2 : list B) (P : A -> Prop) (Q : C -> Prop) :
  emits f p l1 P -> (forall a, P a -> emits f (k a) l2 Q) ->
  emits f (bind p k) (l1 ++ l2) Q.
Proof.
  intros Hp Hk W h w. rewrite seen_bind.
  specialize (Hp W h w). unfold seen, result_of, trace_of in *.
  rewrite run_bind.
  destruct (run h p w) as [[[a | e] tr] w'] eqn:Ep; simpl in *.
  - destruct Hp as [Htr Ha]. specialize (Hk a Ha W h w').
    unfold seen, result_of, trace_of in Hk.
    destruct (run h (k a) w') as [[[c | e] tr'] w'']; simpl in *.
    + destruct Hk as [Htr' Hc]. split; [| exact Hc]. now rewrite Htr, Htr'.
    + rewrite Htr. now apply prefix_of_app_l.
  - now apply prefix_of_app_r.
Qed.


End Readers.

Create HintDb silence.
#[local] Hint Resolve silent_Ret silent_Throw silent_expect_true
  silent_expect_fees : silence.

Section MoreReaders.
Context {B : Type} (f : entry -> list B).

Lemma emits_await {R : Type} (ev : event R) (l : list B) :
  (forall o, f (Called ev o) = l) -> emits f (await ev) l (fun _ => True).
Proof.
  intros Hev W h w. rewrite run_await.
  destruct (h R ev w) as [[r | e] w']; unfold seen, result_of, trace_of; simpl;
    rewrite Hev, app_nil_r.
  - split; trivial.
  - apply prefix_of_refl.
Qed.

Lemma emits_after_silent {A C : Type} (p : prog A) (k : A -> prog C)
    (l : list B) (Q : C -> Prop) :
  silent f p -> (forall a, emits f (k a) l Q) -> emits f (bind p k) l Q.
Proof.
  intros Hp Hk. change l with ([] ++ l)%list.
  apply emits_bind with (P := fun _ => True);
    [now apply silent_emits | intros a _; apply Hk].
Qed.

Lemma emits_then_silent {A C : Type} (p : prog A) (k : A -> prog C)
    (l : list B) (P : A -> Prop) (Q : C -> Prop) :
  emits f p l P -> (forall a, P a -> emits f (k a) [] Q) ->
  emits f (bind p k) l Q.
Proof.
  intros Hp Hk. rewrite <- (app_nil_r l). now apply emits_bind with (P := P).
Qed.

(** Whatever a run of an emitting program has shown is a first part of the
    full list. *)
Lemma emits_prefix {A : Type} (p : prog A) (l : list B) (P : A -> Prop) :
  emits f p l P ->
  forall (W : Type) (h : handler W) (w : W), prefix_of (seen f (run h p w)) l.
Proof.
  intros Hp W h w. specialize (Hp W h w).
  destruct (result_of (run h p w)); [| exact Hp].
  destruct Hp as [-> _]. apply prefix_of_refl.
Qed.

End MoreReaders.

Ltac head_of t :=
  lazymatch t with
  | ?g _ => head_of g
  | _ => t
  end.

(** Silence of a helper follows its text: each call is looked up in the
    reader, each [match] is split, each named part is opened. *)
Ltac silence :=
  repeat first
    [ apply silent_Ret
    | apply silent_Throw
    | apply silent_expect_true
    | apply silent_expect_fees
    | apply silent_await; intros ?; reflexivity
    | apply silent_bind; [| intros ?]
    | apply silent_for_of; intros ? ?
    | match goal with
      | |- silent _ (match ?x with _ => _ end) => destruct x
      | |- silent _ ?p => let g := head_of p in progress unfold g
      end ].

(** ** Consecutive nonces *)


Lemma consecutive_length (n : Z) (N : nat) :
  List.length (consecutive n N) = N.
Proof. unfold consecutive. now rewrite length_map, length_seq. Qed.




(** ** Delegated batches: what is signed, and with which nonce *)







Lemma bind_await_bind {A C R : Type} (ev : event R) (k : R -> prog A)
    (post : A -> prog C) :
  bind (bind (await ev) k) post = Call ev (fun r => bind (k r) post).
Proof. reflexivity. Qed.

Lemma run_Call {W A R : Type} (h : handler W) (ev : event R) (k : R -> prog A)
    (w : W) :
  run h (Call ev k) w =
  match h _ ev w with
  | (Resolved r, w') =>
      (result_of (run h (k r) w'),
       Called ev (Resolved r) :: trace_of (run h (k r) w'),
       world_of (run h (k r) w'))
  | (Rejects why, w') => (Err (Rejected why), [Called ev (Rejects why)], w')
  end.
Proof.
  simpl. destruct (h R ev w) as [[r | e] w']; [| reflexivity].
  destruct (run h (k r) w') as [[res tr] w'']. reflexivity.
Qed.


Lemma seen_eq {B W A : Type} (f : entry -> list B)
    (x y : outcome A * trace * W) :
  x = y -> seen f x = seen f y.
Proof. now intros ->. Qed.






(** The scenario's delegated batch in full: one nonce query, nonces 7, 8, 9
    in request order. *)
Example delegated_batch_scenario :
  let x := run Scenario.collaborators
             (expectMultiAttestations Scenario.batch
                (Scenario.attestation_options (Some Delegated) None None))
             Scenario.with_proxy in
  result_of x = Ok tt
  /\ nonce_queries (trace_of x) = ["addr:k1"]
  /\ delegated_signings (trace_of x)
     = [("0xAA", "0x1111", 7); ("0xAA", "0x2222", 8); ("0xBB", "0x3333", 9)].
Proof. vm_compute. repeat split. Qed.

(** ** Batched offchain attestation *)

(** C3.  A batch of attestations with the offchain signature style is
    rejected with the error "Offchain batch attestations are unsupported"
    before any collaborator is called: nothing is signed, item by item or
    otherwise, and the world is left as it was. *)
Theorem batched_offchain_attestation_unsupported (W : Type) (h : handler W)
    (w : W) (requests : list MultiAttestationRequest)
    (options : AttestationOptions) :
  signatureType options = Some Offchain ->
  run h (expectMultiAttestations requests options) w
  = (Err (JsError "Offchain batch attestations are unsupported"), [], w).
Proof.
  intros Hst. unfold expectMultiAttestations, multi_attestation_switch.
  rewrite Hst. reflexivity.
Qed.

Lemma batched_offchain_attestation_unsupported_witness :
  run Scenario.collaborators
    (expectMultiAttestations Scenario.batch
       (Scenario.attestation_options (Some Offchain) None None))
    Scenario.with_proxy
  = (Err (JsError "Offchain batch attestations are unsupported"), [],
     Scenario.with_proxy).
Proof.
  exact (batched_offchain_attestation_unsupported _ Scenario.collaborators
           Scenario.with_proxy Scenario.batch
           (Scenario.attestation_options (Some Offchain) None None) eq_refl).
Defined.

(** ** Proxy flows without a proxy *)

Section NoProxy.
Context {W : Type} (h : handler W) (w w' : W).
Hypothesis no_proxy : h _ EAS_getEIP712Proxy w = (Resolved None, w').

Lemma expectAttestation_no_proxy getOffchainUID version schema request options :
  signatureType options = Some DelegatedProxy ->
  run h (expectAttestation getOffchainUID version schema request options) w
  = invalid_proxy w'.
Proof.
  intros Hst. unfold expectAttestation, attestation_switch.
  rewrite Hst. cbn [or_default]. rewrite bind_await_bind, run_Call, no_proxy.
  reflexivity.
Qed.

Lemma expectMultiAttestations_no_proxy requests options :
  signatureType options = Some DelegatedProxy ->
  run h (expectMultiAttestations requests options) w = invalid_proxy w'.
Proof.
  intros Hst. unfold expectMultiAttestations, multi_attestation_switch.
  rewrite Hst. cbn [or_default]. rewrite bind_await_bind, run_Call, no_proxy.
  reflexivity.
Qed.

Lemma expectRevocation_no_proxy schema request options :
  r_signatureType options = Some DelegatedProxy ->
  run h (expectRevocation schema request options) w = invalid_proxy w'.
Proof.
  intros Hst. unfold expectRevocation, revocation_switch.
  rewrite Hst. cbn [or_default]. rewrite bind_await_bind, run_Call, no_proxy.
  reflexivity.
Qed.

Lemma expectMultiRevocations_no_proxy requests options :
  r_signatureType options = Some DelegatedProxy ->
  run h (expectMultiRevocations requests options) w = invalid_proxy w'.
Proof.
  intros Hst. unfold expectMultiRevocations, multi_revocation_switch.
  rewrite Hst. cbn [or_default]. rewrite bind_await_bind, run_Call, no_proxy.
  reflexivity.
Qed.

End NoProxy.

(** C4.  When the ledger binding has no proxy, every proxy flow (single or
    batched, attestation or revocation) throws "Invalid proxy" right after
    asking for the proxy: that question is the only call of the run, so no
    signature has been asked for and none has been checked. *)
Theorem proxy_flow_without_proxy (W : Type) (h : handler W) (w w' : W) :
  h _ EAS_getEIP712Proxy w = (Resolved None, w') ->
  (forall getOffchainUID version schema request options,
      signatureType options = Some DelegatedProxy ->
      run h (expectAttestation getOffchainUID version schema request options) w
      = invalid_proxy w')
  /\ (forall requests options,
         signatureType options = Some DelegatedProxy ->
         run h (expectMultiAttestations requests options) w = invalid_proxy w')
  /\ (forall schema request options,
         r_signatureType options = Some DelegatedProxy ->
         run h (expectRevocation schema request options) w = invalid_proxy w')
  /\ (forall requests options,
         r_signatureType options = Some DelegatedProxy ->
         run h (expectMultiRevocations requests options) w = invalid_proxy w')
  /\ signings (trace_of (@invalid_proxy W unit w')) = []
  /\ verifications (trace_of (@invalid_proxy W unit w')) = [].
Proof.
  intros Hnone. repeat split.
  - intros. now apply expectAttestation_no_proxy.
  - intros. now apply expectMultiAttestations_no_proxy.
  - intros. now apply expectRevocation_no_proxy.
  - intros. now apply expectMultiRevocations_no_proxy.
Qed.

Lemma proxy_flow_without_proxy_witness :
  let proxy_attestation :=
    Scenario.attestation_options (Some DelegatedProxy) None None in
  let proxy_revocation :=
    Scenario.revocation_options (Some DelegatedProxy) None None in
  run Scenario.collaborators
    (expectAttestation Scenario.no_uid 1 "0xAA" (Scenario.bare "0x1111")
       proxy_attestation)
    Scenario.without_proxy
  = invalid_proxy Scenario.without_proxy
  /\ run Scenario.collaborators
       (expectMultiAttestations Scenario.batch proxy_attestation)
       Scenario.without_proxy
     = invalid_proxy Scenario.without_proxy
  /\ run Scenario.collaborators
       (expectRevocation "0xAA" (Scenario.revocation "u1") proxy_revocation)
       Scenario.without_proxy
     = invalid_proxy Scenario.without_proxy
  /\ run Scenario.collaborators
       (expectMultiRevocations Scenario.revocation_batch proxy_revocation)
       Scenario.without_proxy
     = invalid_proxy Scenario.without_proxy.
Proof.
  intros proxy_attestation proxy_revocation.
  destruct (proxy_flow_without_proxy _ Scenario.collaborators
              Scenario.without_proxy Scenario.without_proxy eq_refl)
    as (Hattest & Hattests & Hrevoke & Hrevokes & _).
  split; [| split; [| split]].
  - exact (Hattest Scenario.no_uid 1 "0xAA" (Scenario.bare "0x1111")
             proxy_attestation eq_refl).
  - exact (Hattests Scenario.batch proxy_attestation eq_refl).
  - exact (Hrevoke "0xAA" (Scenario.revocation "u1") proxy_revocation eq_refl).
  - exact (Hrevokes Scenario.revocation_batch proxy_revocation eq_refl).
Defined.

(** ** Properties of every call a reader sees *)

Section AllSeen.
Context {B : Type} (f : entry -> list B) (P : B -> Prop).

Lemma all_seen_Ret {A : Type} (a : A) : all_seen f P (Ret a).
Proof. intros W h w. constructor. Qed.

Lemma all_seen_Throw {A : Type} (e : error) : all_seen f P (@Throw A e).
Proof. intros W h w. constructor. Qed.

Lemma all_seen_bind {A C : Type} (p : prog A) (k : A -> prog C) :
  all_seen f P p -> (forall a, all_seen f P (k a)) -> all_seen f P (bind p k).
Proof.
  intros Hp Hk W h w. rewrite seen_bind.
  specialize (Hp W h w). unfold seen, trace_of in Hp.
  destruct (run h p w) as [[[a | e] tr] w']; simpl in Hp.
  - apply Forall_app. split; [exact Hp | apply Hk].
  - exact Hp.
Qed.

Lemma all_seen_await {R : Type} (ev : event R) :
  (forall o, Forall P (f (Called ev o))) -> all_seen f P (await ev).
Proof.
  intros Hev W h w. rewrite run_await.
  destruct (h R ev w) as [[r | e] w']; unfold seen, trace_of; simpl;
    rewrite app_nil_r; apply Hev.
Qed.

Lemma silent_all_seen {A : Type} (p : prog A) :
  silent f p -> all_seen f P p.
Proof. intros Hp W h w. rewrite (Hp W h w). constructor. Qed.

Lemma all_seen_for_of_In {S X : Type} (xs : list X) (body : S -> X -> prog S) :
  (forall s x, In x xs -> all_seen f P (body s x)) ->
  forall s, all_seen f P (for_of xs body s).
Proof.
  induction xs as [| x xs IH]; intros Hbody s.
  - apply all_seen_Ret.
  - rewrite for_of_cons. apply all_seen_bind.
    + apply Hbody. now left.
    + apply IH. intros s' x' Hx'. apply Hbody. now right.
Qed.

Lemma all_seen_for_of {S X : Type} (xs : list X) (body : S -> X -> prog S) :
  (forall s x, all_seen f P (body s x)) ->
  forall s, all_seen f P (for_of xs body s).
Proof. intros Hbody. apply all_seen_for_of_In. intros s x _. apply Hbody. Qed.

End AllSeen.

(** Like [silence]: a call the reader sees has to satisfy the property, which
    [finish] is to show. *)
Ltac all_seen_by finish :=
  repeat first
    [ apply all_seen_Ret
    | apply all_seen_Throw
    | apply silent_all_seen; solve [silence]
    | apply all_seen_await; intros ?; cbn; repeat constructor; solve [finish]
    | apply all_seen_bind; [| intros ?]
    | apply all_seen_for_of; intros ? ?
    | match goal with
      | |- all_seen _ _ (match ?x with _ => _ end) => destruct x
      | |- all_seen _ _ ?p => let g := head_of p in progress unfold g
      end ].

(** ** Runs that differ only in what follows a common first part *)

Lemma run_bind_ext {W A C : Type} (h : handler W) (p : prog A)
    (k1 k2 : A -> prog C) :
  (forall a w', run h (k1 a) w' = run h (k2 a) w') ->
  forall w, run h (bind p k1) w = run h (bind p k2) w.
Proof.
  intros Hk w. rewrite !run_bind.
  destruct (run h p w) as [[[a | e] tr] w']; [| reflexivity].
  now rewrite Hk.
Qed.

Lemma run_bind_Ret_tt {W : Type} (h : handler W) (p : prog unit) (w : W) :
  run h (bind p (fun _ => Ret tt)) w = run h p w.
Proof.
  rewrite run_bind.
  destruct (run h p w) as [[[[] | e] tr] w']; [| reflexivity].
  simpl. now rewrite app_nil_r.
Qed.

(** ** Fee overrides *)

Lemma expect_fees_no_tx (mp mf : option fee) : expect_fees mp mf None = Ret tt.
Proof. destruct mp, mf; reflexivity. Qed.

(** The check after the switch has the same guard as the overrides. *)
Lemma expect_fees_dropped (mp mf : option fee) (tx : option Transaction) :
  make_overrides mp mf = None -> expect_fees mp mf tx = Ret tt.
Proof.
  unfold make_overrides, expect_fees.
  destruct mp as [a |], mf as [b |], tx as [t |]; try reflexivity.
  destruct (fee_truthy a && fee_truthy b); [discriminate | reflexivity].
Qed.

Lemma make_overrides_truthy (a b : fee) :
  fee_truthy a = true -> fee_truthy b = true ->
  make_overrides (Some a) (Some b) = fees_as_given a b.
Proof. intros Ha Hb. unfold make_overrides. now rewrite Ha, Hb. Qed.

Lemma make_overrides_one_absent (mp mf : option fee) :
  mp = None \/ mf = None -> make_overrides mp mf = None.
Proof. intros [-> | ->]; [reflexivity | now destruct mp]. Qed.

Lemma make_overrides_zero (a b : fee) :
  a = FeeBigint 0 \/ b = FeeBigint 0 -> make_overrides (Some a) (Some b) = None.
Proof.
  intros [-> | ->]; unfold make_overrides; [reflexivity |].
  now rewrite andb_false_r.
Qed.

(** ** Batched offchain revocation *)

(** C10.  With the offchain signature style the switch of the batched
    revocation helper takes no case: it completes without an error, without
    a call and with no transaction.  The helper as a whole is then just the
    checks that follow the switch, so nothing is signed and nothing is
    submitted; the batched attestation helper, in contrast, throws. *)
Theorem batched_offchain_revocation_falls_through (W : Type) (h : handler W)
    (w : W) (requests : list MultiRevocationRequest)
    (options : RevocationOptions) :
  r_signatureType options = Some Offchain ->
  run h (multi_revocation_switch requests options) w = (Ok None, [], w)
  /\ run h (expectMultiRevocations requests options) w
     = run h (expect_all_revoked requests) w
  /\ signings (trace_of (run h (expectMultiRevocations requests options) w))
     = []
  /\ submissions (trace_of (run h (expectMultiRevocations requests options) w))
     = []
  /\ (forall attestations attestation_options,
         signatureType attestation_options = Some Offchain ->
         result_of
           (run h (expectMultiAttestations attestations attestation_options) w)
         = Err (JsError "Offchain batch attestations are unsupported")).
Proof.
  intros Hst.
  assert (Hrun : run h (expectMultiRevocations requests options) w
                 = run h (expect_all_revoked requests) w).
  { unfold expectMultiRevocations, multi_revocation_switch.
    rewrite Hst. cbn [or_default bind].
    rewrite expect_fees_no_tx. apply run_bind_Ret_tt. }
  split; [| split; [exact Hrun | rewrite Hrun; repeat split]].
  - unfold multi_revocation_switch. rewrite Hst. reflexivity.
  - assert (Hs : silent signing (expect_all_revoked requests)) by silence.
    apply Hs.
  - assert (Hs : silent submission (expect_all_revoked requests)) by silence.
    apply Hs.
  - intros attestations attestation_options Hast.
    unfold expectMultiAttestations, multi_attestation_switch.
    rewrite Hast. reflexivity.
Qed.

Lemma batched_offchain_revocation_falls_through_witness :
  run Scenario.nothing_revoked
    (multi_revocation_switch Scenario.revocation_batch
       (Scenario.revocation_options (Some Offchain) None None))
    Scenario.with_proxy
  = (Ok None, [], Scenario.with_proxy)
  /\ result_of
       (run Scenario.nothing_revoked
          (expectMultiAttestations Scenario.batch
             (Scenario.attestation_options (Some Offchain) None None))
          Scenario.with_proxy)
     = Err (JsError "Offchain batch attestations are unsupported").
Proof.
  destruct (batched_offchain_revocation_falls_through _
              Scenario.nothing_revoked Scenario.with_proxy
              Scenario.revocation_batch
              (Scenario.revocation_options (Some Offchain) None None)
              eq_refl)
    as (Hswitch & _ & _ & _ & Hattestations).
  split; [exact Hswitch |].
  exact (Hattestations Scenario.batch
           (Scenario.attestation_options (Some Offchain) None None) eq_refl).
Defined.

(** The checks after the switch still run: on a ledger where nothing is
    revoked the helper ends on the first of them that fails. *)
Example batched_offchain_revocation_checks_still_run :
  result_of
    (run Scenario.nothing_revoked
       (expectMultiRevocations Scenario.revocation_batch
          (Scenario.revocation_options (Some Offchain) None None))
       Scenario.with_proxy)
  = Err (AssertionError "isAttestationRevoked").
Proof. reflexivity. Qed.

(** When the overrides are dropped, a helper runs as it does on the same
    options with both fee members left out. *)
Lemma expectAttestation_dropped (W : Type) (h : handler W) (w : W)
    getOffchainUID version schema request options :
  make_overrides (maxPriorityFeePerGas options) (maxFeePerGas options) = None ->
  run h (expectAttestation getOffchainUID version schema request options) w
  = run h (expectAttestation getOffchainUID version schema request
             (without_fees options)) w.
Proof.
  destruct options as [st dl fr v mp mf bp]. cbn. intros Hov.
  unfold expectAttestation, attestation_switch.
  cbn [signatureType deadline from maxPriorityFeePerGas maxFeePerGas].
  rewrite Hov. change (make_overrides None None) with (@None Overrides).
  apply run_bind_ext. intros [[u tx] | u] w'; [| reflexivity].
  now rewrite (expect_fees_dropped mp mf tx Hov).
Qed.

Lemma expectMultiAttestations_dropped (W : Type) (h : handler W) (w : W)
    requests options :
  make_overrides (maxPriorityFeePerGas options) (maxFeePerGas options) = None ->
  run h (expectMultiAttestations requests options) w
  = run h (expectMultiAttestations requests (without_fees options)) w.
Proof.
  destruct options as [st dl fr v mp mf bp]. cbn. intros Hov.
  unfold expectMultiAttestations, multi_attestation_switch.
  cbn [signatureType deadline from maxPriorityFeePerGas maxFeePerGas].
  rewrite Hov. change (make_overrides None None) with (@None Overrides).
  apply run_bind_ext. intros [tx uids] w'.
  now rewrite (expect_fees_dropped mp mf tx Hov).
Qed.

Lemma expectRevocation_dropped (W : Type) (h : handler W) (w : W)
    schema request options :
  make_overrides (r_maxPriorityFeePerGas options) (r_maxFeePerGas options)
  = None ->
  run h (expectRevocation schema request options) w
  = run h (expectRevocation schema request (r_without_fees options)) w.
Proof.
  destruct options as [st dl fr v mp mf]. cbn. intros Hov.
  unfold expectRevocation, revocation_switch.
  cbn [r_signatureType r_deadline r_from r_maxPriorityFeePerGas
       r_maxFeePerGas].
  rewrite Hov. change (make_overrides None None) with (@None Overrides).
  apply run_bind_ext. intros tx w'.
  now rewrite (expect_fees_dropped mp mf tx Hov).
Qed.

Lemma expectMultiRevocations_dropped (W : Type) (h : handler W) (w : W)
    requests options :
  make_overrides (r_maxPriorityFeePerGas options) (r_maxFeePerGas options)
  = None ->
  run h (expectMultiRevocations requests options) w
  = run h (expectMultiRevocations requests (r_without_fees options)) w.
Proof.
  destruct options as [st dl fr v mp mf]. cbn. intros Hov.
  unfold expectMultiRevocations, multi_revocation_switch.
  cbn [r_signatureType r_deadline r_from r_maxPriorityFeePerGas
       r_maxFeePerGas].
  rewrite Hov. change (make_overrides None None) with (@None Overrides).
  apply run_bind_ext. intros tx w'.
  now rewrite (expect_fees_dropped mp mf tx Hov).
Qed.

(** C9.  When both fee members are supplied and one of them is [0n], the
    truthiness test drops the overrides, and each of the four helpers runs
    exactly as on the same options with both fee members left out: same
    outcome, same calls with the same arguments, same world. *)
Theorem zero_fee_drops_overrides (a b : fee) :
  a = FeeBigint 0 \/ b = FeeBigint 0 ->
  make_overrides (Some a) (Some b) = None
  /\ forall (W : Type) (h : handler W) (w : W),
       (forall getOffchainUID version schema request options,
           maxPriorityFeePerGas options = Some a ->
           maxFeePerGas options = Some b ->
           run h (expectAttestation getOffchainUID version schema request
                    options) w
           = run h (expectAttestation getOffchainUID version schema request
                      (without_fees options)) w)
       /\ (forall requests options,
              maxPriorityFeePerGas options = Some a ->
              maxFeePerGas options = Some b ->
              run h (expectMultiAttestations requests options) w
              = run h (expectMultiAttestations requests
                         (without_fees options)) w)
       /\ (forall schema request options,
              r_maxPriorityFeePerGas options = Some a ->
              r_maxFeePerGas options = Some b ->
              run h (expectRevocation schema request options) w
              = run h (expectRevocation schema request
                         (r_without_fees options)) w)
       /\ (forall requests options,
              r_maxPriorityFeePerGas options = Some a ->
              r_maxFeePerGas options = Some b ->
              run h (expectMultiRevocations requests options) w
              = run h (expectMultiRevocations requests
                         (r_without_fees options)) w).
Proof.
  intros Hzero. pose proof (make_overrides_zero a b Hzero) as Hov.
  split; [exact Hov |]. intros W h w. repeat split.
  - intros getOffchainUID version schema request options Hmp Hmf.
    apply expectAttestation_dropped. now rewrite Hmp, Hmf.
  - intros requests options Hmp Hmf.
    apply expectMultiAttestations_dropped. now rewrite Hmp, Hmf.
  - intros schema request options Hmp Hmf.
    apply expectRevocation_dropped. now rewrite Hmp, Hmf.
  - intros requests options Hmp Hmf.
    apply expectMultiRevocations_dropped. now rewrite Hmp, Hmf.
Qed.

Lemma zero_fee_drops_overrides_witness :
  make_overrides (Some (FeeBigint 0)) (Some (FeeBigint 5)) = None
  /\ run Scenario.collaborators
       (expectRevocation "0xAA" (Scenario.revocation "u1")
          (Scenario.revocation_options (Some Delegated)
             (Some (FeeBigint 0)) (Some (FeeBigint 5))))
       Scenario.with_proxy
     = run Scenario.collaborators
         (expectRevocation "0xAA" (Scenario.revocation "u1")
            (r_without_fees
               (Scenario.revocation_options (Some Delegated)
                  (Some (FeeBigint 0)) (Some (FeeBigint 5)))))
         Scenario.with_proxy.
Proof.
  pose proof (zero_fee_drops_overrides (FeeBigint 0) (FeeBigint 5)
                (or_introl eq_refl)) as [Hov Hruns].
  split; [exact Hov |].
  destruct (Hruns _ Scenario.collaborators Scenario.with_proxy)
    as (_ & _ & Hrevocation & _).
  exact (Hrevocation "0xAA" (Scenario.revocation "u1")
           (Scenario.revocation_options (Some Delegated)
              (Some (FeeBigint 0)) (Some (FeeBigint 5)))
           eq_refl eq_refl).
Defined.

Lemma emits_Throw {B A : Type} (f : entry -> list B) (e : error) (l : list B)
    (Q : A -> Prop) :
  emits f (@Throw A e) l Q.
Proof. intros W h w. apply prefix_of_nil. Qed.

Lemma prefix_of_singleton {B : Type} (b : B) (l : list B) :
  prefix_of l [b] -> Forall (eq b) l.
Proof.
  intros [rest Hl]. destruct l as [| b' l]; [constructor |].
  injection Hl as -> Hnil. symmetry in Hnil. apply app_eq_nil in Hnil.
  destruct Hnil as [-> _].
  repeat constructor.
Qed.

Lemma emits_submitted_with {A : Type} (p : prog A) (ov : option Overrides)
    (Q : A -> Prop) :
  emits submission p [ov] Q ->
  forall (W : Type) (h : handler W) (w : W), submitted_with ov (run h p w).
Proof.
  intros Hp W h w. split.
  - apply prefix_of_singleton. exact (emits_prefix _ _ _ _ Hp W h w).
  - intros a Hok. specialize (Hp W h w). rewrite Hok in Hp. apply Hp.
Qed.

(** A helper that makes the one call the reader is after: silent up to it,
    silent after it. *)
Ltac emits_once :=
  repeat first
    [ apply emits_Throw
    | apply emits_after_silent; [solve [silence] | intros ?]
    | eapply emits_then_silent;
      [ apply emits_await; intros ?; reflexivity
      | intros ? _; apply silent_emits; solve [silence] ]
    | match goal with
      | |- emits _ (match ?x with _ => _ end) _ _ => destruct x
      | |- emits _ ?p _ _ => let g := head_of p in progress unfold g
      end ].

(** Each helper submits once, with the overrides computed from the options;
    the offchain cases apart, which submit nothing, and the direct batch
    cases, which submit without them. *)
Lemma expectAttestation_submits_once getOffchainUID version schema request
    options :
  or_default Direct (signatureType options) <> Offchain ->
  emits submission
    (expectAttestation getOffchainUID version schema request options)
    [make_overrides (maxPriorityFeePerGas options) (maxFeePerGas options)]
    (fun _ => True).
Proof.
  intros Hst. unfold expectAttestation.
  eapply emits_then_silent with (P := fun _ => True).
  - unfold attestation_switch.
    destruct (or_default Direct (signatureType options));
      [| | | now elim Hst]; emits_once.
  - intros c _. apply silent_emits. silence.
Qed.

Lemma expectRevocation_submits_once schema request options :
  or_default Direct (r_signatureType options) <> Offchain ->
  emits submission (expectRevocation schema request options)
    [make_overrides (r_maxPriorityFeePerGas options) (r_maxFeePerGas options)]
    (fun _ => True).
Proof.
  intros Hst. unfold expectRevocation.
  eapply emits_then_silent with (P := fun _ => True).
  - unfold revocation_switch.
    destruct (or_default Direct (r_signatureType options));
      [| | | now elim Hst]; emits_once.
  - intros tx _. apply silent_emits. silence.
Qed.

Lemma expectMultiAttestations_submits_once requests options :
  or_default Direct (signatureType options) <> Direct ->
  emits submission (expectMultiAttestations requests options)
    [make_overrides (maxPriorityFeePerGas options) (maxFeePerGas options)]
    (fun _ => True).
Proof.
  intros Hst. unfold expectMultiAttestations.
  eapply emits_then_silent with (P := fun _ => True).
  - unfold multi_attestation_switch.
    destruct (or_default Direct (signatureType options));
      [now elim Hst | | |]; emits_once.
  - intros [tx uids] _. apply silent_emits. silence.
Qed.

Lemma expectMultiRevocations_submits_once requests options :
  or_default Direct (r_signatureType options) <> Direct ->
  or_default Direct (r_signatureType options) <> Offchain ->
  emits submission (expectMultiRevocations requests options)
    [make_overrides (r_maxPriorityFeePerGas options) (r_maxFeePerGas options)]
    (fun _ => True).
Proof.
  intros Hdirect Hoffchain. unfold expectMultiRevocations.
  eapply emits_then_silent with (P := fun _ => True).
  - unfold multi_revocation_switch.
    destruct (or_default Direct (r_signatureType options));
      [now elim Hdirect | | | now elim Hoffchain]; emits_once.
  - intros tx _. apply silent_emits. silence.
Qed.

(** C2, as stated, fails: with both fees supplied and the priority fee [0n],
    the single direct attestation is submitted without overrides. *)
Lemma fees_dropped_though_both_present :
  let options :=
    Scenario.attestation_options (Some Direct)
      (Some (FeeBigint 0)) (Some (FeeBigint 5)) in
  maxPriorityFeePerGas options = Some (FeeBigint 0)
  /\ maxFeePerGas options = Some (FeeBigint 5)
  /\ submissions
       (trace_of
          (run Scenario.collaborators
             (expectAttestation Scenario.no_uid 1 "0xAA"
                (Scenario.bare "0x1111") options)
             Scenario.with_proxy))
     = [None]
  /\ ~ fees_passed_whenever_present.
Proof.
  intros options. split; [reflexivity | split; [reflexivity | split]].
  - reflexivity.
  - intros Hclaim.
    specialize (Hclaim _ Scenario.collaborators Scenario.with_proxy
                  Scenario.no_uid 1 "0xAA" (Scenario.bare "0x1111") options
                  (FeeBigint 0) (FeeBigint 5) eq_refl eq_refl).
    vm_compute in Hclaim. inversion Hclaim as [| ? ? Hhead _].
    discriminate Hhead.
Qed.

(** C2, amended.  The single-request helpers (on their direct, delegated and
    proxy paths) and the batch helpers (on their delegated and proxy paths)
    submit once, and every submission carries the overrides computed from
    the options.  These hold both fees, each as its [toString()] (the decimal
    numeral for a bigint), when both are supplied and truthy, and they are
    [undefined] as soon as one of the two is left out. *)
Theorem fee_overrides_all_or_nothing (W : Type) (h : handler W) (w : W) :
  (forall getOffchainUID version schema request options,
      or_default Direct (signatureType options) <> Offchain ->
      submitted_with
        (make_overrides (maxPriorityFeePerGas options) (maxFeePerGas options))
        (run h (expectAttestation getOffchainUID version schema request
                  options) w))
  /\ (forall schema request options,
         or_default Direct (r_signatureType options) <> Offchain ->
         submitted_with
           (make_overrides (r_maxPriorityFeePerGas options)
              (r_maxFeePerGas options))
           (run h (expectRevocation schema request options) w))
  /\ (forall requests options,
         or_default Direct (signatureType options) <> Direct ->
         submitted_with
           (make_overrides (maxPriorityFeePerGas options)
              (maxFeePerGas options))
           (run h (expectMultiAttestations requests options) w))
  /\ (forall requests options,
         or_default Direct (r_signatureType options) <> Direct ->
         or_default Direct (r_signatureType options) <> Offchain ->
         submitted_with
           (make_overrides (r_maxPriorityFeePerGas options)
              (r_maxFeePerGas options))
           (run h (expectMultiRevocations requests options) w))
  /\ (forall a b,
         fee_truthy a = true -> fee_truthy b = true ->
         make_overrides (Some a) (Some b) = fees_as_given a b)
  /\ (forall mp mf, mp = None \/ mf = None -> make_overrides mp mf = None)
  /\ (forall z, fee_toString (FeeBigint z) = NilZero.string_of_int (Z.to_int z)).
Proof.
  split; [| split; [| split; [| split; [| split; [| split]]]]].
  - intros getOffchainUID version schema request options Hst.
    eapply emits_submitted_with.
    now apply expectAttestation_submits_once.
  - intros schema request options Hst.
    eapply emits_submitted_with. now apply expectRevocation_submits_once.
  - intros requests options Hst.
    eapply emits_submitted_with.
    now apply expectMultiAttestations_submits_once.
  - intros requests options Hdirect Hoffchain.
    eapply emits_submitted_with.
    now apply expectMultiRevocations_submits_once.
  - intros a b. apply make_overrides_truthy.
  - intros mp mf. apply make_overrides_one_absent.
  - reflexivity.
Qed.

Lemma fee_overrides_all_or_nothing_witness :
  submitted_with (fees_as_given (FeeBigint 3) (FeeBigint 5))
    (run Scenario.collaborators
       (expectAttestation Scenario.no_uid 1 "0xAA" (Scenario.bare "0x1111")
          (Scenario.attestation_options None
             (Some (FeeBigint 3)) (Some (FeeBigint 5))))
       Scenario.with_proxy)
  /\ submitted_with (fees_as_given (FeeBigint 3) (FeeBigint 5))
       (run Scenario.collaborators
          (expectRevocation "0xAA" (Scenario.revocation "u1")
             (Scenario.revocation_options (Some DelegatedProxy)
                (Some (FeeBigint 3)) (Some (FeeBigint 5))))
          Scenario.with_proxy)
  /\ submitted_with (fees_as_given (FeeBigint 3) (FeeBigint 5))
       (run Scenario.collaborators
          (expectMultiAttestations Scenario.batch
             (Scenario.attestation_options (Some Delegated)
                (Some (FeeBigint 3)) (Some (FeeBigint 5))))
          Scenario.with_proxy)
  /\ submitted_with (fees_as_given (FeeBigint 3) (FeeBigint 5))
       (run Scenario.collaborators
          (expectMultiRevocations Scenario.revocation_batch
             (Scenario.revocation_options (Some DelegatedProxy)
                (Some (FeeBigint 3)) (Some (FeeBigint 5))))
          Scenario.with_proxy)
  /\ make_overrides (Some (FeeBigint 3)) (Some (FeeBigint 5))
     = fees_as_given (FeeBigint 3) (FeeBigint 5)
  /\ make_overrides (Some (FeeBigint 3)) None = None.
Proof.
  destruct (fee_overrides_all_or_nothing _ Scenario.collaborators
              Scenario.with_proxy)
    as (Hattestation & Hrevocation & Hattestations & Hrevocations & Htruthy
        & Habsent & _).
  split; [| split; [| split; [| split; [| split]]]].
  - apply (Hattestation Scenario.no_uid 1 "0xAA" (Scenario.bare "0x1111")
             (Scenario.attestation_options None
                (Some (FeeBigint 3)) (Some (FeeBigint 5)))).
    simpl. discriminate.
  - apply (Hrevocation "0xAA" (Scenario.revocation "u1")
             (Scenario.revocation_options (Some DelegatedProxy)
                (Some (FeeBigint 3)) (Some (FeeBigint 5)))).
    simpl. discriminate.
  - apply (Hattestations Scenario.batch
             (Scenario.attestation_options (Some Delegated)
                (Some (FeeBigint 3)) (Some (FeeBigint 5)))).
    simpl. discriminate.
  - apply (Hrevocations Scenario.revocation_batch
             (Scenario.revocation_options (Some DelegatedProxy)
                (Some (FeeBigint 3)) (Some (FeeBigint 5))));
      simpl; discriminate.
  - apply Htruthy; reflexivity.
  - apply Habsent. right. reflexivity.
Defined.

(** The fees of the scenario reach the submission as decimal numerals. *)
Example fee_overrides_scenario :
  submissions
    (trace_of
       (run Scenario.collaborators
          (expectMultiRevocations Scenario.revocation_batch
             (Scenario.revocation_options (Some Delegated)
                (Some (FeeBigint 3)) (Some (FeeBigint 5))))
          Scenario.with_proxy))
  = [Some {| ov_maxPriorityFeePerGas := "3"; ov_maxFeePerGas := "5" |}].
Proof. reflexivity. Qed.

(** ** Defaults of the optional members *)










(** What the scenario's bare request is signed and submitted with. *)
Example bare_request_scenario :
  let x := run Scenario.collaborators
             (expectAttestation Scenario.no_uid 1 "0xAA"
                (Scenario.bare "0x1111")
                (Scenario.attestation_options (Some Delegated) None None))
             Scenario.with_proxy in
  attestation_payloads (trace_of x)
  = [(0, true, ZERO_BYTES32); (0, true, ZERO_BYTES32)]
  /\ attached_values (trace_of x) = [0].
Proof. split; reflexivity. Qed.

(** ** Offchain attestations *)

(** One collaborator call of a run: either it rejects, which ends the run, or
    the run goes on with what it resolved to. *)
Ltac call r w' :=
  rewrite run_Call;
  match goal with
  | |- context [?h ?R ?ev ?w] =>
      lazymatch type of h with
      | handler _ => destruct (h R ev w) as [[r | ?] w']
      end
  end.


Section OffchainProperties.
Context {crypto : Crypto}.

Lemma signed_uid_is_uid_of_message (domain : TypedDataDomain)
    (params : OffchainAttestationParams) (signer : BaseWallet) :
  so_uid (OffchainSigner.signOffchainAttestation domain params signer)
  = OffchainSigner.uid_of
      (so_message (OffchainSigner.signOffchainAttestation domain params signer)).
Proof. reflexivity. Qed.

(** Against a signer as specified, the helper's [expect(response.uid)] holds
    in every run. *)
Lemma offchain_uid_expectation_holds (W : Type) (h : handler W) (w : W)
    version schema request options :
  offchain_as_specified h ->
  signatureType options = Some Offchain ->
  result_of
    (run h (expectAttestation OffchainSigner.getOffchainUID version schema
              request options) w)
  <> Err (AssertionError "response.uid").
Proof.
  intros [Hsign _] Hst. unfold expectAttestation, attestation_switch.
  rewrite Hst. cbn [or_default bind await].
  call offchain w1; [| discriminate].
  call now w2; [| discriminate].
  rewrite run_Call.
  match goal with
  | |- context [h _ (signOffchainAttestation ?o ?p ?s) w2] =>
      pose proof (Hsign o p s w2) as Hanswer;
      destruct (h _ (signOffchainAttestation o p s) w2) as [answer w3]
  end.
  simpl in Hanswer. subst answer.
  cbn [result_of trace_of fst snd OffchainSigner.signOffchainAttestation
       so_uid].
  unfold OffchainSigner.uid_of. cbn [oa_version oa_schema oa_recipient oa_time
    oa_expirationTime oa_revocable oa_refUID oa_data].
  rewrite String.eqb_refl. cbn [expect_true bind].
  call ok w4; [| discriminate].
  destruct ok; discriminate.
Qed.

(** C5.  The response of [signOffchainAttestation] carries, as the signed
    message, exactly the fields it was given, and its [uid] is
    [getOffchainUID] of the version, schema, recipient, time, expiration
    time, revocable flag, reference UID and data of that message; so the
    helper's comparison of [response.uid] with the UID it derives itself
    never fails against such a signer. *)
Theorem offchain_uid_matches_signed_fields :
  (forall domain params signer,
      let r := OffchainSigner.signOffchainAttestation domain params signer in
      so_message r = params
      /\ so_uid r
         = OffchainSigner.getOffchainUID (oa_version (so_message r))
             (oa_schema (so_message r)) (oa_recipient (so_message r))
             (oa_time (so_message r)) (oa_expirationTime (so_message r))
             (oa_revocable (so_message r)) (oa_refUID (so_message r))
             (oa_data (so_message r)))
  /\ (forall (W : Type) (h : handler W) (w : W) version schema request options,
         offchain_as_specified h ->
         signatureType options = Some Offchain ->
         result_of
           (run h (expectAttestation OffchainSigner.getOffchainUID version
                     schema request options) w)
         <> Err (AssertionError "response.uid")).
Proof.
  split.
  - intros domain params signer r. split; reflexivity.
  - intros. now apply offchain_uid_expectation_holds.
Qed.


Hypothesis recover_sign :
  forall key digest,
    recoverAddress digest (signDigest key digest) = computeAddress key.

(** C6.  [verifyOffchainAttestationSignature] answers false whenever the UID
    a response carries differs from the UID of the message it carries.  In
    particular, replacing the UID of a response signed by a wallet leaves the
    raw signature recovering to that wallet's address, and yet verification
    against that address, which succeeds on the response as signed, fails on
    the altered one. *)
Theorem mutated_uid_fails_verification :
  (forall claimedAddress r,
      so_uid r <> OffchainSigner.uid_of (so_message r) ->
      OffchainSigner.verifyOffchainAttestationSignature claimedAddress r
      = false)
  /\ (forall domain params signer u',
         address signer = computeAddress (privateKey signer) ->
         let r := OffchainSigner.signOffchainAttestation domain params signer in
         u' <> so_uid r ->
         OffchainSigner.verifyOffchainAttestationSignature (address signer) r
         = true
         /\ OffchainSigner.recovered_signer (OffchainSigner.with_uid u' r)
            = address signer
         /\ OffchainSigner.verifyOffchainAttestationSignature (address signer)
              (OffchainSigner.with_uid u' r)
            = false).
Proof.
  assert (Hmismatch : forall claimedAddress r,
             so_uid r <> OffchainSigner.uid_of (so_message r) ->
             OffchainSigner.verifyOffchainAttestationSignature claimedAddress r
             = false).
  { intros claimedAddress r Hneq.
    unfold OffchainSigner.verifyOffchainAttestationSignature.
    apply String.eqb_neq in Hneq. now rewrite Hneq. }
  split; [exact Hmismatch |].
  intros domain params signer u' Haddress r Hneq.
  assert (Hrecovered : OffchainSigner.recovered_signer r = address signer).
  { unfold OffchainSigner.recovered_signer, r. simpl.
    now rewrite recover_sign, Haddress. }
  split; [| split].
  - unfold OffchainSigner.verifyOffchainAttestationSignature.
    rewrite Hrecovered, String.eqb_refl.
    unfold r. simpl. now rewrite String.eqb_refl.
  - exact Hrecovered.
  - apply Hmismatch. exact Hneq.
Qed.

End OffchainProperties.

(** ** The scenario's offchain signer *)

Lemma scenario_offchain_as_specified :
  @offchain_as_specified Scenario.crypto _ Scenario.collaborators.
Proof. split; intros; reflexivity. Defined.

Lemma scenario_recover_sign (key digest : string) :
  @recoverAddress Scenario.crypto digest
    (@signDigest Scenario.crypto key digest)
  = @computeAddress Scenario.crypto key.
Proof. simpl. now rewrite String.eqb_refl. Defined.

Lemma offchain_uid_matches_signed_fields_witness :
  @offchain_as_specified Scenario.crypto _ Scenario.collaborators
  /\ result_of
       (run Scenario.collaborators
          (expectAttestation (@OffchainSigner.getOffchainUID Scenario.crypto)
             1 "0xAA" (Scenario.bare "0x1111")
             (Scenario.attestation_options (Some Offchain) None None))
          Scenario.with_proxy)
     <> Err (AssertionError "response.uid").
Proof.
  split; [exact scenario_offchain_as_specified |].
  exact (proj2 (@offchain_uid_matches_signed_fields Scenario.crypto)
           _ Scenario.collaborators Scenario.with_proxy 1 "0xAA"
           (Scenario.bare "0x1111")
           (Scenario.attestation_options (Some Offchain) None None)
           scenario_offchain_as_specified eq_refl).
Defined.


Lemma mutated_uid_fails_verification_witness :
  @OffchainSigner.verifyOffchainAttestationSignature Scenario.crypto "addr:k1"
    Scenario.response = true
  /\ @OffchainSigner.recovered_signer Scenario.crypto
       (OffchainSigner.with_uid "0xbad" Scenario.response) = "addr:k1"
  /\ @OffchainSigner.verifyOffchainAttestationSignature Scenario.crypto
       "addr:k1" (OffchainSigner.with_uid "0xbad" Scenario.response) = false
  /\ @OffchainSigner.verifyOffchainAttestationSignature Scenario.crypto
       "addr:k2" (OffchainSigner.with_uid "0xbad" Scenario.response) = false.
Proof.
  destruct (@mutated_uid_fails_verification Scenario.crypto
              scenario_recover_sign) as [Hmismatch Hmutated].
  destruct (Hmutated Scenario.eas_domain Scenario.fields Scenario.k1 "0xbad"
              eq_refl) as (Hsigned & Hrecovered & Haltered).
  { vm_compute. discriminate. }
  split; [| split; [| split]].
  - exact Hsigned.
  - exact Hrecovered.
  - exact Haltered.
  - apply Hmismatch. vm_compute. discriminate.
Defined.

(** ** The direct batch paths *)

(** The direct cases of the two batch helpers call [multiAttest] and
    [multiRevoke] with the requests alone: whatever the fee members are, the
    submission carries no overrides. *)
Theorem direct_batches_submit_without_overrides (W : Type) (h : handler W)
    (w : W) :
  (forall requests options,
      or_default Direct (signatureType options) = Direct ->
      Forall (eq None)
        (submissions
           (trace_of (run h (expectMultiAttestations requests options) w))))
  /\ (forall requests options,
         or_default Direct (r_signatureType options) = Direct ->
         Forall (eq None)
           (submissions
              (trace_of (run h (expectMultiRevocations requests options) w)))).
Proof.
  split; intros requests options Hst.
  - assert (H : all_seen submission (eq None)
                  (expectMultiAttestations requests options)).
    { unfold expectMultiAttestations, multi_attestation_switch.
      rewrite Hst. all_seen_by reflexivity. }
    apply H.
  - assert (H : all_seen submission (eq None)
                  (expectMultiRevocations requests options)).
    { unfold expectMultiRevocations, multi_revocation_switch.
      rewrite Hst. all_seen_by reflexivity. }
    apply H.
Qed.

Lemma direct_batches_submit_without_overrides_witness :
  Forall (eq None)
    (submissions
       (trace_of
          (run Scenario.collaborators
             (expectMultiAttestations Scenario.batch
                (Scenario.attestation_options None
                   (Some (FeeBigint 3)) (Some (FeeBigint 5))))
             Scenario.with_proxy)))
  /\ Forall (eq None)
       (submissions
          (trace_of
             (run Scenario.collaborators
                (expectMultiRevocations Scenario.revocation_batch
                   (Scenario.revocation_options (Some Direct)
                      (Some (FeeBigint 3)) (Some (FeeBigint 5))))
                Scenario.with_proxy))).
Proof.
  destruct (direct_batches_submit_without_overrides _ Scenario.collaborators
              Scenario.with_proxy) as [Hattestations Hrevocations].
  split.
  - exact (Hattestations Scenario.batch
             (Scenario.attestation_options None
                (Some (FeeBigint 3)) (Some (FeeBigint 5))) eq_refl).
  - exact (Hrevocations Scenario.revocation_batch
             (Scenario.revocation_options (Some Direct)
                (Some (FeeBigint 3)) (Some (FeeBigint 5))) eq_refl).
Defined.

(** ** What each signature style leaves alone *)

(** Opens a helper down to the [switch] on the signature style. *)
Ltac open_helper :=
  first
    [ progress unfold expectAttestation, attestation_switch
    | progress unfold expectMultiAttestations, multi_attestation_switch
    | progress unfold expectRevocation, revocation_switch
    | progress unfold expectMultiRevocations, multi_revocation_switch ].

(** A helper is silent on one path of its [switch]. *)
Ltac silent_on Hst := open_helper; rewrite Hst; silence.

(** A helper is silent on every path but those ruled out. *)
Ltac silent_but Hst :=
  open_helper;
  match goal with
  | |- context [or_default Direct ?st] =>
      destruct (or_default Direct st); try (now elim Hst); silence
  end.

(** On the direct path no helper asks for a signature or checks one. *)
Theorem direct_flows_never_sign (W : Type) (h : handler W) (w : W) :
  (forall getOffchainUID version schema request options,
      or_default Direct (signatureType options) = Direct ->
      let tr := trace_of (run h (expectAttestation getOffchainUID version
                                   schema request options) w) in
      signings tr = [] /\ verifications tr = [])
  /\ (forall requests options,
         or_default Direct (signatureType options) = Direct ->
         let tr := trace_of (run h (expectMultiAttestations requests options)
                               w) in
         signings tr = [] /\ verifications tr = [])
  /\ (forall schema request options,
         or_default Direct (r_signatureType options) = Direct ->
         let tr := trace_of (run h (expectRevocation schema request options)
                               w) in
         signings tr = [] /\ verifications tr = [])
  /\ (forall requests options,
         or_default Direct (r_signatureType options) = Direct ->
         let tr := trace_of (run h (expectMultiRevocations requests options)
                               w) in
         signings tr = [] /\ verifications tr = []).
Proof.
  split; [| split; [| split]].
  - intros getOffchainUID version schema request options Hst tr.
    assert (H1 : silent signing
                   (expectAttestation getOffchainUID version schema request
                      options)) by silent_on Hst.
    assert (H2 : silent verification
                   (expectAttestation getOffchainUID version schema request
                      options)) by silent_on Hst.
    split; [apply H1 | apply H2].
  - intros requests options Hst tr.
    assert (H1 : silent signing (expectMultiAttestations requests options))
      by silent_on Hst.
    assert (H2 : silent verification
                   (expectMultiAttestations requests options))
      by silent_on Hst.
    split; [apply H1 | apply H2].
  - intros schema request options Hst tr.
    assert (H1 : silent signing (expectRevocation schema request options))
      by silent_on Hst.
    assert (H2 : silent verification
                   (expectRevocation schema request options))
      by silent_on Hst.
    split; [apply H1 | apply H2].
  - intros requests options Hst tr.
    assert (H1 : silent signing (expectMultiRevocations requests options))
      by silent_on Hst.
    assert (H2 : silent verification
                   (expectMultiRevocations requests options))
      by silent_on Hst.
    split; [apply H1 | apply H2].
Qed.

Lemma direct_flows_never_sign_witness :
  signings
    (trace_of
       (run Scenario.collaborators
          (expectMultiAttestations Scenario.batch
             (Scenario.attestation_options None None None))
          Scenario.with_proxy)) = []
  /\ verifications
       (trace_of
          (run Scenario.collaborators
             (expectRevocation "0xAA" (Scenario.revocation "u1")
                (Scenario.revocation_options (Some Direct) None None))
             Scenario.with_proxy)) = [].
Proof.
  destruct (direct_flows_never_sign _ Scenario.collaborators
              Scenario.with_proxy) as (_ & Hattestations & Hrevocation & _).
  split.
  - exact (proj1 (Hattestations Scenario.batch
                    (Scenario.attestation_options None None None) eq_refl)).
  - exact (proj2 (Hrevocation "0xAA" (Scenario.revocation "u1")
                    (Scenario.revocation_options (Some Direct) None None)
                    eq_refl)).
Defined.

(** The ledger is asked for a nonce on the delegated path only. *)
Theorem nonce_only_for_delegated (W : Type) (h : handler W) (w : W) :
  (forall getOffchainUID version schema request options,
      or_default Direct (signatureType options) <> Delegated ->
      nonce_queries
        (trace_of (run h (expectAttestation getOffchainUID version schema
                            request options) w)) = [])
  /\ (forall requests options,
         or_default Direct (signatureType options) <> Delegated ->
         nonce_queries
           (trace_of (run h (expectMultiAttestations requests options) w))
         = [])
  /\ (forall schema request options,
         or_default Direct (r_signatureType options) <> Delegated ->
         nonce_queries
           (trace_of (run h (expectRevocation schema request options) w)) = [])
  /\ (forall requests options,
         or_default Direct (r_signatureType options) <> Delegated ->
         nonce_queries
           (trace_of (run h (expectMultiRevocations requests options) w))
         = []).
Proof.
  split; [| split; [| split]].
  - intros getOffchainUID version schema request options Hst.
    assert (H : silent nonce_query
                  (expectAttestation getOffchainUID version schema request
                     options)) by silent_but Hst.
    apply H.
  - intros requests options Hst.
    assert (H : silent nonce_query (expectMultiAttestations requests options))
      by silent_but Hst.
    apply H.
  - intros schema request options Hst.
    assert (H : silent nonce_query (expectRevocation schema request options))
      by silent_but Hst.
    apply H.
  - intros requests options Hst.
    assert (H : silent nonce_query (expectMultiRevocations requests options))
      by silent_but Hst.
    apply H.
Qed.

Lemma nonce_only_for_delegated_witness :
  nonce_queries
    (trace_of
       (run Scenario.collaborators
          (expectMultiAttestations Scenario.batch
             (Scenario.attestation_options (Some DelegatedProxy) None None))
          Scenario.with_proxy)) = []
  /\ nonce_queries
       (trace_of
          (run Scenario.collaborators
             (expectRevocation "0xAA" (Scenario.revocation "u1")
                (Scenario.revocation_options None None None))
             Scenario.with_proxy)) = [].
Proof.
  destruct (nonce_only_for_delegated _ Scenario.collaborators
              Scenario.with_proxy) as (_ & Hattestations & Hrevocation & _).
  split.
  - apply (Hattestations Scenario.batch
             (Scenario.attestation_options (Some DelegatedProxy) None None)).
    simpl. discriminate.
  - apply (Hrevocation "0xAA" (Scenario.revocation "u1")
             (Scenario.revocation_options None None None)).
    simpl. discriminate.
Defined.

(** ** Completed runs *)

Section Yields.
Context {B : Type} (f : entry -> list B).

Lemma yields_Ret {A : Type} (a : A) (Q : A -> list B -> Prop) :
  Q a [] -> yields f (Ret a) Q.
Proof. intros Ha W h w a' Hok. injection Hok as <-. exact Ha. Qed.

Lemma yields_Throw {A : Type} (e : error) (Q : A -> list B -> Prop) :
  yields f (@Throw A e) Q.
Proof. intros W h w a Hok. discriminate Hok. Qed.

Lemma yields_bind {A C : Type} (p : prog A) (k : A -> prog C)
    (R : A -> list B -> Prop) (Q : C -> list B -> Prop) :
  yields f p R ->
  (forall a l1, R a l1 -> yields f (k a) (fun c l2 => Q c (l1 ++ l2)%list)) ->
  yields f (bind p k) Q.
Proof.
  intros Hp Hk W h w c. rewrite seen_bind, run_bind.
  specialize (Hp W h w). unfold seen, result_of, trace_of in Hp.
  destruct (run h p w) as [[[a | e] tr] w'] eqn:Ep; simpl in Hp.
  - specialize (Hk a _ (Hp a eq_refl) W h w' c).
    unfold seen, result_of, trace_of in Hk |- *.
    destruct (run h (k a) w') as [[res tr'] w'']. simpl in Hk |- *.
    exact Hk.
  - intros Hok. discriminate Hok.
Qed.

Lemma yields_await {R : Type} (ev : event R) (Q : R -> list B -> Prop) :
  (forall r, Q r (f (Called ev (Resolved r)))) -> yields f (await ev) Q.
Proof.
  intros Hev W h w r. rewrite run_await.
  destruct (h R ev w) as [[r' | e] w']; unfold seen, result_of, trace_of;
    simpl; intros Hok; [| discriminate Hok].
  injection Hok as <-. rewrite app_nil_r. apply Hev.
Qed.

(** One call, then the rest: what the call shows comes first. *)
Lemma yields_call {R C : Type} (ev : event R) (k : R -> prog C)
    (Q : C -> list B -> Prop) :
  (forall r,
      yields f (k r) (fun c l => Q c (f (Called ev (Resolved r)) ++ l)%list)) ->
  yields f (bind (await ev) k) Q.
Proof.
  intros Hk.
  apply yields_bind with (R := fun r l => l = f (Called ev (Resolved r))).
  - apply yields_await. reflexivity.
  - intros r l1 ->. apply Hk.
Qed.

(** An expectation that held, then the rest. *)
Lemma yields_expect {C : Type} (what : string) (b : bool) (k : unit -> prog C)
    (Q : C -> list B -> Prop) :
  (b = true -> yields f (k tt) Q) -> yields f (bind (expect_true what b) k) Q.
Proof.
  intros Hk. destruct b; [exact (Hk eq_refl) | apply yields_Throw].
Qed.

Lemma yields_after_silent {A C : Type} (p : prog A) (k : A -> prog C)
    (Q : C -> list B -> Prop) :
  silent f p -> (forall a, yields f (k a) Q) -> yields f (bind p k) Q.
Proof.
  intros Hp Hk. apply yields_bind with (R := fun _ l => l = []).
  - intros W h w a _. apply Hp.
  - intros a l1 ->. apply Hk.
Qed.

Lemma yields_weaken {A : Type} (p : prog A) (Q Q' : A -> list B -> Prop) :
  (forall a l, Q a l -> Q' a l) -> yields f p Q -> yields f p Q'.
Proof. intros HQ Hp W h w a Hok. apply HQ. now apply Hp. Qed.

(** A loop, by an invariant over the elements done, the state and what has
    been shown so far. *)
Lemma yields_for_of {S X : Type} (body : S -> X -> prog S)
    (I : list X -> S -> list B -> Prop) (xs : list X) :
  (forall done x s l,
      I done s l ->
      yields f (body s x) (fun s' l' => I (done ++ [x]) s' (l ++ l'))%list) ->
  forall done s l,
    I done s l ->
    yields f (for_of xs body s) (fun s' l' => I (done ++ xs) s' (l ++ l'))%list.
Proof.
  intros Hbody. induction xs as [| x xs IH]; intros done s l HI.
  - apply yields_Ret. now rewrite !app_nil_r.
  - rewrite for_of_cons.
    eapply yields_bind; [apply (Hbody done x s l HI) |].
    intros s' l1 HI'. cbv beta in HI'.
    eapply yields_weaken; [| apply (IH _ _ _ HI')].
    intros s'' l2 HI''. cbv beta in HI''.
    now rewrite <- !app_assoc in HI''.
Qed.

End Yields.

(** ** Runs that got as far as some call *)

Section Gated.
Context {C B : Type} (g : entry -> list C) (f : entry -> list B).

(** [p] does not reach the calls of [g]; the rest may. *)
Lemma gated_bind {A D : Type} (p : prog A) (k : A -> prog D)
    (R : A -> list B -> Prop) (Q : list B -> Prop) :
  silent g p -> yields f p R ->
  (forall a l1, R a l1 -> gated g f (k a) (fun l2 => Q (l1 ++ l2)%list)) ->
  gated g f (bind p k) Q.
Proof.
  intros Hg Hp Hk W h w. rewrite !seen_bind.
  specialize (Hg W h w). specialize (Hp W h w).
  unfold seen, result_of, trace_of in Hg, Hp.
  destruct (run h p w) as [[[a | e] tr] w']; simpl in Hg, Hp.
  - rewrite Hg. simpl. apply Hk. now apply Hp.
  - intros Hseen. now elim Hseen.
Qed.

Lemma gated_call {R D : Type} (ev : event R) (k : R -> prog D)
    (Q : list B -> Prop) :
  (forall o, g (Called ev o) = []) ->
  (forall r,
      gated g f (k r) (fun l => Q (f (Called ev (Resolved r)) ++ l)%list)) ->
  gated g f (bind (await ev) k) Q.
Proof.
  intros Hev Hk.
  apply gated_bind with (R := fun r l => l = f (Called ev (Resolved r))).
  - now apply silent_await.
  - apply yields_await. reflexivity.
  - intros r l1 ->. apply Hk.
Qed.

Lemma gated_expect {D : Type} (what : string) (b : bool) (k : unit -> prog D)
    (Q : list B -> Prop) :
  (b = true -> gated g f (k tt) Q) -> gated g f (bind (expect_true what b) k) Q.
Proof.
  intros Hk. destruct b; [exact (Hk eq_refl) |].
  intros W h w Hseen. now elim Hseen.
Qed.

(** The calls of [g] are made by [p]; what follows shows nothing more. *)
Lemma gated_then_silent {A D : Type} (p : prog A) (k : A -> prog D)
    (Q : list B -> Prop) :
  gated g f p Q -> (forall a, silent g (k a)) -> (forall a, silent f (k a)) ->
  gated g f (bind p k) Q.
Proof.
  intros Hp Hg Hf W h w. rewrite !seen_bind.
  specialize (Hp W h w). unfold seen, trace_of in Hp.
  destruct (run h p w) as [[[a | e] tr] w']; simpl in Hp.
  - rewrite (Hg a W h w'), (Hf a W h w'), !app_nil_r. exact Hp.
  - exact Hp.
Qed.

(** From here on nothing of [f] is shown. *)
Lemma gated_silent {A : Type} (p : prog A) (Q : list B -> Prop) :
  silent f p -> Q [] -> gated g f p Q.
Proof. intros Hp HQ W h w _. now rewrite (Hp W h w). Qed.

(** The call made here is the last that [f] sees. *)
Lemma gated_at {R D : Type} (ev : event R) (k : R -> prog D)
    (Q : list B -> Prop) :
  (forall r, silent f (k r)) -> (forall o, Q (f (Called ev o))) ->
  gated g f (bind (await ev) k) Q.
Proof.
  intros Hk HQ W h w _. rewrite seen_bind, run_await.
  destruct (h R ev w) as [[r | e] w']; simpl.
  - rewrite (Hk r W h w'), !app_nil_r. apply HQ.
  - rewrite app_nil_r. apply HQ.
Qed.

Lemma gated_Throw {A : Type} (e : error) (Q : list B -> Prop) :
  gated g f (@Throw A e) Q.
Proof. intros W h w Hseen. now elim Hseen. Qed.

Lemma gated_weaken {A : Type} (p : prog A) (Q Q' : list B -> Prop) :
  (forall l, Q l -> Q' l) -> gated g f p Q -> gated g f p Q'.
Proof. intros HQ Hp W h w Hseen. apply HQ. now apply Hp. Qed.

End Gated.

Section LoopsAndChecks.
Context {B : Type} (f : entry -> list B).

(** A loop whose every turn, when it completes, has shown what its element
    calls for. *)
Lemma yields_for_of_each {S X : Type} (body : S -> X -> prog S)
    (c : X -> list B) (xs : list X) :
  (forall s x, yields f (body s x) (fun _ l => l = c x)) ->
  forall s, yields f (for_of xs body s) (fun _ l => l = flat_map c xs).
Proof.
  intros Hbody s.
  pose proof (yields_for_of f body
                (fun done _ l => l = flat_map c done) xs) as Hloop.
  eapply yields_weaken; [| apply (Hloop) with (done := []) (l := [])].
  - intros s' l Hl. exact Hl.
  - intros done x s0 l ->. eapply yields_weaken; [| apply Hbody].
    intros s' l' ->. rewrite flat_map_app. simpl. now rewrite app_nil_r.
  - reflexivity.
Qed.

Lemma yields_expect_last (what : string) (b : bool)
    (Q : unit -> list B -> Prop) :
  (b = true -> Q tt []) -> yields f (expect_true what b) Q.
Proof.
  intros HQ. destruct b; [apply yields_Ret; now apply HQ | apply yields_Throw].
Qed.

Lemma yields_silent {A : Type} (p : prog A) (Q : A -> list B -> Prop) :
  silent f p -> (forall a, Q a []) -> yields f p Q.
Proof. intros Hp HQ W h w a _. rewrite (Hp W h w). apply HQ. Qed.

Context (P : B -> Prop).

Lemma returning_Ret {A : Type} (a : A) (R : A -> Prop) :
  R a -> all_seen_returning f P (Ret a) R.
Proof.
  intros Ha W h w. split; [constructor |].
  intros a' Hok. injection Hok as <-. exact Ha.
Qed.

Lemma returning_Throw {A : Type} (e : error) (R : A -> Prop) :
  all_seen_returning f P (@Throw A e) R.
Proof. intros W h w. split; [constructor | intros a Hok; discriminate Hok]. Qed.

Lemma returning_bind {A C : Type} (p : prog A) (k : A -> prog C)
    (R : A -> Prop) (R' : C -> Prop) :
  all_seen_returning f P p R ->
  (forall a, R a -> all_seen_returning f P (k a) R') ->
  all_seen_returning f P (bind p k) R'.
Proof.
  intros Hp Hk W h w. rewrite seen_bind, run_bind.
  specialize (Hp W h w). unfold seen, result_of, trace_of in Hp.
  destruct (run h p w) as [[[a | e] tr] w']; simpl in Hp;
    destruct Hp as [Hseen Hret].
  - specialize (Hk a (Hret a eq_refl) W h w').
    unfold seen, result_of, trace_of in Hk |- *.
    destruct (run h (k a) w') as [[res tr'] w'']. simpl in Hk |- *.
    destruct Hk as [Hseen' Hret']. split; [| exact Hret'].
    apply Forall_app. now split.
  - split; [exact Hseen |]. intros c Hok. discriminate Hok.
Qed.

Lemma returning_all_seen {A : Type} (p : prog A) :
  all_seen f P p -> all_seen_returning f P p (fun _ => True).
Proof. intros Hp W h w. split; [apply Hp | trivial]. Qed.

Lemma all_seen_returning_seen {A : Type} (p : prog A) (R : A -> Prop) :
  all_seen_returning f P p R -> all_seen f P p.
Proof. intros Hp W h w. apply Hp. Qed.

Lemma returning_weaken {A : Type} (p : prog A) (R R' : A -> Prop) :
  (forall a, R a -> R' a) ->
  all_seen_returning f P p R -> all_seen_returning f P p R'.
Proof.
  intros HR Hp W h w. destruct (Hp W h w) as [Hseen Hret].
  split; [exact Hseen |]. intros a Hok. apply HR. now apply Hret.
Qed.

(** A loop that keeps an invariant of its state. *)
Lemma returning_for_of {S X : Type} (body : S -> X -> prog S) (I : S -> Prop)
    (xs : list X) :
  (forall s x, I s -> all_seen_returning f P (body s x) I) ->
  forall s, I s -> all_seen_returning f P (for_of xs body s) I.
Proof.
  intros Hbody. induction xs as [| x xs IH]; intros s Hs.
  - now apply returning_Ret.
  - rewrite for_of_cons.
    eapply returning_bind; [now apply Hbody | exact IH].
Qed.

End LoopsAndChecks.

Lemma flat_map_singleton {X Y : Type} (c : X -> Y) (xs : list X) :
  flat_map (fun x => [c x]) xs = map c xs.
Proof. induction xs as [| x xs IH]; simpl; [| rewrite IH]; reflexivity. Qed.

Lemma flat_map_flat_map {X Y Z' : Type} (c : Y -> list Z') (d : X -> list Y)
    (xs : list X) :
  flat_map (fun x => flat_map c (d x)) xs = flat_map c (flat_map d xs).
Proof.
  induction xs as [| x xs IH]; simpl; [reflexivity |].
  now rewrite IH, flat_map_app.
Qed.

Lemma gated_unreached {C B A : Type} (g : entry -> list C)
    (f : entry -> list B) (p : prog A) (Q : list B -> Prop) :
  silent g p -> gated g f p Q.
Proof. intros Hp W h w Hseen. now elim Hseen; apply Hp. Qed.

(** Walks a completed run call by call: an expectation on the way held, a
    stretch that shows nothing is skipped, a call that shows something is
    recorded. *)
Ltac yields_walk :=
  repeat first
    [ apply yields_Throw
    | apply yields_expect; intros ?
    | apply yields_after_silent; [solve [silence] | intros ?]
    | apply yields_call; intros ?
    | match goal with
      | |- yields _ (match ?x with _ => _ end) _ => destruct x
      | |- yields _ ?p _ => let g := head_of p in progress unfold g
      end ].

(** Walks a run up to the first call the gate sees. *)
Ltac gated_walk :=
  repeat first
    [ apply gated_Throw
    | apply gated_expect; intros ?
    | apply gated_call; [intros ?; reflexivity | intros ?]
    | match goal with
      | |- gated _ _ (match ?x with _ => _ end) _ => destruct x
      end ].

(** ** No submission before verification *)

Lemma sign_delegated_attestation_item_verified txSender schema s request :
  yields verification_answer
    (sign_delegated_attestation_item txSender schema s request)
    (fun _ l => l = [true]).
Proof. yields_walk. apply yields_Ret. cbn. now subst. Qed.

Lemma sign_proxy_attestation_item_verified delegated txSender schema deadline
    responses request :
  yields verification_answer
    (sign_proxy_attestation_item delegated txSender schema deadline responses
       request)
    (fun _ l => l = [true]).
Proof. yields_walk. apply yields_Ret. cbn. now subst. Qed.

Lemma sign_delegated_revocation_item_verified txSender schema s request :
  yields verification_answer
    (sign_delegated_revocation_item txSender schema s request)
    (fun _ l => l = [true]).
Proof. yields_walk. apply yields_Ret. cbn. now subst. Qed.

Lemma sign_proxy_revocation_item_verified delegated txSender schema deadline
    responses request :
  yields verification_answer
    (sign_proxy_revocation_item delegated txSender schema deadline responses
       request)
    (fun _ l => l = [true]).
Proof. yields_walk. apply yields_Ret. cbn. now subst. Qed.

(** A group of a batch: one verified signature per item. *)
Ltac group_verified item_verified :=
  yields_walk;
  eapply yields_bind;
    [ apply yields_for_of_each with (c := fun _ => [true]);
      intros ? ?; apply item_verified
    | intros ? ? ->; yields_walk; apply yields_Ret; now rewrite app_nil_r ].

Lemma sign_delegated_attestation_group_verified txSender s r :
  yields verification_answer (sign_delegated_attestation_group txSender s r)
    (fun _ l => l = flat_map (fun _ => [true]) (mar_data r)).
Proof. group_verified sign_delegated_attestation_item_verified. Qed.

Lemma sign_proxy_attestation_group_verified delegated txSender deadline acc r :
  yields verification_answer
    (sign_proxy_attestation_group delegated txSender deadline acc r)
    (fun _ l => l = flat_map (fun _ => [true]) (mar_data r)).
Proof. group_verified sign_proxy_attestation_item_verified. Qed.

Lemma sign_delegated_revocation_group_verified txSender s r :
  yields verification_answer (sign_delegated_revocation_group txSender s r)
    (fun _ l => l = flat_map (fun _ => [true]) (mrr_data r)).
Proof. group_verified sign_delegated_revocation_item_verified. Qed.

Lemma sign_proxy_revocation_group_verified delegated txSender deadline acc r :
  yields verification_answer
    (sign_proxy_revocation_group delegated txSender deadline acc r)
    (fun _ l => l = flat_map (fun _ => [true]) (mrr_data r)).
Proof. group_verified sign_proxy_revocation_item_verified. Qed.

Lemma one_true_per_item {X Y : Type} (d : X -> list Y) (xs : list X) :
  flat_map (fun x => flat_map (fun _ => [true]) (d x)) xs
  = map (fun _ => true) (flat_map d xs).
Proof. now rewrite flat_map_flat_map, flat_map_singleton. Qed.

(** The signing loops of a batch, then its submission. *)
Ltac batch_gate group_verified :=
  gated_walk;
  eapply gated_bind;
    [ solve [silence]
    | apply yields_for_of_each; intros ? ?; apply group_verified
    | intros ? ? ->; apply gated_silent;
      [ match goal with
        | |- silent _ (match ?x with _ => _ end) => destruct x
        | _ => idtac
        end; silence
      | rewrite app_nil_r; apply one_true_per_item ] ].

Lemma expectAttestation_gate getOffchainUID version schema request options :
  or_default Direct (signatureType options) <> Direct ->
  gated submission verification_answer
    (expectAttestation getOffchainUID version schema request options)
    (fun l => l = [true]).
Proof.
  intros Hst. unfold expectAttestation.
  apply gated_then_silent; [| intros c; silence | intros c; silence].
  unfold attestation_switch.
  destruct (or_default Direct (signatureType options)); [now elim Hst | | |].
  - gated_walk. apply gated_silent; [silence | cbn; now subst].
  - gated_walk. apply gated_silent; [silence | cbn; now subst].
  - apply gated_unreached. silence.
Qed.

Lemma expectRevocation_gate schema request options :
  or_default Direct (r_signatureType options) <> Direct ->
  gated submission verification_answer
    (expectRevocation schema request options)
    (fun l => l = [true]).
Proof.
  intros Hst. unfold expectRevocation.
  apply gated_then_silent; [| intros c; silence | intros c; silence].
  unfold revocation_switch.
  destruct (or_default Direct (r_signatureType options)); [now elim Hst | | |].
  - gated_walk. apply gated_silent; [silence | cbn; now subst].
  - gated_walk. apply gated_silent; [silence | cbn; now subst].
  - apply gated_unreached. silence.
Qed.

Lemma expectMultiAttestations_gate requests options :
  or_default Direct (signatureType options) <> Direct ->
  gated submission verification_answer
    (expectMultiAttestations requests options)
    (fun l => l = map (fun _ => true) (all_items requests)).
Proof.
  intros Hst. unfold expectMultiAttestations.
  apply gated_then_silent; [| intros c; silence | intros c; silence].
  unfold multi_attestation_switch.
  destruct (or_default Direct (signatureType options)); [now elim Hst | | |].
  - batch_gate sign_delegated_attestation_group_verified.
  - batch_gate sign_proxy_attestation_group_verified.
  - apply gated_Throw.
Qed.

Lemma expectMultiRevocations_gate requests options :
  or_default Direct (r_signatureType options) <> Direct ->
  gated submission verification_answer
    (expectMultiRevocations requests options)
    (fun l => l = map (fun _ => true) (all_revocations requests)).
Proof.
  intros Hst. unfold expectMultiRevocations.
  apply gated_then_silent; [| intros c; silence | intros c; silence].
  unfold multi_revocation_switch.
  destruct (or_default Direct (r_signatureType options)); [now elim Hst | | |].
  - batch_gate sign_delegated_revocation_group_verified.
  - batch_gate sign_proxy_revocation_group_verified.
  - apply gated_unreached. silence.
Qed.

(** Off the direct path, a helper that has submitted has had every signature
    verified first: by then the signature checks of the run are one per
    item (one for a single request), and each answered true.  So a signature
    that fails its check, or a check that rejects, is never followed by a
    submission. *)
Theorem no_submission_before_verification (W : Type) (h : handler W) (w : W) :
  (forall getOffchainUID version schema request options,
      or_default Direct (signatureType options) <> Direct ->
      let tr := trace_of (run h (expectAttestation getOffchainUID version
                                   schema request options) w) in
      submissions tr <> [] -> verification_answers tr = [true])
  /\ (forall requests options,
         or_default Direct (signatureType options) <> Direct ->
         let tr := trace_of (run h (expectMultiAttestations requests options)
                               w) in
         submissions tr <> [] ->
         verification_answers tr = map (fun _ => true) (all_items requests))
  /\ (forall schema request options,
         or_default Direct (r_signatureType options) <> Direct ->
         let tr := trace_of (run h (expectRevocation schema request options)
                               w) in
         submissions tr <> [] -> verification_answers tr = [true])
  /\ (forall requests options,
         or_default Direct (r_signatureType options) <> Direct ->
         let tr := trace_of (run h (expectMultiRevocations requests options)
                               w) in
         submissions tr <> [] ->
         verification_answers tr
         = map (fun _ => true) (all_revocations requests)).
Proof.
  split; [| split; [| split]].
  - intros getOffchainUID version schema request options Hst tr.
    apply (expectAttestation_gate getOffchainUID version schema request
             options Hst W h w).
  - intros requests options Hst tr.
    apply (expectMultiAttestations_gate requests options Hst W h w).
  - intros schema request options Hst tr.
    apply (expectRevocation_gate schema request options Hst W h w).
  - intros requests options Hst tr.
    apply (expectMultiRevocations_gate requests options Hst W h w).
Qed.

Lemma no_submission_before_verification_witness :
  let delegated := Scenario.attestation_options (Some Delegated) None None in
  let proxy := Scenario.revocation_options (Some DelegatedProxy) None None in
  verification_answers
    (trace_of
       (run Scenario.collaborators
          (expectMultiAttestations Scenario.batch delegated)
          Scenario.with_proxy))
  = [true; true; true]
  /\ verification_answers
       (trace_of
          (run Scenario.collaborators
             (expectRevocation "0xAA" (Scenario.revocation "u1") proxy)
             Scenario.with_proxy))
     = [true].
Proof.
  intros delegated proxy.
  destruct (no_submission_before_verification _ Scenario.collaborators
              Scenario.with_proxy) as (_ & Hattestations & Hrevocation & _).
  split.
  - apply (Hattestations Scenario.batch delegated).
    + simpl. discriminate.
    + vm_compute. discriminate.
  - apply (Hrevocation "0xAA" (Scenario.revocation "u1") proxy).
    + simpl. discriminate.
    + vm_compute. discriminate.
Defined.

(** A batch whose first signature does not verify stops there: one check,
    answered false, and no submission. *)
Example unverified_batch_is_not_submitted :
  let x := run Scenario.collaborators
             (expectMultiAttestations Scenario.batch
                (Scenario.impostor_options (Some Delegated)))
             Scenario.with_proxy in
  result_of x = Err (AssertionError "verifyDelegatedAttestationSignature")
  /\ verification_answers (trace_of x) = [false]
  /\ submissions (trace_of x) = [].
Proof. repeat split. Qed.

(** ** What a completed run has had confirmed by the ledger *)

Lemma yields_assoc {B A C D : Type} (f : entry -> list B) (p : prog A)
    (k1 : A -> prog C) (k2 : C -> prog D) (Q : D -> list B -> Prop) :
  yields f (bind p (fun a => bind (k1 a) k2)) Q ->
  yields f (bind (bind p k1) k2) Q.
Proof.
  intros Hp W h w d. unfold seen. rewrite bind_assoc. apply Hp.
Qed.

Lemma yields_Throw_bind {B A C : Type} (f : entry -> list B) (e : error)
    (k : A -> prog C) (Q : C -> list B -> Prop) :
  yields f (bind (Throw e) k) Q.
Proof. apply yields_Throw. Qed.

Lemma yields_Ret_bind {B A C : Type} (f : entry -> list B) (a : A)
    (k : A -> prog C) (Q : C -> list B -> Prop) :
  yields f (k a) Q -> yields f (bind (Ret a) k) Q.
Proof. intros Hk. exact Hk. Qed.

(** [yields_walk], through nested sequences, keeping what is returned;
    [hook] comes first at every step. *)
Ltac yields_through_with hook :=
  repeat first
    [ hook
    | apply yields_Throw
    | apply yields_Throw_bind
    | match goal with
      | |- yields _ (bind (Ret ?a) ?k) _ =>
          apply (yields_Ret_bind _ a k); cbv beta iota
      end
    | apply yields_assoc
    | apply yields_expect; intros ?
    | apply yields_expect_last; intros ?
    | apply yields_after_silent; [solve [silence] | intros ?]
    | apply yields_call; intros ?
    | match goal with
      | |- yields _ (expect_fees _ _ _) _ =>
          apply yields_silent; [apply silent_expect_fees | intros []]
      | |- yields _ (match ?x with _ => _ end) _ => destruct x
      | |- yields _ (bind (match ?x with _ => _ end) _) _ => destruct x
      | |- yields _ ?p _ =>
          let g := head_of p in
          lazymatch g with
          | @bind => fail
          | @for_of => fail
          | _ => progress unfold g
          end
      end ].

Ltac yields_through := yields_through_with ltac:(fail).

Lemma expect_valid_reports (u : string) :
  yields ledger_report (expect_valid tt u) (fun _ l => l = [Valid u true]).
Proof.
  unfold expect_valid. apply yields_call. intros valid.
  apply yields_expect_last. intros ->. reflexivity.
Qed.

Lemma expect_valid_and_revoked_reports (request : RevocationRequestData) :
  yields ledger_report (expect_valid_and_revoked tt request)
    (fun _ l => l = [Valid (rv_uid request) true;
                     Revoked (rv_uid request) true]).
Proof.
  unfold expect_valid_and_revoked.
  apply yields_call. intros valid. apply yields_expect. intros ->.
  apply yields_call. intros revoked. apply yields_expect_last. intros ->.
  reflexivity.
Qed.

Lemma expect_all_revoked_reports (requests : list MultiRevocationRequest) :
  yields ledger_report (expect_all_revoked requests)
    (fun _ l =>
       l = flat_map (fun d => [Valid (rv_uid d) true; Revoked (rv_uid d) true])
             (all_revocations requests)).
Proof.
  unfold expect_all_revoked, all_revocations.
  rewrite <- flat_map_flat_map. apply yields_for_of_each. intros [] r.
  apply yields_for_of_each. intros []. apply expect_valid_and_revoked_reports.
Qed.

Lemma expectAttestation_reports getOffchainUID version schema request options :
  or_default Direct (signatureType options) <> Offchain ->
  yields ledger_report
    (expectAttestation getOffchainUID version schema request options)
    (fun u l => l = [Mined [u]; Valid u true]).
Proof.
  intros Hst. unfold expectAttestation, attestation_switch.
  destruct (or_default Direct (signatureType options)); [| | | now elim Hst];
    yields_through; apply yields_Ret; cbn; now subst.
Qed.

Lemma expectRevocation_reports schema request options :
  yields ledger_report (expectRevocation schema request options)
    (fun _ l => l = [Revoked (rv_uid request) true]).
Proof.
  unfold expectRevocation, revocation_switch.
  destruct (or_default Direct (r_signatureType options));
    yields_through; cbn; now subst.
Qed.

Lemma expectMultiAttestations_reports requests options :
  yields ledger_report (expectMultiAttestations requests options)
    (fun _ l => exists us, l = Mined us :: map (fun u => Valid u true) us).
Proof.
  unfold expectMultiAttestations, multi_attestation_switch.
  destruct (or_default Direct (signatureType options)); yields_through;
    (eapply yields_bind;
     [ apply yields_for_of_each with (c := fun u => [Valid u true]);
       intros [] u; apply expect_valid_reports
     | intros ? ? ->; yields_through; cbn; rewrite app_nil_r,
         flat_map_singleton; eexists; reflexivity ]).
Qed.

Lemma expectMultiRevocations_reports requests options :
  yields ledger_report (expectMultiRevocations requests options)
    (fun _ l =>
       l = flat_map (fun d => [Valid (rv_uid d) true; Revoked (rv_uid d) true])
             (all_revocations requests)).
Proof.
  unfold expectMultiRevocations.
  apply yields_after_silent; [silence | intros tx].
  eapply yields_bind; [apply expect_all_revoked_reports |].
  intros ? ? ->. yields_through. now rewrite app_nil_r.
Qed.

(** A helper that completes has had the ledger confirm what it did.  A single
    attestation (offchain apart) returns the UID its transaction was mined
    with, after the ledger called that UID valid.  A batch of attestations
    had every UID of its transaction called valid, in order.  A revocation
    had the ledger call its UID revoked, and a batch of revocations every one
    of its UIDs valid and revoked, whatever the signature style. *)
Theorem completed_runs_are_confirmed (W : Type) (h : handler W) (w : W) :
  (forall getOffchainUID version schema request options u,
      let x := run h (expectAttestation getOffchainUID version schema request
                        options) w in
      or_default Direct (signatureType options) <> Offchain ->
      result_of x = Ok u ->
      ledger_reports (trace_of x) = [Mined [u]; Valid u true])
  /\ (forall requests options,
         let x := run h (expectMultiAttestations requests options) w in
         result_of x = Ok tt ->
         exists us,
           ledger_reports (trace_of x)
           = Mined us :: map (fun u => Valid u true) us)
  /\ (forall schema request options,
         let x := run h (expectRevocation schema request options) w in
         result_of x = Ok tt ->
         ledger_reports (trace_of x) = [Revoked (rv_uid request) true])
  /\ (forall requests options,
         let x := run h (expectMultiRevocations requests options) w in
         result_of x = Ok tt ->
         ledger_reports (trace_of x)
         = flat_map (fun d => [Valid (rv_uid d) true; Revoked (rv_uid d) true])
             (all_revocations requests)).
Proof.
  split; [| split; [| split]].
  - intros getOffchainUID version schema request options u x Hst Hok.
    exact (expectAttestation_reports getOffchainUID version schema request
             options Hst W h w u Hok).
  - intros requests options x Hok.
    exact (expectMultiAttestations_reports requests options W h w tt Hok).
  - intros schema request options x Hok.
    exact (expectRevocation_reports schema request options W h w tt Hok).
  - intros requests options x Hok.
    exact (expectMultiRevocations_reports requests options W h w tt Hok).
Qed.

Lemma completed_runs_are_confirmed_witness :
  ledger_reports
    (trace_of
       (run Scenario.collaborators
          (expectAttestation Scenario.no_uid 1 "0xAA" (Scenario.bare "0x1111")
             (Scenario.attestation_options (Some Delegated) None None))
          Scenario.with_proxy))
  = [Mined ["uid:attestByDelegation"]; Valid "uid:attestByDelegation" true]
  /\ ledger_reports
       (trace_of
          (run Scenario.collaborators
             (expectMultiRevocations Scenario.revocation_batch
                (Scenario.revocation_options (Some Offchain) None None))
             Scenario.with_proxy))
     = [Valid "u1" true; Revoked "u1" true; Valid "u2" true; Revoked "u2" true;
        Valid "u3" true; Revoked "u3" true].
Proof.
  destruct (completed_runs_are_confirmed _ Scenario.collaborators
              Scenario.with_proxy) as (Hattestation & _ & _ & Hrevocations).
  split.
  - apply (Hattestation Scenario.no_uid 1 "0xAA" (Scenario.bare "0x1111")
             (Scenario.attestation_options (Some Delegated) None None)
             "uid:attestByDelegation").
    + simpl. discriminate.
    + reflexivity.
  - exact (Hrevocations Scenario.revocation_batch
             (Scenario.revocation_options (Some Offchain) None None) eq_refl).
Defined.

(** ** What a completed run says of the fees *)

Lemma expect_fees_truthy (a b : Z) (t : Transaction) :
  a <> 0 -> b <> 0 ->
  expect_fees (Some (FeeBigint a)) (Some (FeeBigint b)) (Some t)
  = (expect_true "tx.tx.maxPriorityFeePerGas"
       (fee_equal (tx_maxPriorityFeePerGas t) (FeeBigint a)) ;;
     expect_true "tx.tx.maxFeePerGas"
       (fee_equal (tx_maxFeePerGas t) (FeeBigint b))).
Proof.
  intros Ha Hb. unfold expect_fees, fee_truthy.
  apply Z.eqb_neq in Ha, Hb. now rewrite Ha, Hb.
Qed.

Lemma fee_equal_bigint (x : option Z) (z : Z) :
  fee_equal x (FeeBigint z) = true -> x = Some z.
Proof.
  destruct x as [y |]; simpl; [| discriminate].
  intros Heq. apply Z.eqb_eq in Heq. now subst.
Qed.

(** Walks a completed run into the fee check. *)
Ltac yields_fees Ha Hb :=
  yields_through_with
    ltac:(idtac;
          match goal with
          | |- context [expect_fees (Some (FeeBigint ?a)) (Some (FeeBigint ?b))
                          (Some ?t)] =>
              rewrite (expect_fees_truthy a b t Ha Hb)
          end).

Ltac fees_shown :=
  match goal with
  | H1 : fee_equal _ _ = true, H2 : fee_equal _ _ = true |- _ =>
      apply fee_equal_bigint in H1; apply fee_equal_bigint in H2;
      cbn; eexists; repeat split; eassumption
  end.

Lemma expectAttestation_fees getOffchainUID version schema request options
    (a b : Z) :
  a <> 0 -> b <> 0 ->
  maxPriorityFeePerGas options = Some (FeeBigint a) ->
  maxFeePerGas options = Some (FeeBigint b) ->
  or_default Direct (signatureType options) = Delegated
  \/ or_default Direct (signatureType options) = DelegatedProxy ->
  yields submitted_transaction
    (expectAttestation getOffchainUID version schema request options)
    (fun _ l => shows_fees a b l).
Proof.
  intros Ha Hb Hmp Hmf Hst. unfold expectAttestation, attestation_switch.
  rewrite Hmp, Hmf.
  destruct Hst as [-> | ->]; yields_fees Ha Hb; apply yields_Ret; fees_shown.
Qed.

Lemma expectRevocation_fees schema request options (a b : Z) :
  a <> 0 -> b <> 0 ->
  r_maxPriorityFeePerGas options = Some (FeeBigint a) ->
  r_maxFeePerGas options = Some (FeeBigint b) ->
  or_default Direct (r_signatureType options) <> Offchain ->
  yields submitted_transaction (expectRevocation schema request options)
    (fun _ l => shows_fees a b l).
Proof.
  intros Ha Hb Hmp Hmf Hst. unfold expectRevocation, revocation_switch.
  rewrite Hmp, Hmf.
  destruct (or_default Direct (r_signatureType options));
    [| | | now elim Hst]; yields_fees Ha Hb; fees_shown.
Qed.

Lemma expectMultiAttestations_fees requests options (a b : Z) :
  a <> 0 -> b <> 0 ->
  maxPriorityFeePerGas options = Some (FeeBigint a) ->
  maxFeePerGas options = Some (FeeBigint b) ->
  or_default Direct (signatureType options) <> Direct ->
  yields submitted_transaction (expectMultiAttestations requests options)
    (fun _ l => shows_fees a b l).
Proof.
  intros Ha Hb Hmp Hmf Hst.
  unfold expectMultiAttestations, multi_attestation_switch.
  rewrite Hmp, Hmf.
  destruct (or_default Direct (signatureType options));
    [now elim Hst | | |]; yields_fees Ha Hb; fees_shown.
Qed.

Lemma expectMultiRevocations_fees requests options (a b : Z) :
  a <> 0 -> b <> 0 ->
  r_maxPriorityFeePerGas options = Some (FeeBigint a) ->
  r_maxFeePerGas options = Some (FeeBigint b) ->
  or_default Direct (r_signatureType options) <> Direct ->
  or_default Direct (r_signatureType options) <> Offchain ->
  yields submitted_transaction (expectMultiRevocations requests options)
    (fun _ l => shows_fees a b l).
Proof.
  intros Ha Hb Hmp Hmf Hdirect Hoffchain.
  unfold expectMultiRevocations, multi_revocation_switch.
  rewrite Hmp, Hmf.
  destruct (or_default Direct (r_signatureType options));
    [now elim Hdirect | | | now elim Hoffchain]; yields_fees Ha Hb; fees_shown.
Qed.

(** With both fees given as non-zero bigints, a helper that completes on a
    path that keeps its transaction has submitted once, and the transaction
    it got back shows exactly those fees: the delegated and proxy paths of
    the attestation helpers, every path but offchain of the single
    revocation, the delegated and proxy paths of the batched one. *)
Theorem completed_runs_show_the_fees (W : Type) (h : handler W) (w : W)
    (a b : Z) :
  a <> 0 -> b <> 0 ->
  (forall getOffchainUID version schema request options u,
      let x := run h (expectAttestation getOffchainUID version schema request
                        options) w in
      maxPriorityFeePerGas options = Some (FeeBigint a) ->
      maxFeePerGas options = Some (FeeBigint b) ->
      or_default Direct (signatureType options) = Delegated
      \/ or_default Direct (signatureType options) = DelegatedProxy ->
      result_of x = Ok u ->
      shows_fees a b (submitted_transactions (trace_of x)))
  /\ (forall requests options,
         let x := run h (expectMultiAttestations requests options) w in
         maxPriorityFeePerGas options = Some (FeeBigint a) ->
         maxFeePerGas options = Some (FeeBigint b) ->
         or_default Direct (signatureType options) <> Direct ->
         result_of x = Ok tt ->
         shows_fees a b (submitted_transactions (trace_of x)))
  /\ (forall schema request options,
         let x := run h (expectRevocation schema request options) w in
         r_maxPriorityFeePerGas options = Some (FeeBigint a) ->
         r_maxFeePerGas options = Some (FeeBigint b) ->
         or_default Direct (r_signatureType options) <> Offchain ->
         result_of x = Ok tt ->
         shows_fees a b (submitted_transactions (trace_of x)))
  /\ (forall requests options,
         let x := run h (expectMultiRevocations requests options) w in
         r_maxPriorityFeePerGas options = Some (FeeBigint a) ->
         r_maxFeePerGas options = Some (FeeBigint b) ->
         or_default Direct (r_signatureType options) <> Direct ->
         or_default Direct (r_signatureType options) <> Offchain ->
         result_of x = Ok tt ->
         shows_fees a b (submitted_transactions (trace_of x))).
Proof.
  intros Ha Hb. split; [| split; [| split]].
  - intros getOffchainUID version schema request options u x Hmp Hmf Hst Hok.
    exact (expectAttestation_fees getOffchainUID version schema request
             options a b Ha Hb Hmp Hmf Hst W h w u Hok).
  - intros requests options x Hmp Hmf Hst Hok.
    exact (expectMultiAttestations_fees requests options a b Ha Hb Hmp Hmf Hst
             W h w tt Hok).
  - intros schema request options x Hmp Hmf Hst Hok.
    exact (expectRevocation_fees schema request options a b Ha Hb Hmp Hmf Hst
             W h w tt Hok).
  - intros requests options x Hmp Hmf Hdirect Hoffchain Hok.
    exact (expectMultiRevocations_fees requests options a b Ha Hb Hmp Hmf
             Hdirect Hoffchain W h w tt Hok).
Qed.

Lemma completed_runs_show_the_fees_witness :
  shows_fees 3 5
    (submitted_transactions
       (trace_of
          (run Scenario.collaborators
             (expectMultiAttestations Scenario.batch
                (Scenario.attestation_options (Some Delegated)
                   (Some (FeeBigint 3)) (Some (FeeBigint 5))))
             Scenario.with_proxy)))
  /\ shows_fees 3 5
       (submitted_transactions
          (trace_of
             (run Scenario.collaborators
                (expectRevocation "0xAA" (Scenario.revocation "u1")
                   (Scenario.revocation_options None
                      (Some (FeeBigint 3)) (Some (FeeBigint 5))))
                Scenario.with_proxy))).
Proof.
  assert (H3 : 3 <> 0) by discriminate.
  assert (H5 : 5 <> 0) by discriminate.
  destruct (completed_runs_show_the_fees _ Scenario.collaborators
              Scenario.with_proxy 3 5 H3 H5)
    as (_ & Hattestations & Hrevocation & _).
  split.
  - apply (Hattestations Scenario.batch
             (Scenario.attestation_options (Some Delegated)
                (Some (FeeBigint 3)) (Some (FeeBigint 5))));
      try reflexivity.
    simpl. discriminate.
  - apply (Hrevocation "0xAA" (Scenario.revocation "u1")
             (Scenario.revocation_options None
                (Some (FeeBigint 3)) (Some (FeeBigint 5))));
      try reflexivity.
    simpl. discriminate.
Defined.

(** ** Signatures reach the ledger as the signer returned them *)

Lemma map_Returned_snoc (sigs : list Signature) (s : Signature) :
  (map Returned sigs ++ [Returned s])%list = map Returned (sigs ++ [s])%list.
Proof. now rewrite map_app. Qed.

Lemma concat_snoc {X : Type} (groups : list (list X)) (group : list X) :
  List.concat (groups ++ [group]) = (List.concat groups ++ group)%list.
Proof. rewrite concat_app. simpl. now rewrite app_nil_r. Qed.

Lemma sign_delegated_attestation_item_returns txSender schema nonce responses
    request :
  yields signature_step
    (sign_delegated_attestation_item txSender schema (nonce, responses) request)
    (fun s' l =>
       exists response,
         snd s' = (responses ++ [response])%list
         /\ l = [Returned (resp_signature response)]).
Proof.
  unfold sign_delegated_attestation_item.
  yields_through. apply yields_Ret. cbn. eexists. split; reflexivity.
Qed.

Lemma sign_delegated_attestation_items_return txSender schema items :
  forall nonce,
    yields signature_step
      (for_of items (sign_delegated_attestation_item txSender schema)
         (nonce, []))
      (fun s' l =>
         l = map Returned (map resp_signature (snd s'))
         /\ List.length (snd s') = List.length items).
Proof.
  intros nonce.
  pose proof (yields_for_of signature_step
                (sign_delegated_attestation_item txSender schema)
                (fun done s l =>
                   l = map Returned (map resp_signature (snd s))
                   /\ List.length (snd s) = List.length done) items) as Hloop.
  apply (Hloop) with (done := []) (l := []) (s := (nonce, []));
    [| split; reflexivity].
  intros done d [n responses] l [-> Hlen]. simpl in Hlen |- *.
  eapply yields_weaken;
    [| apply sign_delegated_attestation_item_returns].
  intros s' l' (response & -> & ->). split.
  - now rewrite map_app, map_app.
  - rewrite !length_app, Hlen. reflexivity.
Qed.

Lemma forwarded_so_far_snoc {X : Type} (size : X -> nat)
    (groups : list (list Signature)) (done : list X) (l : list signature_flow)
    (sigs : list Signature) (x : X) :
  forwarded_so_far size groups done l ->
  List.length sigs = size x ->
  forwarded_so_far size (groups ++ [sigs]) (done ++ [x])
    (l ++ map Returned sigs).
Proof.
  intros [-> Hsizes] Hsize. split.
  - now rewrite concat_snoc, map_app.
  - rewrite !map_app, Hsizes. simpl. now rewrite Hsize.
Qed.

Lemma sign_delegated_attestation_group_returns txSender nonce acc r :
  yields signature_step
    (sign_delegated_attestation_group txSender (nonce, acc) r)
    (fun s' l =>
       exists sigs,
         map mdar_signatures (snd s') = (map mdar_signatures acc ++ [sigs])%list
         /\ l = map Returned sigs
         /\ List.length sigs = List.length (mar_data r)).
Proof.
  unfold sign_delegated_attestation_group.
  eapply yields_bind; [apply sign_delegated_attestation_items_return |].
  intros [n responses] l1 [-> Hlen]. simpl in Hlen |- *.
  apply yields_Ret. exists (map resp_signature responses).
  cbn. rewrite map_app, app_nil_r, length_map. now repeat split.
Qed.

Lemma sign_delegated_attestation_groups_return txSender requests :
  forall nonce,
    yields signature_step
      (for_of requests (sign_delegated_attestation_group txSender) (nonce, []))
      (fun s' l =>
         forwarded_so_far (fun r => List.length (mar_data r))
           (map mdar_signatures (snd s')) requests l).
Proof.
  intros nonce.
  pose proof (yields_for_of signature_step
                (sign_delegated_attestation_group txSender)
                (fun done s l =>
                   forwarded_so_far (fun r => List.length (mar_data r))
                     (map mdar_signatures (snd s)) done l) requests) as Hloop.
  apply (Hloop) with (done := []) (l := []) (s := (nonce, []));
    [| split; reflexivity].
  intros done r [n acc] l Hsofar.
  eapply yields_weaken;
    [| apply sign_delegated_attestation_group_returns].
  intros s' l' (sigs & Hgroups & -> & Hsize). cbv beta. rewrite Hgroups.
  now apply forwarded_so_far_snoc.
Qed.

Lemma sign_proxy_attestation_item_returns delegated txSender schema deadline
    responses request :
  yields signature_step
    (sign_proxy_attestation_item delegated txSender schema deadline responses
       request)
    (fun s' l =>
       exists response,
         s' = (responses ++ [response])%list
         /\ l = [Returned (resp_signature response)]).
Proof.
  unfold sign_proxy_attestation_item.
  yields_through. apply yields_Ret. cbn. eexists. split; reflexivity.
Qed.

Lemma sign_proxy_attestation_items_return delegated txSender schema deadline
    items :
  yields signature_step
    (for_of items
       (sign_proxy_attestation_item delegated txSender schema deadline) [])
    (fun s' l =>
       l = map Returned (map resp_signature s')
       /\ List.length s' = List.length items).
Proof.
  pose proof (yields_for_of signature_step
                (sign_proxy_attestation_item delegated txSender schema deadline)
                (fun done s l =>
                   l = map Returned (map resp_signature s)
                   /\ List.length s = List.length done) items) as Hloop.
  apply (Hloop) with (done := []) (l := []) (s := []); [| split; reflexivity].
  intros done d responses l [-> Hlen].
  eapply yields_weaken; [| apply sign_proxy_attestation_item_returns].
  intros s' l' (response & -> & ->). split.
  - now rewrite map_app, map_app.
  - rewrite !length_app, Hlen. reflexivity.
Qed.

Lemma sign_proxy_attestation_group_returns delegated txSender deadline acc r :
  yields signature_step
    (sign_proxy_attestation_group delegated txSender deadline acc r)
    (fun s' l =>
       exists sigs,
         map mdpar_signatures s' = (map mdpar_signatures acc ++ [sigs])%list
         /\ l = map Returned sigs
         /\ List.length sigs = List.length (mar_data r)).
Proof.
  unfold sign_proxy_attestation_group.
  eapply yields_bind; [apply sign_proxy_attestation_items_return |].
  intros responses l1 [-> Hlen]. cbv beta.
  apply yields_Ret. exists (map resp_signature responses).
  cbn. rewrite map_app, app_nil_r, length_map. now repeat split.
Qed.

Lemma sign_proxy_attestation_groups_return delegated txSender deadline
    requests :
  yields signature_step
    (for_of requests (sign_proxy_attestation_group delegated txSender deadline)
       [])
    (fun s' l =>
       forwarded_so_far (fun r => List.length (mar_data r))
         (map mdpar_signatures s') requests l).
Proof.
  pose proof (yields_for_of signature_step
                (sign_proxy_attestation_group delegated txSender deadline)
                (fun done s l =>
                   forwarded_so_far (fun r => List.length (mar_data r))
                     (map mdpar_signatures s) done l) requests) as Hloop.
  apply (Hloop) with (done := []) (l := []) (s := []); [| split; reflexivity].
  intros done r acc l Hsofar.
  eapply yields_weaken; [| apply sign_proxy_attestation_group_returns].
  intros s' l' (sigs & Hgroups & -> & Hsize). cbv beta. rewrite Hgroups.
  now apply forwarded_so_far_snoc.
Qed.

Lemma sign_delegated_revocation_item_returns txSender schema nonce responses
    request :
  yields signature_step
    (sign_delegated_revocation_item txSender schema (nonce, responses) request)
    (fun s' l =>
       exists response,
         snd s' = (responses ++ [response])%list
         /\ l = [Returned (resp_signature response)]).
Proof.
  unfold sign_delegated_revocation_item.
  yields_through. apply yields_Ret. cbn. eexists. split; reflexivity.
Qed.

Lemma sign_delegated_revocation_items_return txSender schema items :
  forall nonce,
    yields signature_step
      (for_of items (sign_delegated_revocation_item txSender schema)
         (nonce, []))
      (fun s' l =>
         l = map Returned (map resp_signature (snd s'))
         /\ List.length (snd s') = List.length items).
Proof.
  intros nonce.
  pose proof (yields_for_of signature_step
                (sign_delegated_revocation_item txSender schema)
                (fun done s l =>
                   l = map Returned (map resp_signature (snd s))
                   /\ List.length (snd s) = List.length done) items) as Hloop.
  apply (Hloop) with (done := []) (l := []) (s := (nonce, []));
    [| split; reflexivity].
  intros done d [n responses] l [-> Hlen]. simpl in Hlen |- *.
  eapply yields_weaken; [| apply sign_delegated_revocation_item_returns].
  intros s' l' (response & -> & ->). split.
  - now rewrite map_app, map_app.
  - rewrite !length_app, Hlen. reflexivity.
Qed.

Lemma sign_delegated_revocation_group_returns txSender nonce acc r :
  yields signature_step
    (sign_delegated_revocation_group txSender (nonce, acc) r)
    (fun s' l =>
       exists sigs,
         map mdrr_signatures (snd s') = (map mdrr_signatures acc ++ [sigs])%list
         /\ l = map Returned sigs
         /\ List.length sigs = List.length (mrr_data r)).
Proof.
  unfold sign_delegated_revocation_group.
  eapply yields_bind; [apply sign_delegated_revocation_items_return |].
  intros [n responses] l1 [-> Hlen]. simpl in Hlen |- *.
  apply yields_Ret. exists (map resp_signature responses).
  cbn. rewrite map_app, app_nil_r, length_map. now repeat split.
Qed.

Lemma sign_delegated_revocation_groups_return txSender requests :
  forall nonce,
    yields signature_step
      (for_of requests (sign_delegated_revocation_group txSender) (nonce, []))
      (fun s' l =>
         forwarded_so_far (fun r => List.length (mrr_data r))
           (map mdrr_signatures (snd s')) requests l).
Proof.
  intros nonce.
  pose proof (yields_for_of signature_step
                (sign_delegated_revocation_group txSender)
                (fun done s l =>
                   forwarded_so_far (fun r => List.length (mrr_data r))
                     (map mdrr_signatures (snd s)) done l) requests) as Hloop.
  apply (Hloop) with (done := []) (l := []) (s := (nonce, []));
    [| split; reflexivity].
  intros done r [n acc] l Hsofar.
  eapply yields_weaken; [| apply sign_delegated_revocation_group_returns].
  intros s' l' (sigs & Hgroups & -> & Hsize). cbv beta. rewrite Hgroups.
  now apply forwarded_so_far_snoc.
Qed.

Lemma sign_proxy_revocation_item_returns delegated txSender schema deadline
    responses request :
  yields signature_step
    (sign_proxy_revocation_item delegated txSender schema deadline responses
       request)
    (fun s' l =>
       exists response,
         s' = (responses ++ [response])%list
         /\ l = [Returned (resp_signature response)]).
Proof.
  unfold sign_proxy_revocation_item.
  yields_through. apply yields_Ret. cbn. eexists. split; reflexivity.
Qed.

Lemma sign_proxy_revocation_items_return delegated txSender schema deadline
    items :
  yields signature_step
    (for_of items
       (sign_proxy_revocation_item delegated txSender schema deadline) [])
    (fun s' l =>
       l = map Returned (map resp_signature s')
       /\ List.length s' = List.length items).
Proof.
  pose proof (yields_for_of signature_step
                (sign_proxy_revocation_item delegated txSender schema deadline)
                (fun done s l =>
                   l = map Returned (map resp_signature s)
                   /\ List.length s = List.length done) items) as Hloop.
  apply (Hloop) with (done := []) (l := []) (s := []); [| split; reflexivity].
  intros done d responses l [-> Hlen].
  eapply yields_weaken; [| apply sign_proxy_revocation_item_returns].
  intros s' l' (response & -> & ->). split.
  - now rewrite map_app, map_app.
  - rewrite !length_app, Hlen. reflexivity.
Qed.

Lemma sign_proxy_revocation_group_returns delegated txSender deadline acc r :
  yields signature_step
    (sign_proxy_revocation_group delegated txSender deadline acc r)
    (fun s' l =>
       exists sigs,
         map mdprr_signatures s' = (map mdprr_signatures acc ++ [sigs])%list
         /\ l = map Returned sigs
         /\ List.length sigs = List.length (mrr_data r)).
Proof.
  unfold sign_proxy_revocation_group.
  eapply yields_bind; [apply sign_proxy_revocation_items_return |].
  intros responses l1 [-> Hlen]. cbv beta.
  apply yields_Ret. exists (map resp_signature responses).
  cbn. rewrite map_app, app_nil_r, length_map. now repeat split.
Qed.

Lemma sign_proxy_revocation_groups_return delegated txSender deadline
    requests :
  yields signature_step
    (for_of requests (sign_proxy_revocation_group delegated txSender deadline)
       [])
    (fun s' l =>
       forwarded_so_far (fun r => List.length (mrr_data r))
         (map mdprr_signatures s') requests l).
Proof.
  pose proof (yields_for_of signature_step
                (sign_proxy_revocation_group delegated txSender deadline)
                (fun done s l =>
                   forwarded_so_far (fun r => List.length (mrr_data r))
                     (map mdprr_signatures s) done l) requests) as Hloop.
  apply (Hloop) with (done := []) (l := []) (s := []); [| split; reflexivity].
  intros done r acc l Hsofar.
  eapply yields_weaken; [| apply sign_proxy_revocation_group_returns].
  intros s' l' (sigs & Hgroups & -> & Hsize). cbv beta. rewrite Hgroups.
  now apply forwarded_so_far_snoc.
Qed.

(** The submission of a single request: the one signature returned. *)
Ltac single_forward :=
  gated_walk;
  apply gated_at;
    [ intros ?; silence
    | intros ?; cbn; eexists (cons (cons _ nil) nil); split; reflexivity ].

(** The submission of a batch: the signatures its loops returned. *)
Ltac batch_forward groups_return :=
  gated_walk;
  eapply gated_bind;
    [ solve [silence]
    | apply groups_return
    | intros ? ? [-> ?]; cbv beta iota;
      match goal with
      | |- gated _ _ (match ?x with _ => _ end) _ => destruct x
      | _ => idtac
      end;
      apply gated_at;
        [ intros ?; silence
        | intros ?; cbn; eexists; split; [reflexivity | eassumption] ] ].

Lemma expectAttestation_forwards getOffchainUID version schema request options :
  or_default Direct (signatureType options) <> Direct ->
  gated submission signature_step
    (expectAttestation getOffchainUID version schema request options)
    (forwards_as_returned [1%nat]).
Proof.
  intros Hst. unfold expectAttestation.
  apply gated_then_silent; [| intros c; silence | intros c; silence].
  unfold attestation_switch.
  destruct (or_default Direct (signatureType options)); [now elim Hst | | |].
  - single_forward.
  - single_forward.
  - apply gated_unreached. silence.
Qed.

Lemma expectRevocation_forwards schema request options :
  or_default Direct (r_signatureType options) <> Direct ->
  gated submission signature_step (expectRevocation schema request options)
    (forwards_as_returned [1%nat]).
Proof.
  intros Hst. unfold expectRevocation.
  apply gated_then_silent; [| intros c; silence | intros c; silence].
  unfold revocation_switch.
  destruct (or_default Direct (r_signatureType options)); [now elim Hst | | |].
  - single_forward.
  - single_forward.
  - apply gated_unreached. silence.
Qed.

Lemma expectMultiAttestations_forwards requests options :
  or_default Direct (signatureType options) <> Direct ->
  gated submission signature_step (expectMultiAttestations requests options)
    (forwards_as_returned (map (fun r => List.length (mar_data r)) requests)).
Proof.
  intros Hst. unfold expectMultiAttestations.
  apply gated_then_silent; [| intros c; silence | intros c; silence].
  unfold multi_attestation_switch.
  destruct (or_default Direct (signatureType options)); [now elim Hst | | |].
  - batch_forward sign_delegated_attestation_groups_return.
  - batch_forward sign_proxy_attestation_groups_return.
  - apply gated_Throw.
Qed.

Lemma expectMultiRevocations_forwards requests options :
  or_default Direct (r_signatureType options) <> Direct ->
  gated submission signature_step (expectMultiRevocations requests options)
    (forwards_as_returned (map (fun r => List.length (mrr_data r)) requests)).
Proof.
  intros Hst. unfold expectMultiRevocations.
  apply gated_then_silent; [| intros c; silence | intros c; silence].
  unfold multi_revocation_switch.
  destruct (or_default Direct (r_signatureType options)); [now elim Hst | | |].
  - batch_forward sign_delegated_revocation_groups_return.
  - batch_forward sign_proxy_revocation_groups_return.
  - apply gated_unreached. silence.
Qed.

(** Off the direct path, a helper that has submitted has forwarded exactly
    the signatures the signer returned, in the order it returned them: one
    for a single request, and for a batch one group per request, each with
    one signature per item of that request (none for a request without
    items, and an empty submission for an empty batch). *)
Theorem signatures_forwarded_as_returned (W : Type) (h : handler W) (w : W) :
  (forall getOffchainUID version schema request options,
      or_default Direct (signatureType options) <> Direct ->
      let tr := trace_of (run h (expectAttestation getOffchainUID version
                                   schema request options) w) in
      submissions tr <> [] ->
      forwards_as_returned [1%nat] (signature_steps tr))
  /\ (forall requests options,
         or_default Direct (signatureType options) <> Direct ->
         let tr := trace_of (run h (expectMultiAttestations requests options)
                               w) in
         submissions tr <> [] ->
         forwards_as_returned
           (map (fun r => List.length (mar_data r)) requests)
           (signature_steps tr))
  /\ (forall schema request options,
         or_default Direct (r_signatureType options) <> Direct ->
         let tr := trace_of (run h (expectRevocation schema request options)
                               w) in
         submissions tr <> [] ->
         forwards_as_returned [1%nat] (signature_steps tr))
  /\ (forall requests options,
         or_default Direct (r_signatureType options) <> Direct ->
         let tr := trace_of (run h (expectMultiRevocations requests options)
                               w) in
         submissions tr <> [] ->
         forwards_as_returned
           (map (fun r => List.length (mrr_data r)) requests)
           (signature_steps tr)).
Proof.
  split; [| split; [| split]].
  - intros getOffchainUID version schema request options Hst tr.
    apply (expectAttestation_forwards getOffchainUID version schema request
             options Hst W h w).
  - intros requests options Hst tr.
    apply (expectMultiAttestations_forwards requests options Hst W h w).
  - intros schema request options Hst tr.
    apply (expectRevocation_forwards schema request options Hst W h w).
  - intros requests options Hst tr.
    apply (expectMultiRevocations_forwards requests options Hst W h w).
Qed.

Lemma signatures_forwarded_as_returned_witness :
  forwards_as_returned [2%nat; 1%nat]
    (signature_steps
       (trace_of
          (run Scenario.collaborators
             (expectMultiAttestations Scenario.batch
                (Scenario.attestation_options (Some Delegated) None None))
             Scenario.with_proxy)))
  /\ forwards_as_returned []
       (signature_steps
          (trace_of
             (run Scenario.collaborators
                (expectMultiRevocations []
                   (Scenario.revocation_options (Some DelegatedProxy) None
                      None))
                Scenario.with_proxy))).
Proof.
  destruct (signatures_forwarded_as_returned _ Scenario.collaborators
              Scenario.with_proxy) as (_ & Hattestations & _ & Hrevocations).
  split.
  - apply (Hattestations Scenario.batch
             (Scenario.attestation_options (Some Delegated) None None)).
    + simpl. discriminate.
    + vm_compute. discriminate.
  - apply (Hrevocations []
             (Scenario.revocation_options (Some DelegatedProxy) None None)).
    + simpl. discriminate.
    + vm_compute. discriminate.
Defined.

(** An empty delegated batch still asks for the nonce and submits: an empty
    list of requests, with nothing signed. *)
Example empty_batch_is_submitted :
  let x := run Scenario.collaborators
             (expectMultiAttestations []
                (Scenario.attestation_options (Some Delegated) None None))
             Scenario.with_proxy in
  nonce_queries (trace_of x) = ["addr:k1"]
  /\ signature_steps (trace_of x) = [Forwarded []]
  /\ submissions (trace_of x) = [None].
Proof. repeat split. Qed.

(** ** Who acts, for whom, and until when *)

Lemma Forall_snoc {X : Type} (P : X -> Prop) (xs : list X) (x : X) :
  Forall P xs -> P x -> Forall P (xs ++ [x]).
Proof. intros Hxs Hx. apply Forall_app. split; [exact Hxs | now constructor]. Qed.

Lemma Forall_eq_map {X Y : Type} (c : X -> Y) (y : Y) (xs : list X) :
  Forall (fun x => c x = y) xs -> Forall (eq y) (map c xs).
Proof.
  intros Hxs. apply Forall_map. eapply Forall_impl; [| exact Hxs].
  intros x Hx. now symmetry.
Qed.

(** The signing loops of a batch keep [I] of the groups built so far, and
    the submission that follows shows it. *)
Ltac batch_keeps I :=
  eapply all_seen_returning_seen with (R := fun _ => True);
  eapply returning_bind with (R := I);
    [ apply returning_for_of;
      [ intros ? ? ?;
        match goal with
        | |- all_seen_returning _ _ (?g _ ?s _) _ =>
            unfold g; try destruct s
        | |- all_seen_returning _ _ (?g _ _ _ ?s _) _ =>
            unfold g
        end;
        eapply returning_bind with (R := fun _ => True);
          [ apply returning_all_seen; all_seen_by reflexivity
          | intros ? _;
            match goal with
            | |- all_seen_returning _ _ (match ?x with _ => _ end) _ =>
                destruct x
            | _ => idtac
            end;
            apply returning_Ret; apply Forall_snoc;
              [assumption | reflexivity] ]
      | constructor ]
    | intros ? ?;
      match goal with
      | |- all_seen_returning _ _ (match ?x with _ => _ end) _ => destruct x
      | _ => idtac
      end;
      apply returning_all_seen; apply all_seen_bind;
        [ apply all_seen_await; intros ?; cbn; now apply Forall_eq_map
        | intros ?; all_seen_by reflexivity ] ].

Lemma expectMultiAttestations_names requests options :
  all_seen named_address (eq (address (from options)))
    (expectMultiAttestations requests options).
Proof.
  unfold expectMultiAttestations.
  apply all_seen_bind; [| intros [tx uids]; all_seen_by reflexivity].
  unfold multi_attestation_switch.
  destruct (or_default Direct (signatureType options)).
  - all_seen_by reflexivity.
  - apply all_seen_bind; [all_seen_by reflexivity | intros nonce].
    batch_keeps
      (fun s : Z * list MultiDelegatedAttestationRequest =>
         Forall (fun g => mdar_attester g = address (from options)) (snd s)).
  - apply all_seen_bind; [all_seen_by reflexivity | intros [p |]];
      [| apply all_seen_Throw].
    apply all_seen_bind; [all_seen_by reflexivity | intros delegated].
    batch_keeps
      (fun s : list MultiDelegatedProxyAttestationRequest =>
         Forall (fun g => mdpar_attester g = address (from options)) s).
  - apply all_seen_Throw.
Qed.

Lemma expectMultiRevocations_names requests options :
  all_seen named_address (eq (address (r_from options)))
    (expectMultiRevocations requests options).
Proof.
  unfold expectMultiRevocations.
  apply all_seen_bind; [| intros tx; all_seen_by reflexivity].
  unfold multi_revocation_switch.
  destruct (or_default Direct (r_signatureType options)).
  - all_seen_by reflexivity.
  - apply all_seen_bind; [all_seen_by reflexivity | intros nonce].
    batch_keeps
      (fun s : Z * list MultiDelegatedRevocationRequest =>
         Forall (fun g => mdrr_revoker g = address (r_from options)) (snd s)).
  - apply all_seen_bind; [all_seen_by reflexivity | intros [p |]];
      [| apply all_seen_Throw].
    apply all_seen_bind; [all_seen_by reflexivity | intros delegated].
    batch_keeps
      (fun s : list MultiDelegatedProxyRevocationRequest =>
         Forall (fun g => mdprr_revoker g = address (r_from options)) s).
  - apply all_seen_Ret.
Qed.

Lemma expectMultiAttestations_deadlines requests options :
  all_seen proxy_deadline (eq (or_default NO_EXPIRATION (deadline options)))
    (expectMultiAttestations requests options).
Proof.
  unfold expectMultiAttestations.
  apply all_seen_bind; [| intros [tx uids]; all_seen_by reflexivity].
  unfold multi_attestation_switch.
  destruct (or_default Direct (signatureType options)).
  - all_seen_by reflexivity.
  - all_seen_by reflexivity.
  - apply all_seen_bind; [all_seen_by reflexivity | intros [p |]];
      [| apply all_seen_Throw].
    apply all_seen_bind; [all_seen_by reflexivity | intros delegated].
    batch_keeps
      (fun s : list MultiDelegatedProxyAttestationRequest =>
         Forall (fun g => mdpar_deadline g
                          = or_default NO_EXPIRATION (deadline options)) s).
  - apply all_seen_Throw.
Qed.

Lemma expectMultiRevocations_deadlines requests options :
  all_seen proxy_deadline (eq (or_default NO_EXPIRATION (r_deadline options)))
    (expectMultiRevocations requests options).
Proof.
  unfold expectMultiRevocations.
  apply all_seen_bind; [| intros tx; all_seen_by reflexivity].
  unfold multi_revocation_switch.
  destruct (or_default Direct (r_signatureType options)).
  - all_seen_by reflexivity.
  - all_seen_by reflexivity.
  - apply all_seen_bind; [all_seen_by reflexivity | intros [p |]];
      [| apply all_seen_Throw].
    apply all_seen_bind; [all_seen_by reflexivity | intros delegated].
    batch_keeps
      (fun s : list MultiDelegatedProxyRevocationRequest =>
         Forall (fun g => mdprr_deadline g
                          = or_default NO_EXPIRATION (r_deadline options)) s).
  - apply all_seen_Ret.
Qed.

(** Every helper acts for one party only.  The wallet each submission is
    connected to and each signature is asked of is the options' [from], and
    the address whose nonce is asked, against which each signature is
    checked, and which each delegated request or group of a batch names as
    attester or revoker, is that wallet's. *)
Theorem one_party_throughout (W : Type) (h : handler W) (w : W) :
  (forall getOffchainUID version schema request options,
      let tr := trace_of (run h (expectAttestation getOffchainUID version
                                   schema request options) w) in
      Forall (eq (from options)) (acting_wallets tr)
      /\ Forall (eq (address (from options))) (named_addresses tr))
  /\ (forall requests options,
         let tr := trace_of (run h (expectMultiAttestations requests options)
                               w) in
         Forall (eq (from options)) (acting_wallets tr)
         /\ Forall (eq (address (from options))) (named_addresses tr))
  /\ (forall schema request options,
         let tr := trace_of (run h (expectRevocation schema request options)
                               w) in
         Forall (eq (r_from options)) (acting_wallets tr)
         /\ Forall (eq (address (r_from options))) (named_addresses tr))
  /\ (forall requests options,
         let tr := trace_of (run h (expectMultiRevocations requests options)
                               w) in
         Forall (eq (r_from options)) (acting_wallets tr)
         /\ Forall (eq (address (r_from options))) (named_addresses tr)).
Proof.
  split; [| split; [| split]].
  - intros getOffchainUID version schema request options tr.
    assert (H1 : all_seen acting_wallet (eq (from options))
                   (expectAttestation getOffchainUID version schema request
                      options)) by all_seen_by reflexivity.
    assert (H2 : all_seen named_address (eq (address (from options)))
                   (expectAttestation getOffchainUID version schema request
                      options)) by all_seen_by reflexivity.
    split; [apply H1 | apply H2].
  - intros requests options tr.
    assert (H1 : all_seen acting_wallet (eq (from options))
                   (expectMultiAttestations requests options))
      by all_seen_by reflexivity.
    split; [apply H1 | apply expectMultiAttestations_names].
  - intros schema request options tr.
    assert (H1 : all_seen acting_wallet (eq (r_from options))
                   (expectRevocation schema request options))
      by all_seen_by reflexivity.
    assert (H2 : all_seen named_address (eq (address (r_from options)))
                   (expectRevocation schema request options))
      by all_seen_by reflexivity.
    split; [apply H1 | apply H2].
  - intros requests options tr.
    assert (H1 : all_seen acting_wallet (eq (r_from options))
                   (expectMultiRevocations requests options))
      by all_seen_by reflexivity.
    split; [apply H1 | apply expectMultiRevocations_names].
Qed.

(** On the proxy path the deadline that is signed and the deadline that is
    submitted are one and the same: the options' [deadline], or
    [NO_EXPIRATION] when the options give none.  This holds for each item
    and each group of a batch. *)
Theorem one_deadline_throughout (W : Type) (h : handler W) (w : W) :
  (forall getOffchainUID version schema request options,
      Forall (eq (or_default NO_EXPIRATION (deadline options)))
        (proxy_deadlines
           (trace_of (run h (expectAttestation getOffchainUID version schema
                               request options) w))))
  /\ (forall requests options,
         Forall (eq (or_default NO_EXPIRATION (deadline options)))
           (proxy_deadlines
              (trace_of (run h (expectMultiAttestations requests options) w))))
  /\ (forall schema request options,
         Forall (eq (or_default NO_EXPIRATION (r_deadline options)))
           (proxy_deadlines
              (trace_of (run h (expectRevocation schema request options) w))))
  /\ (forall requests options,
         Forall (eq (or_default NO_EXPIRATION (r_deadline options)))
           (proxy_deadlines
              (trace_of (run h (expectMultiRevocations requests options) w))))
  /\ (forall options,
         deadline options = None ->
         or_default NO_EXPIRATION (deadline options) = 0).
Proof.
  split; [| split; [| split; [| split]]].
  - intros getOffchainUID version schema request options.
    assert (H : all_seen proxy_deadline
                  (eq (or_default NO_EXPIRATION (deadline options)))
                  (expectAttestation getOffchainUID version schema request
                     options)) by all_seen_by reflexivity.
    apply H.
  - intros requests options. apply expectMultiAttestations_deadlines.
  - intros schema request options.
    assert (H : all_seen proxy_deadline
                  (eq (or_default NO_EXPIRATION (r_deadline options)))
                  (expectRevocation schema request options))
      by all_seen_by reflexivity.
    apply H.
  - intros requests options. apply expectMultiRevocations_deadlines.
  - intros options ->. reflexivity.
Qed.

Example one_party_scenario :
  let tr := trace_of
              (run Scenario.collaborators
                 (expectMultiRevocations Scenario.revocation_batch
                    (Scenario.revocation_options (Some DelegatedProxy) None
                       None))
                 Scenario.with_proxy) in
  acting_wallets tr
  = [Scenario.k1; Scenario.k1; Scenario.k1; Scenario.k1]
  /\ named_addresses tr
     = ["addr:k1"; "addr:k1"; "addr:k1"; "addr:k1"; "addr:k1"]
  /\ proxy_deadlines tr = [0; 0; 0; 0; 0].
Proof. repeat split. Qed.

Lemma one_deadline_throughout_witness :
  or_default NO_EXPIRATION
    (deadline (Scenario.attestation_options (Some DelegatedProxy) None None))
  = 0.
Proof.
  exact (proj2 (proj2 (proj2 (proj2
           (one_deadline_throughout _ Scenario.collaborators
              Scenario.with_proxy))))
           (Scenario.attestation_options (Some DelegatedProxy) None None)
           eq_refl).
Defined.

(** ** Offchain attestations stay off the ledger *)

(** An offchain attestation is never submitted: the run has no submission,
    waits for no transaction, asks the ledger nothing about validity or
    revocation, and asks for no nonce.  It completes only after the one
    signature it asked for was verified. *)
Theorem offchain_attestation_stays_off_ledger (W : Type) (h : handler W)
    (w : W) getOffchainUID version schema request options :
  or_default Direct (signatureType options) = Offchain ->
  let x := run h (expectAttestation getOffchainUID version schema request
                    options) w in
  submissions (trace_of x) = []
  /\ ledger_reports (trace_of x) = []
  /\ nonce_queries (trace_of x) = []
  /\ (forall u, result_of x = Ok u -> verification_answers (trace_of x) = [true]).
Proof.
  intros Hst x.
  assert (H1 : silent submission
                 (expectAttestation getOffchainUID version schema request
                    options)) by silent_on Hst.
  assert (H2 : all_seen ledger_report (fun _ => False)
                 (expectAttestation getOffchainUID version schema request
                    options)).
  { unfold expectAttestation, attestation_switch. rewrite Hst.
    eapply all_seen_returning_seen with (R := fun _ => True).
    eapply returning_bind with (R := fun c => exists u, c = Return u).
    - repeat (eapply returning_bind with (R := fun _ => True);
              [ apply returning_all_seen; apply silent_all_seen; silence
              | intros ? _ ]).
      apply returning_Ret. eexists. reflexivity.
    - intros c [u ->]. now apply returning_Ret. }
  assert (H3 : silent nonce_query
                 (expectAttestation getOffchainUID version schema request
                    options)) by silent_on Hst.
  assert (H4 : yields verification_answer
                 (expectAttestation getOffchainUID version schema request
                    options) (fun _ l => l = [true])).
  { unfold expectAttestation, attestation_switch. rewrite Hst.
    yields_through. apply yields_Ret. cbn. now subst. }
  split; [apply H1 | split; [| split; [apply H3 |]]].
  - specialize (H2 W h w). unfold seen in H2. fold x in H2.
    unfold ledger_reports. destruct (flat_map ledger_report (trace_of x));
      [reflexivity | now inversion H2].
  - intros u Hok. exact (H4 W h w u Hok).
Qed.

Lemma offchain_attestation_stays_off_ledger_witness :
  let x := run Scenario.collaborators
             (expectAttestation Scenario.no_uid 1 "0xAA"
                (Scenario.bare "0x1111")
                (Scenario.attestation_options (Some Offchain)
                   (Some (FeeBigint 3)) (Some (FeeBigint 5))))
             Scenario.with_proxy in
  submissions (trace_of x) = []
  /\ ledger_reports (trace_of x) = []
  /\ nonce_queries (trace_of x) = []
  /\ (forall u, result_of x = Ok u -> verification_answers (trace_of x) = [true]).
Proof.
  exact (offchain_attestation_stays_off_ledger _ Scenario.collaborators
           Scenario.with_proxy Scenario.no_uid 1 "0xAA"
           (Scenario.bare "0x1111")
           (Scenario.attestation_options (Some Offchain)
              (Some (FeeBigint 3)) (Some (FeeBigint 5))) eq_refl).
Defined.

(** ** The nonce of a single delegated request *)

(** The next call of a helper that is in the middle of its [switch]. *)
Ltac next_call r w' :=
  rewrite bind_await_bind, run_Call;
  match goal with
  | |- context [?h ?R ?ev ?w] =>
      lazymatch type of h with
      | handler _ => destruct (h R ev w) as [[r | ?] w']
      end
  end;
  cbn [trace_of fst snd].

Lemma expectAttestation_signs_the_nonce (W : Type) (h : handler W) (w : W)
    getOffchainUID version schema request options :
  or_default Direct (signatureType options) = Delegated ->
  let tr := trace_of (run h (expectAttestation getOffchainUID version schema
                               request options) w) in
  delegated_signings tr
  = map (fun n => (schema, rd_recipient request, n)) (nonce_answers tr).
Proof.
  intros Hst. unfold expectAttestation, attestation_switch.
  rewrite Hst. cbn [or_default].
  unfold delegated_signings, nonce_answers.
  next_call delegated w1; [| reflexivity].
  next_call nonce w2; [| reflexivity].
  next_call response w3; [| reflexivity].
  match goal with
  | |- context [run h ?rest w3] =>
      assert (Hs : silent delegated_signing rest) by silence;
      assert (Hn : silent nonce_answer rest) by silence;
      specialize (Hs W h w3); specialize (Hn W h w3);
      unfold seen in Hs, Hn
  end.
  cbn [flat_map delegated_signing nonce_answer app map ap_schema ap_recipient
       ap_nonce recipient resolve_attestation].
  now rewrite Hs, Hn.
Qed.

Lemma expectRevocation_signs_the_nonce (W : Type) (h : handler W) (w : W)
    schema request options :
  or_default Direct (r_signatureType options) = Delegated ->
  let tr := trace_of (run h (expectRevocation schema request options) w) in
  delegated_signings tr
  = map (fun n => (schema, rv_uid request, n)) (nonce_answers tr).
Proof.
  intros Hst. unfold expectRevocation, revocation_switch.
  rewrite Hst. cbn [or_default].
  unfold delegated_signings, nonce_answers.
  next_call delegated w1; [| reflexivity].
  next_call nonce w2; [| reflexivity].
  next_call response w3; [| reflexivity].
  match goal with
  | |- context [run h ?rest w3] =>
      assert (Hs : silent delegated_signing rest) by silence;
      assert (Hn : silent nonce_answer rest) by silence;
      specialize (Hs W h w3); specialize (Hn W h w3);
      unfold seen in Hs, Hn
  end.
  cbn [flat_map delegated_signing nonce_answer app map rp_schema rp_uid
       rp_nonce uid resolve_revocation].
  now rewrite Hs, Hn.
Qed.

Lemma expectAttestation_asks_the_nonce_once getOffchainUID version schema
    request options :
  or_default Direct (signatureType options) = Delegated ->
  emits nonce_query
    (expectAttestation getOffchainUID version schema request options)
    [address (from options)] (fun _ => True).
Proof.
  intros Hst. unfold expectAttestation.
  eapply emits_then_silent with (P := fun _ => True).
  - unfold attestation_switch. rewrite Hst. emits_once.
  - intros c _. apply silent_emits. silence.
Qed.

Lemma expectRevocation_asks_the_nonce_once schema request options :
  or_default Direct (r_signatureType options) = Delegated ->
  emits nonce_query (expectRevocation schema request options)
    [address (r_from options)] (fun _ => True).
Proof.
  intros Hst. unfold expectRevocation.
  eapply emits_then_silent with (P := fun _ => True).
  - unfold revocation_switch. rewrite Hst. emits_once.
  - intros c _. apply silent_emits. silence.
Qed.

(** A single delegated attestation or revocation asks for the nonce at most
    once, and exactly once when it completes.  What it hands to the signer
    embeds the nonce the ledger answered: no nonce answered, nothing handed
    to the signer; the nonce [n] answered, the one request with [n]. *)
Theorem single_delegated_request_signs_the_nonce (W : Type) (h : handler W)
    (w : W) :
  (forall getOffchainUID version schema request options,
      or_default Direct (signatureType options) = Delegated ->
      let x := run h (expectAttestation getOffchainUID version schema request
                        options) w in
      prefix_of (nonce_queries (trace_of x)) [address (from options)]
      /\ (forall u, result_of x = Ok u ->
                    nonce_queries (trace_of x) = [address (from options)])
      /\ delegated_signings (trace_of x)
         = map (fun n => (schema, rd_recipient request, n))
             (nonce_answers (trace_of x)))
  /\ (forall schema request options,
         or_default Direct (r_signatureType options) = Delegated ->
         let x := run h (expectRevocation schema request options) w in
         prefix_of (nonce_queries (trace_of x)) [address (r_from options)]
         /\ (result_of x = Ok tt ->
             nonce_queries (trace_of x) = [address (r_from options)])
         /\ delegated_signings (trace_of x)
            = map (fun n => (schema, rv_uid request, n))
                (nonce_answers (trace_of x))).
Proof.
  split.
  - intros getOffchainUID version schema request options Hst x.
    pose proof (expectAttestation_asks_the_nonce_once getOffchainUID version
                  schema request options Hst) as Honce.
    split; [| split].
    + exact (emits_prefix _ _ _ _ Honce W h w).
    + intros u Hok. specialize (Honce W h w). fold x in Honce.
      rewrite Hok in Honce. apply Honce.
    + now apply expectAttestation_signs_the_nonce.
  - intros schema request options Hst x.
    pose proof (expectRevocation_asks_the_nonce_once schema request options
                  Hst) as Honce.
    split; [| split].
    + exact (emits_prefix _ _ _ _ Honce W h w).
    + intros Hok. specialize (Honce W h w). fold x in Honce.
      rewrite Hok in Honce. apply Honce.
    + now apply expectRevocation_signs_the_nonce.
Qed.

Lemma single_delegated_request_signs_the_nonce_witness :
  let x := run Scenario.collaborators
             (expectRevocation "0xAA" (Scenario.revocation "u1")
                (Scenario.revocation_options (Some Delegated) None None))
             Scenario.with_proxy in
  nonce_queries (trace_of x) = ["addr:k1"]
  /\ delegated_signings (trace_of x)
     = map (fun n => ("0xAA", "u1", n)) (nonce_answers (trace_of x)).
Proof.
  intros x.
  destruct (proj2 (single_delegated_request_signs_the_nonce _
                     Scenario.collaborators Scenario.with_proxy)
              "0xAA" (Scenario.revocation "u1")
              (Scenario.revocation_options (Some Delegated) None None)
              eq_refl) as (_ & Honce & Hsigned).
  split; [apply Honce; reflexivity | exact Hsigned].
Defined.

Example single_delegated_scenario :
  let x := run Scenario.collaborators
             (expectAttestation Scenario.no_uid 1 "0xAA"
                (Scenario.bare "0x1111")
                (Scenario.attestation_options (Some Delegated) None None))
             Scenario.with_proxy in
  nonce_answers (trace_of x) = [7]
  /\ delegated_signings (trace_of x) = [("0xAA", "0x1111", 7)].
Proof. split; reflexivity. Qed.

(** ** What the proxy says of a completed proxy attestation *)

Lemma expect_proxy_attester_attributes (u a : string) :
  yields proxy_attribution (expect_proxy_attester u a)
    (fun _ l => l = [Attributed u a]).
Proof.
  unfold expect_proxy_attester.
  apply yields_after_silent; [silence | intros [p |]];
    [| apply yields_Throw].
  apply yields_call. intros attester. apply yields_expect_last.
  intros Heq. apply String.eqb_eq in Heq. now subst.
Qed.

Lemma expectAttestation_attributed getOffchainUID version schema request
    options :
  or_default Direct (signatureType options) = DelegatedProxy ->
  yields proxy_attribution
    (expectAttestation getOffchainUID version schema request options)
    (fun u l => l = [Attested [u]; Attributed u (address (from options))]).
Proof.
  intros Hst. unfold expectAttestation, attestation_switch. rewrite Hst.
  yields_through_with
    ltac:(idtac;
          match goal with
          | |- yields _ (bind (expect_proxy_attester ?u ?a) _) _ =>
              eapply yields_bind;
                [apply expect_proxy_attester_attributes | intros ? ? ->]
          end).
  apply yields_Ret. cbn. reflexivity.
Qed.

Lemma expectMultiAttestations_attributed requests options :
  or_default Direct (signatureType options) = DelegatedProxy ->
  yields proxy_attribution (expectMultiAttestations requests options)
    (fun _ l =>
       exists us,
         l = Attested us
             :: map (fun u => Attributed u (address (from options))) us).
Proof.
  intros Hst. unfold expectMultiAttestations, multi_attestation_switch.
  rewrite Hst. yields_through.
  eapply yields_bind;
    [ apply yields_for_of_each
        with (c := fun u => [Attributed u (address (from options))]);
      intros [] u; apply expect_proxy_attester_attributes
    | intros ? ? -> ].
  yields_through. cbn. rewrite !app_nil_r, flat_map_singleton.
  eexists. reflexivity.
Qed.

(** A proxy attestation that completes was attributed to the sender by the
    proxy: for the UID the transaction was mined with, and for a batch for
    each of its UIDs in order, the proxy named the sender's address as the
    attester. *)
Theorem proxy_attestations_are_attributed (W : Type) (h : handler W) (w : W) :
  (forall getOffchainUID version schema request options u,
      let x := run h (expectAttestation getOffchainUID version schema request
                        options) w in
      or_default Direct (signatureType options) = DelegatedProxy ->
      result_of x = Ok u ->
      proxy_attributions (trace_of x)
      = [Attested [u]; Attributed u (address (from options))])
  /\ (forall requests options,
         let x := run h (expectMultiAttestations requests options) w in
         or_default Direct (signatureType options) = DelegatedProxy ->
         result_of x = Ok tt ->
         exists us,
           proxy_attributions (trace_of x)
           = Attested us
             :: map (fun u => Attributed u (address (from options))) us).
Proof.
  split.
  - intros getOffchainUID version schema request options u x Hst Hok.
    exact (expectAttestation_attributed getOffchainUID version schema request
             options Hst W h w u Hok).
  - intros requests options x Hst Hok.
    exact (expectMultiAttestations_attributed requests options Hst W h w tt
             Hok).
Qed.

Lemma proxy_attestations_are_attributed_witness :
  proxy_attributions
    (trace_of
       (run Scenario.collaborators
          (expectAttestation Scenario.no_uid 1 "0xAA" (Scenario.bare "0x1111")
             (Scenario.attestation_options (Some DelegatedProxy) None None))
          Scenario.with_proxy))
  = [Attested ["uid:attestByDelegationProxy"];
     Attributed "uid:attestByDelegationProxy" "addr:k1"].
Proof.
  exact (proj1 (proxy_attestations_are_attributed _ Scenario.collaborators
                  Scenario.with_proxy)
           Scenario.no_uid 1 "0xAA" (Scenario.bare "0x1111")
           (Scenario.attestation_options (Some DelegatedProxy) None None)
           "uid:attestByDelegationProxy" eq_refl eq_refl).
Defined.

(** ** What is signed is what is submitted *)

(** A single request is signed and submitted with one and the same content:
    the schema given and the caller's request, its omitted members resolved.
    This holds of every signing call and every submission of a run, on every
    path. *)
Theorem single_request_is_signed_as_submitted (W : Type) (h : handler W)
    (w : W) :
  (forall getOffchainUID version schema request options,
      Forall (eq (schema, rd_recipient request,
                  or_default NO_EXPIRATION (rd_expirationTime request),
                  or_default true (rd_revocable request),
                  or_default ZERO_BYTES32 (rd_refUID request),
                  rd_data request))
        (attestation_contents
           (trace_of (run h (expectAttestation getOffchainUID version schema
                               request options) w))))
  /\ (forall schema request options,
         Forall (eq (schema, rv_uid request))
           (revocation_contents
              (trace_of (run h (expectRevocation schema request options) w)))).
Proof.
  split.
  - intros getOffchainUID version schema request options.
    assert (H : all_seen attestation_content
                  (eq (schema, rd_recipient request,
                       or_default NO_EXPIRATION (rd_expirationTime request),
                       or_default true (rd_revocable request),
                       or_default ZERO_BYTES32 (rd_refUID request),
                       rd_data request))
                  (expectAttestation getOffchainUID version schema request
                     options)) by all_seen_by reflexivity.
    apply H.
  - intros schema request options.
    assert (H : all_seen revocation_content (eq (schema, rv_uid request))
                  (expectRevocation schema request options))
      by all_seen_by reflexivity.
    apply H.
Qed.

Example single_request_scenario :
  attestation_contents
    (trace_of
       (run Scenario.collaborators
          (expectAttestation Scenario.no_uid 1 "0xAA" (Scenario.bare "0x1111")
             (Scenario.attestation_options (Some DelegatedProxy) None None))
          Scenario.with_proxy))
  = [("0xAA", "0x1111", 0, true, ZERO_BYTES32, "0x");
     ("0xAA", "0x1111", 0, true, ZERO_BYTES32, "0x")].
Proof. reflexivity. Qed.

(** ** A batch is submitted as it was given *)

Section LoopsOverDone.
Context {B : Type} (f : entry -> list B) (P : B -> Prop).

(** A loop that keeps an invariant of its state and the elements done. *)
Lemma returning_for_of_done {S X : Type} (body : S -> X -> prog S)
    (I : list X -> S -> Prop) (xs : list X) :
  (forall done s x,
      I done s -> all_seen_returning f P (body s x) (I (done ++ [x])%list)) ->
  forall done s,
    I done s ->
    all_seen_returning f P (for_of xs body s) (I (done ++ xs)%list).
Proof.
  intros Hbody. induction xs as [| x xs IH]; intros done s Hs.
  - apply returning_Ret. now rewrite app_nil_r.
  - rewrite for_of_cons.
    eapply returning_bind with (R := I (done ++ [x])%list);
      [apply Hbody; exact Hs |].
    intros s' Hs'. specialize (IH _ _ Hs').
    now rewrite <- app_assoc in IH.
Qed.

End LoopsOverDone.

(** The signing loops of a batch build one group per request done, with the
    request's schema and items; the submission that follows shows them. *)
Ltac batch_mirrors I :=
  eapply all_seen_returning_seen with (R := fun _ => True);
  eapply returning_bind;
    [ apply (returning_for_of_done _ _ _ I) with (done := @nil _);
      [ intros ? ? ? ?;
        match goal with
        | |- all_seen_returning _ _ (?g _ ?s _) _ =>
            unfold g; try destruct s
        | |- all_seen_returning _ _ (?g _ _ _ ?s _) _ =>
            unfold g
        end;
        eapply returning_bind with (R := fun _ => True);
          [ apply returning_all_seen; apply silent_all_seen; silence
          | intros ? _;
            match goal with
            | |- all_seen_returning _ _ (match ?x with _ => _ end) _ =>
                destruct x
            | _ => idtac
            end;
            apply returning_Ret; cbn in *; rewrite !map_app; cbn;
            congruence ]
      | reflexivity ]
    | intros ? ?;
      match goal with
      | |- all_seen_returning _ _ (match ?x with _ => _ end) _ => destruct x
      | _ => idtac
      end;
      apply returning_all_seen; apply all_seen_bind;
        [ apply all_seen_await; intros ?; cbn in *; repeat constructor;
          congruence
        | intros ?; apply silent_all_seen; silence ] ].

Lemma expectMultiAttestations_mirrors requests options :
  all_seen submitted_attestation_batch
    (eq (map (fun r => (mar_schema r, mar_data r)) requests))
    (expectMultiAttestations requests options).
Proof.
  unfold expectMultiAttestations.
  apply all_seen_bind; [| intros [tx uids]; apply silent_all_seen; silence].
  unfold multi_attestation_switch.
  destruct (or_default Direct (signatureType options)).
  - all_seen_by reflexivity.
  - apply all_seen_bind; [apply silent_all_seen; silence | intros nonce].
    batch_mirrors
      (fun (done : list MultiAttestationRequest)
           (s : Z * list MultiDelegatedAttestationRequest) =>
         map (fun g => (mdar_schema g, mdar_data g)) (snd s)
         = map (fun r => (mar_schema r, mar_data r)) done).
  - apply all_seen_bind; [apply silent_all_seen; silence | intros [p |]];
      [| apply all_seen_Throw].
    apply all_seen_bind; [apply silent_all_seen; silence | intros delegated].
    batch_mirrors
      (fun (done : list MultiAttestationRequest)
           (s : list MultiDelegatedProxyAttestationRequest) =>
         map (fun g => (mdpar_schema g, mdpar_data g)) s
         = map (fun r => (mar_schema r, mar_data r)) done).
  - apply all_seen_Throw.
Qed.

Lemma expectMultiRevocations_mirrors requests options :
  all_seen submitted_revocation_batch
    (eq (map (fun r => (mrr_schema r, mrr_data r)) requests))
    (expectMultiRevocations requests options).
Proof.
  unfold expectMultiRevocations.
  apply all_seen_bind; [| intros tx; apply silent_all_seen; silence].
  unfold multi_revocation_switch.
  destruct (or_default Direct (r_signatureType options)).
  - all_seen_by reflexivity.
  - apply all_seen_bind; [apply silent_all_seen; silence | intros nonce].
    batch_mirrors
      (fun (done : list MultiRevocationRequest)
           (s : Z * list MultiDelegatedRevocationRequest) =>
         map (fun g => (mdrr_schema g, mdrr_data g)) (snd s)
         = map (fun r => (mrr_schema r, mrr_data r)) done).
  - apply all_seen_bind; [apply silent_all_seen; silence | intros [p |]];
      [| apply all_seen_Throw].
    apply all_seen_bind; [apply silent_all_seen; silence | intros delegated].
    batch_mirrors
      (fun (done : list MultiRevocationRequest)
           (s : list MultiDelegatedProxyRevocationRequest) =>
         map (fun g => (mdprr_schema g, mdprr_data g)) s
         = map (fun r => (mrr_schema r, mrr_data r)) done).
  - apply all_seen_Ret.
Qed.

(** Whatever the path, a batch reaches the ledger with one group per request,
    in order, each with the schema and the items of its request as the
    caller gave them: the members an item leaves out are resolved for its
    signature only, not in what is submitted. *)
Theorem batch_is_submitted_as_given (W : Type) (h : handler W) (w : W) :
  (forall requests options,
      Forall (eq (map (fun r => (mar_schema r, mar_data r)) requests))
        (flat_map submitted_attestation_batch
           (trace_of (run h (expectMultiAttestations requests options) w))))
  /\ (forall requests options,
         Forall (eq (map (fun r => (mrr_schema r, mrr_data r)) requests))
           (flat_map submitted_revocation_batch
              (trace_of (run h (expectMultiRevocations requests options) w)))).
Proof.
  split.
  - intros requests options.
    apply (expectMultiAttestations_mirrors requests options W h w).
  - intros requests options.
    apply (expectMultiRevocations_mirrors requests options W h w).
Qed.

Example batch_scenario_is_submitted_as_given :
  flat_map submitted_attestation_batch
    (trace_of
       (run Scenario.collaborators
          (expectMultiAttestations Scenario.batch
             (Scenario.attestation_options (Some DelegatedProxy) None None))
          Scenario.with_proxy))
  = [[("0xAA", [Scenario.bare "0x1111"; Scenario.bare "0x2222"]);
      ("0xBB", [Scenario.bare "0x3333"])]].
Proof. reflexivity. Qed.
